(** * A web file browser over a configurable root directory

    Shallow embedding of the Express servers of the repository
    (file_explorer_app.js, enhanced_server.js, folder_structure_app.js and
    the two further server variants) and the properties of their path guard,
    directory enumerators, content reader and root configuration.

    Conventions.
    - JavaScript strings are [string]s of bytes, their UTF-8 form;
      [toLowerCase] is the ASCII one.
    - [fs.readdir] lists a directory as libuv's [scandir] does on POSIX, the
      names in the order of their bytes; the properties that need it say so.
    - An [async] function that may reject is a function into [result]; [await]
      is sequencing.  [null] is [None].
    - The platform (Node's [path] module in its POSIX flavour, [fs.promises],
      [Buffer]) is modelled next to the code that uses it. *)

From Stdlib Require Import List String Ascii Bool Arith ZArith NArith Lia.
From Stdlib Require Import Strings.Byte Sorting.Sorted Sorting.Permutation.
From Stdlib Require Import Numbers.DecimalString.
Import ListNotations.

#[local] Set Warnings "-register-all".

Local Open Scope list_scope.
Local Open Scope string_scope.

(** ** Strings *)

Module Str.

(** [s.startsWith(p)] *)
Definition startsWith (s p : string) : bool := String.prefix p s.

Fixpoint endsWithChar (c : ascii) (s : string) : bool :=
  match s with
  | EmptyString => false
  | String a EmptyString => Ascii.eqb a c
  | String _ r => endsWithChar c r
  end.

(** [s.slice(1)] *)
Definition slice1 (s : string) : string :=
  match s with
  | EmptyString => EmptyString
  | String _ r => r
  end.

Definition lowerChar (c : ascii) : ascii :=
  let n := nat_of_ascii c in
  if Nat.leb 65 n && Nat.leb n 90 then ascii_of_nat (n + 32) else c.

(** [s.toLowerCase()] on ASCII letters; other bytes are kept.  JavaScript
    also lowers the letters outside ASCII.  The program lowers extensions
    only: the tests of an extension against the ASCII extensions of the
    program are the same with both (none of these holds a [k], the one ASCII
    letter that a letter outside ASCII, the Kelvin sign, lowers to), and the
    [type] of a descriptor, the lower-cased extension without its dot, is
    the program's for an extension in ASCII. *)
Fixpoint toLowerCase (s : string) : string :=
  match s with
  | EmptyString => EmptyString
  | String c r => String (lowerChar c) (toLowerCase r)
  end.

(** [s.replace(/\\/g, '/')] *)
Fixpoint backslashToSlash (s : string) : string :=
  match s with
  | EmptyString => EmptyString
  | String c r =>
      String (if Ascii.eqb c "\"%char then "/"%char else c) (backslashToSlash r)
  end.

(** Template-literal interpolation of a non-negative integer. *)
Definition ofN (n : N) : string := NilEmpty.string_of_uint (N.to_uint n).

(** [arr.includes(x)] on an array of strings *)
Definition includes (l : list string) (x : string) : bool :=
  existsb (String.eqb x) l.

(** [a] is not after [b] in the order of the bytes, the order of C's
    [strcmp]. *)
Definition leb (a b : string) : bool :=
  match String.compare a b with
  | Gt => false
  | _ => true
  end.

End Str.

(** ** Node's [path] module (POSIX)

  [path.join], [path.resolve], [path.normalize], [path.basename] and
  [path.extname] as Node defines them for POSIX paths.  Node's character
  scanner [normalizeString] is modelled on the list of segments between
  slashes: an empty segment or [.] is dropped, [..] removes the segment
  before it (or is kept, when the path is relative and nothing is left to
  remove), anything else is appended. *)

Module Path.

Definition slash : ascii := "/"%char.

(** The segments between the slashes of [s]; never the empty list. *)
Fixpoint split_slash (s : string) : list string :=
  match s with
  | EmptyString => [EmptyString]
  | String c r =>
      if Ascii.eqb c slash then EmptyString :: split_slash r
      else match split_slash r with
           | h :: t => String c h :: t
           | [] => [String c EmptyString]
           end
  end.

Fixpoint join_slash (l : list string) : string :=
  match l with
  | [] => EmptyString
  | x :: r =>
      match r with
      | [] => x
      | _ :: _ => x ++ String slash (join_slash r)
      end
  end.

(** One segment of [normalizeString]; [stk] is the result so far, last
    segment first. *)
Definition step (allowAboveRoot : bool) (stk : list string) (seg : string)
  : list string :=
  if (seg =? "") || (seg =? ".") then stk
  else if seg =? ".." then
    match stk with
    | top :: rest =>
        if top =? ".." then (if allowAboveRoot then seg :: stk else stk)
        else rest
    | [] => if allowAboveRoot then [seg] else []
    end
  else seg :: stk.

Definition normSegs (allowAboveRoot : bool) (segs : list string)
  : list string :=
  rev (fold_left (step allowAboveRoot) segs []).

Definition normalizeString (path : string) (allowAboveRoot : bool) : string :=
  join_slash (normSegs allowAboveRoot (split_slash path)).

Definition isAbsolute (path : string) : bool :=
  match path with
  | String c _ => Ascii.eqb c slash
  | EmptyString => false
  end.

(** [path.normalize(path)] *)
Definition normalize (path : string) : string :=
  if path =? "" then "."
  else
    let isAbs := isAbsolute path in
    let trailingSeparator := Str.endsWithChar slash path in
    let p := normalizeString path (negb isAbs) in
    if p =? "" then
      if isAbs then "/" else if trailingSeparator then "./" else "."
    else
      let p := if trailingSeparator then p ++ "/" else p in
      if isAbs then String slash p else p.

(** [path.join(a, b)]: the non-empty arguments are glued with a slash and
    the result is normalized. *)
Definition join (a b : string) : string :=
  let joined :=
    if a =? "" then b
    else if b =? "" then a
    else a ++ String slash b in
  if joined =? "" then "." else normalize joined.

(** [path.resolve(p)] in a process whose working directory is [cwd]. *)
Definition resolve (cwd p : string) : string :=
  let resolvedPath :=
    if p =? "" then cwd ++ "/"
    else if isAbsolute p then p ++ "/"
    else cwd ++ String slash (p ++ "/") in
  let resolvedAbsolute :=
    if p =? "" then isAbsolute cwd else isAbsolute p || isAbsolute cwd in
  let r := normalizeString resolvedPath (negb resolvedAbsolute) in
  if resolvedAbsolute then String slash r
  else if r =? "" then "." else r.

Definition nonEmpty (s : string) : bool := negb (s =? "").

Fixpoint hasSlash (s : string) : bool :=
  match s with
  | EmptyString => false
  | String c r => Ascii.eqb c slash || hasSlash r
  end.

Fixpoint isPrefixOf (l1 l2 : list string) : bool :=
  match l1, l2 with
  | [], _ => true
  | _ :: _, [] => false
  | x :: r1, y :: r2 => (x =? y) && isPrefixOf r1 r2
  end.

(** Containment of one canonical path in another, compared segment by
    segment: the segments of [root] are the first segments of [path]. *)
Definition containedBySegments (root path : string) : bool :=
  isPrefixOf (filter nonEmpty (split_slash root))
    (filter nonEmpty (split_slash path)).

(** [path.basename(path)]: the last component, trailing slashes ignored. *)
Definition basename (path : string) : string :=
  last (filter nonEmpty (split_slash path)) EmptyString.

(** The suffix of [s] that starts at its last dot. *)
Fixpoint fromLastDot (s : string) : option string :=
  match s with
  | EmptyString => None
  | String c r =>
      match fromLastDot r with
      | Some e => Some e
      | None => if Ascii.eqb c "."%char then Some s else None
      end
  end.

(** [path.extname(path)]: from the last dot of the last component to its
    end; empty when there is no dot, when the only dot starts the component,
    or when the component is [..]. *)
Definition extname (path : string) : string :=
  match basename path with
  | EmptyString => EmptyString
  | String c r =>
      if String c r =? ".." then EmptyString
      else match fromLastDot r with
           | Some e => e
           | None => EmptyString
           end
  end.

(** *** Segments, for the properties below *)

(** A segment that [normalizeString] keeps in any case: a name. *)
Definition plain (s : string) : bool :=
  negb (s =? "") && negb (s =? ".") && negb (s =? "..").

(** A segment that [normalizeString] does not drop. *)
Definition kept (s : string) : bool :=
  negb ((s =? "") || (s =? ".")).

(** No segment of [p] is [..]. *)
Definition noDotDot (p : string) : bool :=
  forallb (fun s => negb (s =? "..")) (split_slash p).

End Path.

(** ** Results of operations that may throw *)

Inductive result (A : Type) : Type :=
| Ok (a : A)
| Throw (message : string).

Arguments Ok {A} a.
Arguments Throw {A} message.

(** ** [Buffer.toString('base64')] and its inverse *)

Module Base64.

Definition alphabet : string :=
  "ABCDEFGHIJKLMNOPQRSTUVWXYZabcdefghijklmnopqrstuvwxyz0123456789+/".

Definition pad : ascii := "="%char.

Definition encodeSextet (n : N) : ascii :=
  match String.get (N.to_nat n) alphabet with
  | Some c => c
  | None => pad
  end.

Fixpoint indexOf (c : ascii) (s : string) : option N :=
  match s with
  | EmptyString => None
  | String a r =>
      if Ascii.eqb a c then Some 0%N
      else option_map N.succ (indexOf c r)
  end.

Definition decodeChar (c : ascii) : option N := indexOf c alphabet.

Definition sextet1 (a : N) : N := (a / 4)%N.
Definition sextet2 (a b : N) : N := ((a mod 4) * 16 + b / 16)%N.
Definition sextet3 (b c : N) : N := ((b mod 16) * 4 + c / 64)%N.
Definition sextet4 (c : N) : N := (c mod 64)%N.

(** Three bytes give four characters; a last group of one or two bytes is
    padded with [=]. *)
Fixpoint encode (bs : list byte) : string :=
  match bs with
  | [] => EmptyString
  | [a] =>
      let a := Byte.to_N a in
      String (encodeSextet (sextet1 a))
        (String (encodeSextet (sextet2 a 0))
           (String pad (String pad EmptyString)))
  | [a; b] =>
      let a := Byte.to_N a in
      let b := Byte.to_N b in
      String (encodeSextet (sextet1 a))
        (String (encodeSextet (sextet2 a b))
           (String (encodeSextet (sextet3 b 0)) (String pad EmptyString)))
  | a :: b :: c :: rest =>
      let a := Byte.to_N a in
      let b := Byte.to_N b in
      let c := Byte.to_N c in
      String (encodeSextet (sextet1 a))
        (String (encodeSextet (sextet2 a b))
           (String (encodeSextet (sextet3 b c))
              (String (encodeSextet (sextet4 c)) (encode rest))))
  end.

Definition byte1 (s1 s2 : N) : N := (s1 * 4 + s2 / 16)%N.
Definition byte2 (s2 s3 : N) : N := ((s2 mod 16) * 16 + s3 / 4)%N.
Definition byte3 (s3 s4 : N) : N := ((s3 mod 4) * 64 + s4)%N.

Definition bytes1 (c1 c2 : ascii) : option (list byte) :=
  match decodeChar c1, decodeChar c2 with
  | Some s1, Some s2 =>
      match Byte.of_N (byte1 s1 s2) with
      | Some a => Some [a]
      | None => None
      end
  | _, _ => None
  end.

Definition bytes2 (c1 c2 c3 : ascii) : option (list byte) :=
  match decodeChar c1, decodeChar c2, decodeChar c3 with
  | Some s1, Some s2, Some s3 =>
      match Byte.of_N (byte1 s1 s2), Byte.of_N (byte2 s2 s3) with
      | Some a, Some b => Some [a; b]
      | _, _ => None
      end
  | _, _, _ => None
  end.

Definition bytes3 (c1 c2 c3 c4 : ascii) : option (list byte) :=
  match decodeChar c1, decodeChar c2, decodeChar c3, decodeChar c4 with
  | Some s1, Some s2, Some s3, Some s4 =>
      match Byte.of_N (byte1 s1 s2), Byte.of_N (byte2 s2 s3),
            Byte.of_N (byte3 s3 s4) with
      | Some a, Some b, Some c => Some [a; b; c]
      | _, _, _ => None
      end
  | _, _, _, _ => None
  end.

(** The decoder of padded base64 text. *)
Fixpoint decode (s : string) : option (list byte) :=
  match s with
  | EmptyString => Some []
  | String c1 (String c2 (String c3 (String c4 rest))) =>
      if Ascii.eqb c4 pad then
        match rest with
        | EmptyString =>
            if Ascii.eqb c3 pad then bytes1 c1 c2 else bytes2 c1 c2 c3
        | String _ _ => None
        end
      else
        match bytes3 c1 c2 c3 c4, decode rest with
        | Some l, Some r => Some (l ++ r)%list
        | _, _ => None
        end
  | _ => None
  end.

Definition sextetOk (n : nat) : bool :=
  match decodeChar (encodeSextet (N.of_nat n)) with
  | Some m => N.eqb m (N.of_nat n)
  | None => false
  end
  && negb (Ascii.eqb (encodeSextet (N.of_nat n)) pad).

End Base64.


(** ** Decoding a file as UTF-8

    [buffer.toString('utf8')], which [fs.readFile(p, 'utf8')] returns: the
    decoder of the Encoding Standard.  A JavaScript string is written here
    as the bytes of its UTF-8 form, so a well-formed sequence decodes to
    itself, and every maximal ill-formed part of the input becomes one
    U+FFFD, the bytes EF BF BD.  A byte order mark is kept. *)
Module Utf8.

Definition replacement : string :=
  String (ascii_of_nat 239) (String (ascii_of_nat 191)
    (String (ascii_of_nat 189) EmptyString)).

(** The state of the decoder: the bytes still needed for the sequence that
    is open, the range the next byte must lie in, and the bytes of the
    sequence seen so far. *)
Record State := mkState {
  needed : nat;
  lower : N;
  upper : N;
  seen : string
}.

Definition initial : State := mkState 0 128 191 EmptyString.

Definition one (b : byte) : string := String (ascii_of_byte b) EmptyString.

(** A byte read while no sequence is open: what is written, and the state
    after it. *)
Definition lead (b : byte) : string * State :=
  let n := Byte.to_N b in
  if (n <=? 127)%N then (one b, initial)
  else if ((194 <=? n) && (n <=? 223))%N then
    (EmptyString, mkState 1 128 191 (one b))
  else if ((224 <=? n) && (n <=? 239))%N then
    (EmptyString,
     mkState 2 (if (n =? 224)%N then 160 else 128)
       (if (n =? 237)%N then 159 else 191) (one b))
  else if ((240 <=? n) && (n <=? 244))%N then
    (EmptyString,
     mkState 3 (if (n =? 240)%N then 144 else 128)
       (if (n =? 244)%N then 143 else 191) (one b))
  else (replacement, initial).

Fixpoint decodeFrom (st : State) (input : list byte) : string :=
  match input with
  | [] =>
      match needed st with
      | O => EmptyString
      | S _ => replacement
      end
  | b :: rest =>
      match needed st with
      | O =>
          match lead b with
          | (out, st') => out ++ decodeFrom st' rest
          end
      | S k =>
          let n := Byte.to_N b in
          if ((lower st <=? n) && (n <=? upper st))%N then
            match k with
            | O => seen st ++ one b ++ decodeFrom initial rest
            | S _ => decodeFrom (mkState k 128 191 (seen st ++ one b)) rest
            end
          else
            (* the open sequence is ill-formed; the byte is read again as
               the first of a new one *)
            replacement
            ++ match lead b with
               | (out, st') => out ++ decodeFrom st' rest
               end
      end
  end.

Definition decode (bytes : list byte) : string := decodeFrom initial bytes.

End Utf8.

(** ** The file system seen through [fs.promises]

    Each operation the servers call is a function of the path.  The
    operations are independent of one another, so that a listing may name an
    entry whose [stat] or [readdir] fails afterwards (an entry removed between
    the two calls, a dangling link, a directory without read permission). *)

Module Fs.

Record Stats := mkStats {
  size : N;
  mtime : Z;            (* milliseconds since the epoch *)
  isDirectory : bool
}.

(** An entry of [readdir(p, { withFileTypes: true })]. *)
Record Dirent := mkDirent {
  name : string;
  isDir : bool
}.

(** The operations on a non-empty path. *)
Record FS := mkFS {
  cwd : string;                                 (* process.cwd() *)
  readdirAt : string -> result (list Dirent);
  statAt : string -> result Stats;
  readFileAt : string -> result (list byte);
  accessAt : string -> bool                     (* fs.access(p) resolves *)
}.

Definition enoent (p : string) : string :=
  "ENOENT: no such file or directory '" ++ p ++ "'".

(** The empty path names nothing: every operation fails on it. *)
Definition readdir (fs : FS) (p : string) : result (list Dirent) :=
  if p =? "" then Throw (enoent p) else readdirAt fs p.

Definition stat (fs : FS) (p : string) : result Stats :=
  if p =? "" then Throw (enoent p) else statAt fs p.

Definition readFile (fs : FS) (p : string) : result (list byte) :=
  if p =? "" then Throw (enoent p) else readFileAt fs p.

Definition access (fs : FS) (p : string) : bool :=
  if p =? "" then false else accessAt fs p.

(** [fs.readdir(p)] without file types: the names. *)
Definition readdirNames (fs : FS) (p : string) : result (list string) :=
  match readdir fs p with
  | Ok items => Ok (map name items)
  | Throw m => Throw m
  end.

(** [fs.readFile(p, 'utf8')]: the bytes, decoded. *)
Definition readFileUtf8 (fs : FS) (p : string) : result string :=
  match readFile fs p with
  | Ok bytes => Ok (Utf8.decode bytes)
  | Throw m => Throw m
  end.

(** [buffer.length] *)
Definition bufferLength (b : list byte) : N := N.of_nat (List.length b).

(** [fs.readdir] returns the entries as libuv's [scandir] sorts them: by
    name, in the order of the bytes. *)
Definition byBytes (a b : Dirent) : Prop := Str.leb (name a) (name b) = true.

Definition sortedListings (fs : FS) : Prop :=
  forall dirPath items,
    readdir fs dirPath = Ok items -> StronglySorted byBytes items.

(** Directories nest to a finite depth: [depth] decreases from a directory
    to each directory it lists. *)
Definition finiteDepth (fs : FS) (depth : string -> nat) : Prop :=
  forall dirPath items item,
    readdir fs dirPath = Ok items ->
    In item items ->
    isDir item = true ->
    depth (Path.join dirPath (name item)) < depth dirPath.

End Fs.

(** ** A file system given by a finite tree

    Used to build concrete file systems.  A directory lists its entries in
    the order the tree gives them; [Missing] is a name the directory lists
    although nothing can be reached through it. *)

Module TreeFS.

Inductive Node :=
| File (data : list byte) (mtime : Z) (readable : bool)
| Dir (mtime : Z) (readable : bool) (entries : list (string * Node))
| Missing.

(** The names a directory entry can have. *)
Definition validName (n : string) : bool :=
  negb (n =? "") && negb (n =? ".") && negb (n =? "..")
  && negb (Path.hasSlash n).

Fixpoint child (n : string) (entries : list (string * Node)) : option Node :=
  match entries with
  | [] => None
  | (k, v) :: r => if k =? n then Some v else child n r
  end.

Fixpoint walk (node : Node) (segs : list string) : option Node :=
  match segs with
  | [] => Some node
  | s :: r =>
      match node with
      | Dir _ _ entries =>
          match child s entries with
          | Some c => walk c r
          | None => None
          end
      | _ => None
      end
  end.

(** Where the segments of [p] start: at the root, or at the working
    directory when [p] is relative. *)
Definition base (cwd p : string) : list string :=
  if Path.isAbsolute p then [] else Path.split_slash cwd.

(** The segments of [p] from the root of the tree. *)
Definition segments (cwd p : string) : list string :=
  Path.normSegs false (base cwd p ++ Path.split_slash p)%list.

Definition lookup (root : Node) (cwd p : string) : option Node :=
  if p =? "" then None else walk root (segments cwd p).

Definition dirent (e : string * Node) : Fs.Dirent :=
  Fs.mkDirent (fst e)
    match snd e with
    | Dir _ _ _ => true
    | _ => false
    end.

Definition listed (e : string * Node) : bool := validName (fst e).

(** The order in which [fs.readdir] returns the entries of a directory: by
    name, in the order of the bytes. *)
Fixpoint insertEntry (e : string * Node) (l : list (string * Node))
  : list (string * Node) :=
  match l with
  | [] => [e]
  | x :: r =>
      if Str.leb (fst e) (fst x) then e :: x :: r else x :: insertEntry e r
  end.

Fixpoint sortEntries (l : list (string * Node)) : list (string * Node) :=
  match l with
  | [] => []
  | e :: r => insertEntry e (sortEntries r)
  end.

Definition enoent (p : string) : string := Fs.enoent p.
Definition eacces (p : string) : string :=
  "EACCES: permission denied '" ++ p ++ "'".
Definition enotdir (p : string) : string :=
  "ENOTDIR: not a directory '" ++ p ++ "'".
Definition eisdir (p : string) : string :=
  "EISDIR: illegal operation on a directory '" ++ p ++ "'".

Definition readdir (root : Node) (cwd p : string) : result (list Fs.Dirent) :=
  match lookup root cwd p with
  | Some (Dir _ true entries) =>
      Ok (map dirent (sortEntries (filter listed entries)))
  | Some (Dir _ false _) => Throw (eacces p)
  | Some (File _ _ _) => Throw (enotdir p)
  | Some Missing | None => Throw (enoent p)
  end.

Definition stat (root : Node) (cwd p : string) : result Fs.Stats :=
  match lookup root cwd p with
  | Some (Dir m _ _) => Ok (Fs.mkStats 4096 m true)
  | Some (File data m _) => Ok (Fs.mkStats (Fs.bufferLength data) m false)
  | Some Missing | None => Throw (enoent p)
  end.

Definition readFile (root : Node) (cwd p : string) : result (list byte) :=
  match lookup root cwd p with
  | Some (File data _ true) => Ok data
  | Some (File _ _ false) => Throw (eacces p)
  | Some (Dir _ _ _) => Throw (eisdir p)
  | Some Missing | None => Throw (enoent p)
  end.

Definition access (root : Node) (cwd p : string) : bool :=
  match lookup root cwd p with
  | Some (Dir _ _ _) | Some (File _ _ _) => true
  | Some Missing | None => false
  end.

Definition toFS (cwd : string) (root : Node) : Fs.FS :=
  Fs.mkFS cwd (readdir root cwd) (stat root cwd) (readFile root cwd)
    (access root cwd).

Definition text (s : string) : Node := File (list_byte_of_string s) 0 true.
Definition dir (entries : list (string * Node)) : Node := Dir 0 true entries.

(** *** The depth of a tree *)

Fixpoint height (n : Node) : nat :=
  match n with
  | Dir _ _ entries =>
      S ((fix heights (l : list (string * Node)) : nat :=
            match l with
            | [] => 0
            | e :: r => Nat.max (height (snd e)) (heights r)
            end) entries)
  | _ => 0
  end.

(** The depth of the tree below [p]; 0 when [p] names nothing. *)
Definition depth (root : Node) (cwd p : string) : nat :=
  match lookup root cwd p with
  | Some n => S (height n)
  | None => 0
  end.

End TreeFS.

(** ** Requests and replies *)

(** A value of a JSON request body, as far as the servers look at it. *)
Inductive JsValue :=
| JUndefined
| JNull
| JBool (b : bool)
| JNumber (z : Z)
| JString (s : string)
| JObject.             (* an object or an array *)

(** [!v] *)
Definition falsy (v : JsValue) : bool :=
  match v with
  | JUndefined | JNull => true
  | JBool b => negb b
  | JNumber z => Z.eqb z 0
  | JString s => s =? ""
  | JObject => false
  end.

(** What a handler sends. *)
Inductive Reply (A : Type) : Type :=
| Json (payload : A)                    (* res.json(payload) *)
| Failure (status : nat) (error : string).
                                        (* res.status(status).json({ error }) *)

Arguments Json {A} payload.
Arguments Failure {A} status error.

Definition statusOf {A : Type} (r : Reply A) : nat :=
  match r with
  | Json _ => 200
  | Failure s _ => s
  end.

(** What a download handler does: it answers itself, or it calls
    [res.sendFile(path)] / [res.download(path)] and leaves the response to
    the library, which sends the file or refuses it on grounds of its own;
    the status of that response is not the handler's. *)
Inductive Download :=
| Refused (status : nat) (error : string)
                                        (* res.status(status).json({ error }) *)
| SendFile (path : string) (fileName : option string).
                                        (* the call; [fileName] goes into
                                           Content-Disposition *)

(** The handler itself answers with [status]. *)
Definition refusedWith (status : nat) (d : Download) : bool :=
  match d with
  | Refused s _ => Nat.eqb s status
  | SendFile _ _ => false
  end.

Definition doubleQuote : string := String (ascii_of_nat 34) EmptyString.

(** A character [res.setHeader] accepts in a value: a tab, a printable ASCII
    character, or a character from U+0080 to U+00FF (in UTF-8, the bytes 80
    to C3). *)
Definition headerChar (c : ascii) : bool :=
  let n := nat_of_ascii c in
  Nat.eqb n 9 || (Nat.leb 32 n && Nat.leb n 126) || (Nat.leb 128 n && Nat.leb n 195).

Fixpoint validHeaderValue (s : string) : bool :=
  match s with
  | EmptyString => true
  | String c r => headerChar c && validHeaderValue r
  end.

(** The message of the [TypeError] [res.setHeader] throws otherwise. *)
Definition invalidHeaderChar (name : string) : string :=
  "Invalid character in header content [" ++ doubleQuote ++ name
  ++ doubleQuote ++ "]".

(** The module-level variable [ROOT_FOLDER]: a string or [null]. *)
Definition RootFolder := option string.

(** [!ROOT_FOLDER] *)
Definition notConfigured (ROOT_FOLDER : RootFolder) : bool :=
  match ROOT_FOLDER with
  | None => true
  | Some r => r =? ""
  end.

(** [{ success: true, rootPath, folderName }] *)
Record RootSet := mkRootSet {
  rootPath : string;
  folderName : string
}.

(** The message of the [TypeError] that [fs.stat] and [path.join] raise for
    an argument that is no string. *)
Definition invalidArgType : string :=
  "The path argument must be of type string".

(** The security check that the folder, file and download handlers of every
    variant spell out after [const fullPath = path.join(ROOT_FOLDER, p)]:
<<
    const normalizedPath = path.resolve(fullPath);
    const normalizedRoot = path.resolve(ROOT_FOLDER);
    if (!normalizedPath.startsWith(normalizedRoot)) { ... 403 ... }
>>
    [securityCheck] is the condition under which the handler goes on. *)
Definition securityCheck (cwd ROOT_FOLDER fullPath : string) : bool :=
  let normalizedPath := Path.resolve cwd fullPath in
  let normalizedRoot := Path.resolve cwd ROOT_FOLDER in
  Str.startsWith normalizedPath normalizedRoot.

(** The candidate is a string that names an existing directory. *)
Definition existingDirectory (fs : Fs.FS) (folderPath : JsValue) : bool :=
  match folderPath with
  | JString p =>
      match Fs.stat fs p with
      | Ok stats => Fs.isDirectory stats
      | Throw _ => false
      end
  | _ => false
  end.

Definition newline : string := String (ascii_of_nat 10) EmptyString.

(** The lines of a template literal. *)
Fixpoint unlines (l : list string) : string :=
  match l with
  | [] => EmptyString
  | x :: r =>
      match r with
      | [] => x
      | _ :: _ => x ++ newline ++ unlines r
      end
  end.

(** ** file_explorer_app.js *)

Module FileExplorer.

(** The object [readFileContent] builds; [downloadable] is absent until a
    branch sets it. *)
Record FileInfo := mkFileInfo {
  size : N;
  modified : Z;
  type : string;
  isText : bool;
  isBinary : bool;
  content : string;
  error : option string;
  downloadable : option bool
}.

Definition setIsText (v : bool) (f : FileInfo) : FileInfo :=
  mkFileInfo (size f) (modified f) (type f) v (isBinary f) (content f)
    (error f) (downloadable f).
Definition setIsBinary (v : bool) (f : FileInfo) : FileInfo :=
  mkFileInfo (size f) (modified f) (type f) (isText f) v (content f)
    (error f) (downloadable f).
Definition setContent (v : string) (f : FileInfo) : FileInfo :=
  mkFileInfo (size f) (modified f) (type f) (isText f) (isBinary f) v
    (error f) (downloadable f).
Definition setError (v : string) (f : FileInfo) : FileInfo :=
  mkFileInfo (size f) (modified f) (type f) (isText f) (isBinary f)
    (content f) (Some v) (downloadable f).
Definition setDownloadable (v : bool) (f : FileInfo) : FileInfo :=
  mkFileInfo (size f) (modified f) (type f) (isText f) (isBinary f)
    (content f) (error f) (Some v).

Definition pdfPlaceholder : string :=
  "PDF files require a PDF viewer. The file is available for download but cannot be displayed as text in this interface.".

Definition docPlaceholder : string :=
  "Legacy DOC files require Microsoft Word or a compatible application. Please convert to DOCX format for text extraction.".

Definition unableToRead : string :=
  "Unable to read file content. The file may be corrupted or in an unsupported format.".

Definition processExcelFile (fs : Fs.FS) (filePath : string) : string :=
  match Fs.readFile fs filePath with
  | Ok buffer =>
      unlines
        [ "Excel File Detected";
          "===================";
          "";
          "File: " ++ Path.basename filePath;
          "Size: " ++ Str.ofN (Fs.bufferLength buffer) ++ " bytes";
          "";
          "This is an Excel file (.xlsx/.xls). To properly view the content, you would need:";
          "";
          "1. Microsoft Excel";
          "2. LibreOffice Calc  ";
          "3. Google Sheets";
          "4. Online Excel viewer";
          "";
          "The file contains spreadsheet data with tables, formulas, and formatting that cannot be displayed as plain text.";
          "";
          "Note: Full Excel parsing requires additional libraries like 'xlsx' or 'exceljs' to extract worksheet data, formulas, and formatting." ]
  | Throw message => "Error reading Excel file: " ++ message
  end.

Definition processDocxFile (fs : Fs.FS) (filePath : string) : string :=
  match Fs.readFile fs filePath with
  | Ok buffer =>
      unlines
        [ "Word Document Detected";
          "======================";
          "";
          "File: " ++ Path.basename filePath;
          "Size: " ++ Str.ofN (Fs.bufferLength buffer) ++ " bytes";
          "";
          "This is a Microsoft Word document (.docx). To properly view the content, you would need:";
          "";
          "1. Microsoft Word";
          "2. LibreOffice Writer";
          "3. Google Docs";
          "4. Online Word viewer";
          "";
          "The file contains formatted text, images, tables, and other rich content that cannot be fully displayed as plain text.";
          "";
          "Note: Full DOCX text extraction requires libraries like 'mammoth' or 'docx-parser' to extract the document content while preserving formatting." ]
  | Throw message => "Error reading Word document: " ++ message
  end.

Definition processPptFile (fs : Fs.FS) (filePath : string) : string :=
  match Fs.readFile fs filePath with
  | Ok buffer =>
      let ext := Str.toLowerCase (Path.extname filePath) in
      unlines
        [ "PowerPoint Presentation Detected";
          "===============================";
          "";
          "File: " ++ Path.basename filePath;
          "Size: " ++ Str.ofN (Fs.bufferLength buffer) ++ " bytes";
          "Format: " ++ (if ext =? ".pptx" then "PowerPoint 2007+ (PPTX)"
                        else "PowerPoint Legacy (PPT)");
          "";
          "This is a Microsoft PowerPoint presentation. To properly view the content, you would need:";
          "";
          "1. Microsoft PowerPoint";
          "2. LibreOffice Impress";
          "3. Google Slides";
          "4. Online PowerPoint viewer";
          "";
          "The file contains slides with text, images, animations, and other multimedia content that cannot be displayed as plain text.";
          "";
          "Note: PowerPoint file parsing requires specialized libraries to extract slide content, speaker notes, and embedded media." ]
  | Throw message => "Error reading PowerPoint file: " ++ message
  end.

(** The [switch (ext)] inside the [try]: the object as the branch leaves it,
    and the message of the exception when the branch throws. *)
Definition readBranch (fs : Fs.FS) (filePath ext : string) (fileInfo : FileInfo)
  : FileInfo * option string :=
  if ext =? ".pdf" then
    (setDownloadable true (setContent pdfPlaceholder (setIsBinary true fileInfo)),
     None)
  else if (ext =? ".xlsx") || (ext =? ".xls") then
    (setContent (processExcelFile fs filePath) (setIsBinary true fileInfo), None)
  else if ext =? ".docx" then
    (setContent (processDocxFile fs filePath) (setIsBinary true fileInfo), None)
  else if ext =? ".doc" then
    (setContent docPlaceholder (setIsBinary true fileInfo), None)
  else if (ext =? ".pptx") || (ext =? ".ppt") then
    (setContent (processPptFile fs filePath) (setIsBinary true fileInfo), None)
  else
    let fileInfo := setIsText true fileInfo in
    match Fs.readFileUtf8 fs filePath with
    | Ok text => (setContent text fileInfo, None)
    | Throw message => (fileInfo, Some message)
    end.

(** [async function readFileContent(filePath)] *)
Definition readFileContent (fs : Fs.FS) (filePath : string) : result FileInfo :=
  let ext := Str.toLowerCase (Path.extname filePath) in
  match Fs.stat fs filePath with
  | Throw message => Throw message
  | Ok stats =>
      let fileInfo :=
        mkFileInfo (Fs.size stats) (Fs.mtime stats) (Str.slice1 ext)
          false false "" None None in
      match readBranch fs filePath ext fileInfo with
      | (fileInfo, None) => Ok fileInfo
      | (fileInfo, Some message) =>
          Ok (setContent unableToRead
                (setError ("Error reading file: " ++ message) fileInfo))
      end
  end.

(** [POST /api/set-root]: the new value of [ROOT_FOLDER] and the reply. *)
Definition setRoot (fs : Fs.FS) (ROOT_FOLDER : RootFolder) (folderPath : JsValue)
  : RootFolder * Reply RootSet :=
  if falsy folderPath then
    (ROOT_FOLDER, Failure 400 "Folder path is required")
  else
    match folderPath with
    | JString p =>
        match Fs.stat fs p with
        | Throw message =>
            (ROOT_FOLDER, Failure 400 ("Invalid folder path: " ++ message))
        | Ok stats =>
            if negb (Fs.isDirectory stats) then
              (ROOT_FOLDER, Failure 400 "Path is not a directory")
            else
              let ROOT_FOLDER := Path.resolve (Fs.cwd fs) p in
              (Some ROOT_FOLDER,
               Json (mkRootSet ROOT_FOLDER (Path.basename ROOT_FOLDER)))
        end
    | _ =>
        (* fs.stat rejects an argument that is no string *)
        (ROOT_FOLDER, Failure 400 ("Invalid folder path: " ++ invalidArgType))
    end.

(** [{ rootPath, folderName, configured }] of the first [GET /api/root-info]
    route (the second one, declared later for the same path, is never
    reached). *)
Record RootInfo := mkRootInfo {
  infoRootPath : option string;
  infoFolderName : option string;
  configured : bool
}.

Definition rootInfo (ROOT_FOLDER : RootFolder) : Reply RootInfo :=
  match ROOT_FOLDER with
  | Some r =>
      if r =? "" then Json (mkRootInfo None None false)
      else Json (mkRootInfo (Some r) (Some (Path.basename r)) true)
  | None => Json (mkRootInfo None None false)
  end.

(** A folder of the folders-only tree: [{ name, subFolders }]. *)
Inductive Folder :=
| mkFolder (name : string) (subFolders : list Folder).

Definition folderName' (f : Folder) : string :=
  match f with mkFolder n _ => n end.
Definition subFolders (f : Folder) : list Folder :=
  match f with mkFolder _ s => s end.

(** The [for (const item of items)] loop of [getFolderStructure]; [rec] is
    the recursive call, [None] when it does not return. *)
Fixpoint folderLoop (rec : string -> option (list Folder)) (dirPath : string)
  (items : list Fs.Dirent) : option (list Folder) :=
  match items with
  | [] => Some []
  | item :: rest =>
      if Fs.isDir item then
        match rec (Path.join dirPath (Fs.name item)) with
        | None => None
        | Some subFolders =>
            match folderLoop rec dirPath rest with
            | None => None
            | Some folders => Some (mkFolder (Fs.name item) subFolders :: folders)
            end
        end
      else folderLoop rec dirPath rest
  end.

(** [async function getFolderStructure(dirPath)]: the recursion follows the
    directories on disk; [fuel] bounds its depth and [None] says the bound
    was reached. *)
Fixpoint getFolderStructure (fuel : nat) (fs : Fs.FS) (dirPath : string)
  : option (list Folder) :=
  match fuel with
  | O => None
  | S fuel =>
      match Fs.readdir fs dirPath with
      | Ok items => folderLoop (getFolderStructure fuel fs) dirPath items
      | Throw _ => Some []
      end
  end.

(** [{ name, path, subFolders }] and [{ name, path }] of a listing. *)
Record FolderEntry := mkFolderEntry {
  feName : string;
  fePath : string;
  feSubFolders : list Folder
}.

Record FileEntry := mkFileEntry {
  fiName : string;
  fiPath : string
}.

Record Listing := mkListing {
  folders : list FolderEntry;
  files : list FileEntry
}.

Definition relPath (folderPath name : string) : string :=
  Str.backslashToSlash (Path.join folderPath name).

(** The loop of [GET /api/folders/:folderPath]. *)
Fixpoint listingLoop (rec : string -> option (list Folder))
  (fullPath folderPath : string) (items : list Fs.Dirent) : option Listing :=
  match items with
  | [] => Some (mkListing [] [])
  | item :: rest =>
      if Fs.isDir item then
        match rec (Path.join fullPath (Fs.name item)) with
        | None => None
        | Some subFolders =>
            match listingLoop rec fullPath folderPath rest with
            | None => None
            | Some s =>
                Some (mkListing
                        (mkFolderEntry (Fs.name item)
                           (relPath folderPath (Fs.name item)) subFolders
                           :: folders s)
                        (files s))
            end
        end
      else
        match listingLoop rec fullPath folderPath rest with
        | None => None
        | Some s =>
            Some (mkListing (folders s)
                    (mkFileEntry (Fs.name item)
                       (relPath folderPath (Fs.name item)) :: files s))
        end
  end.

(** [GET /api/folders/:folderPath]; [param] is [req.params.folderPath]. *)
Definition apiFolders (fuel : nat) (fs : Fs.FS) (ROOT_FOLDER : RootFolder)
  (param : option string) : option (Reply Listing) :=
  match ROOT_FOLDER with
  | None => Some (Failure 400 "Root folder not configured")
  | Some root =>
      if root =? "" then Some (Failure 400 "Root folder not configured")
      else
        let folderPath := match param with
                          | Some p => p
                          | None => ""
                          end in
        let fullPath := Path.join root folderPath in
        if negb (securityCheck (Fs.cwd fs) root fullPath) then
          Some (Failure 403 "Access denied")
        else
          match Fs.readdir fs fullPath with
          | Throw message =>
              Some (Failure 500 ("Unable to read directory: " ++ message))
          | Ok items =>
              match listingLoop (getFolderStructure fuel fs) fullPath
                      folderPath items with
              | None => None
              | Some structure => Some (Json structure)
              end
          end
  end.

(** [GET /api/file/:filePath] *)
Definition apiFile (fs : Fs.FS) (ROOT_FOLDER : RootFolder) (param : option string)
  : Reply FileInfo :=
  match ROOT_FOLDER with
  | None => Failure 400 "Root folder not configured"
  | Some root =>
      if root =? "" then Failure 400 "Root folder not configured"
      else
        match param with
        | None => Failure 500 ("Unable to read file: " ++ invalidArgType)
        | Some filePath =>
            let fullPath := Path.join root filePath in
            if negb (securityCheck (Fs.cwd fs) root fullPath) then
              Failure 403 "Access denied"
            else if negb (Fs.access fs fullPath) then
              Failure 404 "File not found"
            else
              match readFileContent fs fullPath with
              | Ok fileInfo => Json fileInfo
              | Throw message => Failure 500 ("Unable to read file: " ++ message)
              end
        end
  end.

(** [GET /api/download/:filePath].  Two calls can throw into the [catch] of
    the route: [res.setHeader], for a name with a character that cannot go
    into a header, and [res.sendFile], for a path that is not absolute. *)
Definition apiDownload (fs : Fs.FS) (ROOT_FOLDER : RootFolder)
  (param : option string) : Download :=
  match ROOT_FOLDER with
  | None => Refused 400 "Root folder not configured"
  | Some root =>
      if root =? "" then Refused 400 "Root folder not configured"
      else
        match param with
        | None => Refused 500 ("Unable to download file: " ++ invalidArgType)
        | Some filePath =>
            let fullPath := Path.join root filePath in
            if negb (securityCheck (Fs.cwd fs) root fullPath) then
              Refused 403 "Access denied"
            else if negb (Fs.access fs fullPath) then
              Refused 404 "File not found"
            else
              let fileName := Path.basename fullPath in
              if negb (validHeaderValue
                         ("attachment; filename=" ++ doubleQuote ++ fileName
                          ++ doubleQuote)) then
                Refused 500
                  ("Unable to download file: "
                   ++ invalidHeaderChar "Content-Disposition")
              else if Path.isAbsolute fullPath then
                SendFile fullPath (Some fileName)
              else
                Refused 500
                  "Unable to download file: path must be absolute or specify root to res.sendFile"
        end
  end.

(** [GET /api/home-structure] *)
Definition apiHomeStructure (fuel : nat) (fs : Fs.FS) (ROOT_FOLDER : RootFolder)
  : option (Reply (list Folder)) :=
  match ROOT_FOLDER with
  | None => Some (Failure 400 "Root folder not configured")
  | Some root =>
      if root =? "" then Some (Failure 400 "Root folder not configured")
      else
        match getFolderStructure fuel fs root with
        | None => None
        | Some structure => Some (Json structure)
        end
  end.

End FileExplorer.

(** ** enhanced_server.js: the content reader with optional extractors *)

Module EnhancedServer.

(** The optional libraries [pdf-parse], [xlsx] and [mammoth].  Each of
    [processPdfFile], [processExcelFile] and [processDocxFile] is a single
    [try]/[catch]; without its library the helper is never called.  A
    library that is loaded stands for the [try] block of its helper: the
    text the block returns for the file, or the message of the exception
    raised in it, by the read of the file or by the library. *)
Record Libs := mkLibs {
  pdfParse : option (Fs.FS -> string -> result string);
  XLSX : option (Fs.FS -> string -> result string);
  mammoth : option (Fs.FS -> string -> result string)
}.

(** What the content depends on besides the file system: [formatBytes] (a
    helper of the file that computes with floating-point logarithms) and
    [Date.prototype.toLocaleString]. *)
Record Runtime := mkRuntime {
  formatBytes : N -> string;
  toLocaleString : Z -> string
}.

Record FileInfo := mkFileInfo {
  size : N;
  modified : Z;
  type : string;
  isText : bool;
  isBinary : bool;
  content : string;
  error : option string;
  downloadable : bool
}.

Definition setIsText (v : bool) (f : FileInfo) : FileInfo :=
  mkFileInfo (size f) (modified f) (type f) v (isBinary f) (content f)
    (error f) (downloadable f).
Definition setIsBinary (v : bool) (f : FileInfo) : FileInfo :=
  mkFileInfo (size f) (modified f) (type f) (isText f) v (content f)
    (error f) (downloadable f).
Definition setContent (v : string) (f : FileInfo) : FileInfo :=
  mkFileInfo (size f) (modified f) (type f) (isText f) (isBinary f) v
    (error f) (downloadable f).
Definition setError (v : string) (f : FileInfo) : FileInfo :=
  mkFileInfo (size f) (modified f) (type f) (isText f) (isBinary f)
    (content f) (Some v) (downloadable f).
Definition setDownloadable (v : bool) (f : FileInfo) : FileInfo :=
  mkFileInfo (size f) (modified f) (type f) (isText f) (isBinary f)
    (content f) (error f) v.

Definition pdfUnavailable : string :=
  unlines
    [ "PDF Processing Unavailable"; "";
      "To enable PDF text extraction, install the pdf-parse library:";
      "npm install pdf-parse"; "";
      "The file is available for download." ].

Definition excelUnavailable : string :=
  unlines
    [ "Excel Processing Unavailable"; "";
      "To enable Excel file reading, install the xlsx library:";
      "npm install xlsx"; "";
      "The file is available for download." ].

Definition docxUnavailable : string :=
  unlines
    [ "Word Document Processing Unavailable"; "";
      "To enable DOCX text extraction, install the mammoth library:";
      "npm install mammoth"; "";
      "The file is available for download." ].

Definition legacyDoc : string :=
  unlines
    [ "Legacy DOC Format"; "";
      "Legacy .DOC files are not supported for text extraction.";
      "Please convert to .DOCX format or use Microsoft Word."; "";
      "The file is available for download." ].

Definition unableToRead (message : string) : string :=
  unlines
    [ "Unable to read file content: " ++ message; "";
      "The file may be:";
      "- Corrupted";
      "- Password protected";
      "- In an unsupported format";
      "- Too large to process" ].

(** The [catch] of [processPdfFile], [processExcelFile] and
    [processDocxFile]. *)
Definition pdfFailed (message : string) : string :=
  unlines
    [ "Error processing PDF: " ++ message; "";
      "The PDF file may be:";
      "- Password protected";
      "- Corrupted";
      "- Using unsupported features" ].

Definition excelFailed (message : string) : string :=
  unlines
    [ "Error processing Excel file: " ++ message; "";
      "The Excel file may be:";
      "- Corrupted";
      "- Password protected";
      "- Using unsupported Excel features" ].

Definition docxFailed (message : string) : string :=
  unlines
    [ "Error processing Word document: " ++ message; "";
      "The document may be:";
      "- Corrupted";
      "- Password protected";
      "- Using unsupported Word features" ].

(** A helper with its library loaded: the [try] block, and the [catch]
    around it. *)
Definition caught (tryBlock : Fs.FS -> string -> result string)
  (failed : string -> string) (fs : Fs.FS) (filePath : string) : string :=
  match tryBlock fs filePath with
  | Ok text => text
  | Throw message => failed message
  end.

(** [async function processPptFile(filePath)] *)
Definition processPptFile (rt : Runtime) (fs : Fs.FS) (filePath : string)
  : string :=
  match Fs.readFile fs filePath with
  | Throw message => "Error accessing PowerPoint file: " ++ message
  | Ok buffer =>
      let ext := Str.toLowerCase (Path.extname filePath) in
      match Fs.stat fs filePath with
      | Throw message => "Error accessing PowerPoint file: " ++ message
      | Ok stats =>
          unlines
            [ "PowerPoint Presentation";
              "========================";
              "";
              "File: " ++ Path.basename filePath;
              "Format: " ++ (if ext =? ".pptx" then "PowerPoint 2007+ (PPTX)"
                            else "PowerPoint Legacy (PPT)");
              "Size: " ++ formatBytes rt (Fs.bufferLength buffer);
              "Last Modified: " ++ toLocaleString rt (Fs.mtime stats);
              "";
              "PowerPoint Content Extraction:";
              "-----------------------------";
              "";
              "⚠️ Full PowerPoint text extraction requires specialized libraries.";
              "";
              "For complete slide content extraction, consider using:";
              "- python-pptx (Python)";
              "- Apache POI (Java)";
              "- Online PowerPoint to text converters";
              "";
              "This file is available for download to view in:";
              "- Microsoft PowerPoint";
              "- LibreOffice Impress  ";
              "- Google Slides";
              "- Online PowerPoint viewers";
              "";
              "The presentation may contain:";
              "- Multiple slides with text content";
              "- Images and multimedia";
              "- Animations and transitions";
              "- Speaker notes";
              "- Embedded charts and tables" ]
      end
  end.

(** The [switch (ext)] inside the [try]. *)
Definition readBranch (libs : Libs) (rt : Runtime) (fs : Fs.FS)
  (filePath ext : string) (fileInfo : FileInfo) : FileInfo * option string :=
  if ext =? ".pdf" then
    let fileInfo := setDownloadable true (setIsBinary true fileInfo) in
    match pdfParse libs with
    | Some tryBlock =>
        (setContent (caught tryBlock pdfFailed fs filePath) fileInfo, None)
    | None => (setContent pdfUnavailable fileInfo, None)
    end
  else if (ext =? ".xlsx") || (ext =? ".xls") then
    let fileInfo := setDownloadable true (setIsBinary true fileInfo) in
    match XLSX libs with
    | Some tryBlock =>
        (setContent (caught tryBlock excelFailed fs filePath) fileInfo, None)
    | None => (setContent excelUnavailable fileInfo, None)
    end
  else if ext =? ".docx" then
    let fileInfo := setDownloadable true (setIsBinary true fileInfo) in
    match mammoth libs with
    | Some tryBlock =>
        (setContent (caught tryBlock docxFailed fs filePath) fileInfo, None)
    | None => (setContent docxUnavailable fileInfo, None)
    end
  else if ext =? ".doc" then
    (setContent legacyDoc (setDownloadable true (setIsBinary true fileInfo)),
     None)
  else if (ext =? ".pptx") || (ext =? ".ppt") then
    (setContent (processPptFile rt fs filePath)
       (setDownloadable true (setIsBinary true fileInfo)), None)
  else
    let fileInfo := setIsText true fileInfo in
    match Fs.readFileUtf8 fs filePath with
    | Ok text => (setContent text fileInfo, None)
    | Throw message => (fileInfo, Some message)
    end.

(** [async function readFileContent(filePath)] *)
Definition readFileContent (libs : Libs) (rt : Runtime) (fs : Fs.FS)
  (filePath : string) : result FileInfo :=
  let ext := Str.toLowerCase (Path.extname filePath) in
  match Fs.stat fs filePath with
  | Throw message => Throw message
  | Ok stats =>
      let fileInfo :=
        mkFileInfo (Fs.size stats) (Fs.mtime stats) (Str.slice1 ext)
          false false "" None false in
      match readBranch libs rt fs filePath ext fileInfo with
      | (fileInfo, None) => Ok fileInfo
      | (fileInfo, Some message) =>
          Ok (setContent (unableToRead message)
                (setError ("Error reading file: " ++ message) fileInfo))
      end
  end.

Definition noLibs : Libs := mkLibs None None None.

End EnhancedServer.

(** ** The simple file explorer (the server with image previews) *)

Module SimpleExplorer.

(** [formatFileSize] (a helper of the file that computes with floating-point
    logarithms) and [Date.prototype.toLocaleString]. *)
Record Runtime := mkRuntime {
  formatFileSize : N -> string;
  toLocaleString : Z -> string
}.

Record FileInfo := mkFileInfo {
  name : string;
  size : N;
  modified : Z;
  type : string;
  content : string;
  isText : bool;
  isImage : bool;
  downloadable : bool
}.

Definition setContent (v : string) (f : FileInfo) : FileInfo :=
  mkFileInfo (name f) (size f) (modified f) (type f) v (isText f) (isImage f)
    (downloadable f).
Definition setIsText (v : bool) (f : FileInfo) : FileInfo :=
  mkFileInfo (name f) (size f) (modified f) (type f) (content f) v (isImage f)
    (downloadable f).
Definition setIsImage (v : bool) (f : FileInfo) : FileInfo :=
  mkFileInfo (name f) (size f) (modified f) (type f) (content f) (isText f) v
    (downloadable f).

(** [POST /api/set-root] *)
Definition setRoot (fs : Fs.FS) (ROOT_FOLDER : RootFolder) (folderPath : JsValue)
  : RootFolder * Reply RootSet :=
  if falsy folderPath then
    (ROOT_FOLDER, Failure 400 "Folder path required")
  else
    match folderPath with
    | JString p =>
        match Fs.stat fs p with
        | Throw message => (ROOT_FOLDER, Failure 400 message)
        | Ok stats =>
            if negb (Fs.isDirectory stats) then
              (ROOT_FOLDER, Failure 400 "Invalid directory")
            else
              let ROOT_FOLDER := Path.resolve (Fs.cwd fs) p in
              (Some ROOT_FOLDER,
               Json (mkRootSet ROOT_FOLDER (Path.basename ROOT_FOLDER)))
        end
    | _ =>
        (* fs.stat rejects an argument that is no string *)
        (ROOT_FOLDER, Failure 400 invalidArgType)
    end.

Definition getFileTypeName (ext : string) : string :=
  if ext =? ".txt" then "Text File"
  else if ext =? ".csv" then "CSV Spreadsheet"
  else if ext =? ".xlsx" then "Excel Spreadsheet"
  else if ext =? ".xls" then "Excel Spreadsheet (Legacy)"
  else if ext =? ".docx" then "Word Document"
  else if ext =? ".doc" then "Word Document (Legacy)"
  else if ext =? ".pdf" then "PDF Document"
  else if ext =? ".jpg" then "JPEG Image"
  else if ext =? ".png" then "PNG Image"
  else "Unknown File".

(** The text after [data:image/]. *)
Definition imageSubtype (ext : string) : string :=
  if Str.slice1 ext =? "jpg" then "jpeg" else Str.slice1 ext.

Definition dataUri (ext : string) (bytes : list byte) : string :=
  "data:image/" ++ imageSubtype ext ++ ";base64," ++ Base64.encode bytes.

(** [GET /api/file/:filePath] *)
Definition apiFile (rt : Runtime) (fs : Fs.FS) (ROOT_FOLDER : RootFolder)
  (param : option string) : Reply FileInfo :=
  match ROOT_FOLDER with
  | None => Failure 400 "Root folder not configured"
  | Some root =>
      if root =? "" then Failure 400 "Root folder not configured"
      else
        match param with
        | None => Failure 500 invalidArgType
        | Some filePath =>
            let fullPath := Path.join root filePath in
            if negb (securityCheck (Fs.cwd fs) root fullPath) then
              Failure 403 "Access denied"
            else
              match Fs.stat fs fullPath with
              | Throw message => Failure 500 message
              | Ok stats =>
                  let ext := Str.toLowerCase (Path.extname fullPath) in
                  let fileInfo :=
                    mkFileInfo (Path.basename fullPath) (Fs.size stats)
                      (Fs.mtime stats) (Str.slice1 ext) "" false false true in
                  if Str.includes [".txt"; ".csv"] ext then
                    match Fs.readFileUtf8 fs fullPath with
                    | Throw message => Failure 500 message
                    | Ok text => Json (setIsText true (setContent text fileInfo))
                    end
                  else if Str.includes [".jpg"; ".png"] ext then
                    let fileInfo := setIsImage true fileInfo in
                    match Fs.readFile fs fullPath with
                    | Throw message => Failure 500 message
                    | Ok bytes => Json (setContent (dataUri ext bytes) fileInfo)
                    end
                  else
                    Json
                      (setContent
                         (unlines
                            [ "File: " ++ name fileInfo;
                              "Type: " ++ getFileTypeName ext;
                              "Size: " ++ formatFileSize rt (size fileInfo);
                              "Modified: "
                                ++ toLocaleString rt (modified fileInfo);
                              "";
                              "This file type requires specialized software to view properly.";
                              "Use the download button to save the file locally." ])
                         fileInfo)
              end
        end
  end.

(** [GET /api/download/:filePath]; [res.download] resolves the path, names
    the attachment after it and hands it to [res.sendFile]. *)
Definition apiDownload (fs : Fs.FS) (ROOT_FOLDER : RootFolder)
  (param : option string) : Download :=
  match ROOT_FOLDER with
  | None => Refused 400 "Root folder not configured"
  | Some root =>
      if root =? "" then Refused 400 "Root folder not configured"
      else
        match param with
        | None => Refused 500 invalidArgType
        | Some filePath =>
            let fullPath := Path.join root filePath in
            if negb (securityCheck (Fs.cwd fs) root fullPath) then
              Refused 403 "Access denied"
            else
              SendFile (Path.resolve (Fs.cwd fs) fullPath)
                (Some (Path.basename fullPath))
        end
  end.

(** The payload of a data URI: the text after its first comma. *)
Fixpoint payload (uri : string) : string :=
  match uri with
  | EmptyString => EmptyString
  | String c r => if Ascii.eqb c ","%char then r else payload r
  end.

End SimpleExplorer.

(** ** The office and PDF group of the content readers *)

Module OfficeFormats.

(** The office and PDF extensions. *)
Definition officeGroup : list string :=
  [".pdf"; ".xlsx"; ".xls"; ".docx"; ".doc"; ".pptx"; ".ppt"].

Definition isOffice (ext : string) : bool := Str.includes officeGroup ext.

Definition isNone {A : Type} (o : option A) : bool :=
  match o with
  | None => true
  | Some _ => false
  end.

(** The library that would extract text from files of extension [ext] is
    not loaded (for [.doc], [.pptx] and [.ppt] there is none to load). *)
Definition extractorUnavailable (libs : EnhancedServer.Libs) (ext : string) : bool :=
  if ext =? ".pdf" then isNone (EnhancedServer.pdfParse libs)
  else if (ext =? ".xlsx") || (ext =? ".xls") then isNone (EnhancedServer.XLSX libs)
  else if ext =? ".docx" then isNone (EnhancedServer.mammoth libs)
  else true.

(** The extension of the path, as both readers compute it. *)
Definition extOf (filePath : string) : string :=
  Str.toLowerCase (Path.extname filePath).

(** [s.endsWith(t)] *)
Definition endsWith (s t : string) : bool :=
  let n := String.length s in
  let m := String.length t in
  Nat.leb m n && (String.substring (n - m) m s =? t).

(** The content enhanced_server.js gives an office file when no extractor
    is loaded for it. *)
Definition enhancedPlaceholder (rt : EnhancedServer.Runtime) (fs : Fs.FS)
  (filePath ext : string) : string :=
  if ext =? ".pdf" then EnhancedServer.pdfUnavailable
  else if (ext =? ".xlsx") || (ext =? ".xls") then EnhancedServer.excelUnavailable
  else if ext =? ".docx" then EnhancedServer.docxUnavailable
  else if ext =? ".doc" then EnhancedServer.legacyDoc
  else EnhancedServer.processPptFile rt fs filePath.

(** The content file_explorer_app.js gives an office file. *)
Definition explorerPlaceholder (fs : Fs.FS) (filePath ext : string) : string :=
  if ext =? ".pdf" then FileExplorer.pdfPlaceholder
  else if (ext =? ".xlsx") || (ext =? ".xls") then
    FileExplorer.processExcelFile fs filePath
  else if ext =? ".docx" then FileExplorer.processDocxFile fs filePath
  else if ext =? ".doc" then FileExplorer.docPlaceholder
  else FileExplorer.processPptFile fs filePath.

Definition enhancedContent (r : result EnhancedServer.FileInfo) : string :=
  match r with
  | Ok f => EnhancedServer.content f
  | Throw _ => ""
  end.

End OfficeFormats.

(** ** folder_structure_app.js: the depth-limited enumerator *)

Module FolderStructureApp.

(** [{ name, type: 'folder', path, children }] and
    [{ name, type: 'file', path, size }]. *)
Inductive Item :=
| FolderItem (name path : string) (children : list Item)
| FileItem (name path : string) (size : N).

Definition itemName (i : Item) : string :=
  match i with
  | FolderItem n _ _ => n
  | FileItem n _ _ => n
  end.

Definition isFolder (i : Item) : bool :=
  match i with
  | FolderItem _ _ _ => true
  | FileItem _ _ _ => false
  end.

Definition itemChildren (i : Item) : list Item :=
  match i with
  | FolderItem _ _ c => c
  | FileItem _ _ _ => []
  end.

(** [item.startsWith('.') || ['node_modules', '.git', 'dist', 'build'].includes(item)] *)
Definition skipped (item : string) : bool :=
  Str.startsWith item "." || Str.includes ["node_modules"; ".git"; "dist"; "build"] item.

Section Enumerator.

(** [String.prototype.localeCompare]: negative, zero or positive. *)
Variable localeCompare : string -> string -> Z.

(** The comparator handed to [structure.sort]. *)
Definition compareItems (a b : Item) : Z :=
  if negb (Bool.eqb (isFolder a) (isFolder b)) then
    (if isFolder a then (-1)%Z else 1%Z)
  else localeCompare (itemName a) (itemName b).

(** [Array.prototype.sort] is a stable sort: an element goes after the
    elements that compare before it and before the first one that does not. *)
Fixpoint insert (x : Item) (l : list Item) : list Item :=
  match l with
  | [] => [x]
  | y :: r => if (compareItems x y <=? 0)%Z then x :: y :: r else y :: insert x r
  end.

Fixpoint sort (l : list Item) : list Item :=
  match l with
  | [] => []
  | x :: r => insert x (sort r)
  end.

Variable fs : Fs.FS.

(** [children || []] *)
Definition orEmpty (children : option (list Item)) : list Item :=
  match children with
  | Some c => c
  | None => []
  end.

(** The [for (const item of items)] loop; [rec] is the recursive call one
    level down.  A [stat] that throws leaves the loop. *)
Fixpoint itemLoop (rec : string -> option (list Item)) (dirPath : string)
  (items : list string) : result (list Item) :=
  match items with
  | [] => Ok []
  | item :: rest =>
      if skipped item then itemLoop rec dirPath rest
      else
        let itemPath := Path.join dirPath item in
        match Fs.stat fs itemPath with
        | Throw message => Throw message
        | Ok stat =>
            let entry :=
              if Fs.isDirectory stat then
                FolderItem item itemPath (orEmpty (rec itemPath))
              else FileItem item itemPath (Fs.size stat) in
            match itemLoop rec dirPath rest with
            | Throw message => Throw message
            | Ok structure => Ok (entry :: structure)
            end
        end
  end.

(** [getFolderStructure] by the number of levels left,
    [maxDepth - currentDepth]; [None] is [null]. *)
Fixpoint getFolderStructureLevels (levels : nat) (dirPath : string)
  : option (list Item) :=
  match levels with
  | O => None
  | S levels =>
      match Fs.readdirNames fs dirPath with
      | Throw _ => None
      | Ok items =>
          match itemLoop (getFolderStructureLevels levels) dirPath items with
          | Throw _ => None
          | Ok structure => Some (sort structure)
          end
      end
  end.

(** [async function getFolderStructure(dirPath, maxDepth = 3, currentDepth = 0)] *)
Definition getFolderStructure (dirPath : string) (maxDepth currentDepth : nat)
  : option (list Item) :=
  getFolderStructureLevels (maxDepth - currentDepth) dirPath.

(** [GET /api/folder?path=...]: [{ structure, path }] *)
Definition apiFolder (query : option string)
  : Reply (option (list Item) * string) :=
  match query with
  | None => Failure 400 "Path parameter required"
  | Some folderPath =>
      if folderPath =? "" then Failure 400 "Path parameter required"
      else Json (getFolderStructure folderPath 3 0, folderPath)
  end.

End Enumerator.

(** Comparison of strings byte by byte, a [localeCompare] for examples. *)
Definition byteCompare (a b : string) : Z :=
  match String.compare a b with
  | Lt => (-1)%Z
  | Eq => 0%Z
  | Gt => 1%Z
  end.

(** *** Trees and orders, for the properties below *)

(** A name that starts with a dot, or the name of a build or dependency
    directory. *)
Definition hiddenOrBuild (name : string) : bool :=
  Str.startsWith name "." || Str.includes ["node_modules"; "dist"; "build"] name.

(** No node of the tree below [i], [i] included, has such a name. *)
Fixpoint clean (i : Item) : bool :=
  match i with
  | FolderItem name _ children => negb (hiddenOrBuild name) && forallb clean children
  | FileItem name _ _ => negb (hiddenOrBuild name)
  end.

(** The entry the loop pushes for [item]. *)
Definition entryOf (rec : string -> option (list Item)) (dirPath item : string)
  (stat : Fs.Stats) : Item :=
  if Fs.isDirectory stat then
    FolderItem item (Path.join dirPath item) (orEmpty (rec (Path.join dirPath item)))
  else FileItem item (Path.join dirPath item) (Fs.size stat).

Definition notSkipped (item : string) : bool := negb (skipped item).

(** The order of the comparator, and the order of the names. *)
Definition leItem (localeCompare : string -> string -> Z) (a b : Item) : Prop :=
  (compareItems localeCompare a b <= 0)%Z.

Definition byName (localeCompare : string -> string -> Z) (a b : Item) : Prop :=
  (localeCompare (itemName a) (itemName b) <= 0)%Z.

Definition notFolder (i : Item) : bool := negb (isFolder i).

End FolderStructureApp.

(** ** File systems for the examples *)

Module Samples.

(** The file system of the examples: a root directory [/root] and, next to
    it, a directory [/root-evil] whose name extends the root's. *)
Definition siblingTree : TreeFS.Node :=
  TreeFS.dir
    [ ("root", TreeFS.dir [ ("readme.txt", TreeFS.text "hello") ]);
      ("root-evil", TreeFS.dir [ ("secret.txt", TreeFS.text "top secret") ]);
      ("etc", TreeFS.dir [ ("passwd", TreeFS.text "root:x:0:0") ]) ].

Definition siblingFS : Fs.FS := TreeFS.toFS "/" siblingTree.

(** A file system with the directory [/data/docs] and the file
    [/data/docs/a.txt]. *)
Definition docsFS : Fs.FS :=
  TreeFS.toFS "/data"
    (TreeFS.dir
       [ ("data", TreeFS.dir [ ("docs", TreeFS.dir [ ("a.txt", TreeFS.text "A") ]) ]) ]).

Definition pngBytes : list byte :=
  [x89; x50; x4e; x47; x0d; x0a; x1a; x0a]%byte.

Definition picturesFS : Fs.FS :=
  TreeFS.toFS "/"
    (TreeFS.dir
       [ ("pics", TreeFS.dir [ ("Logo.PNG", TreeFS.File pngBytes 1700000000000 true) ]) ]).

Definition plainRuntime : SimpleExplorer.Runtime :=
  SimpleExplorer.mkRuntime Str.ofN (fun _ => "").

Definition stubRuntime : EnhancedServer.Runtime :=
  EnhancedServer.mkRuntime Str.ofN (fun _ => "").

(** Office files, one of them without read permission. *)
Definition officeFS : Fs.FS :=
  TreeFS.toFS "/"
    (TreeFS.dir
       [ ("d", TreeFS.dir
            [ ("a.pptx", TreeFS.text "AAAA");
              ("b.pptx", TreeFS.text "AAAA");
              ("old.doc", TreeFS.text "DOC");
              ("report.pdf", TreeFS.text "%PDF");
              ("locked.xlsx", TreeFS.File (list_byte_of_string "PK") 0 false);
              ("locked.ppt", TreeFS.File (list_byte_of_string "PPT") 0 false);
              ("locked.txt", TreeFS.File (list_byte_of_string "t") 0 false);
              ("notes.txt", TreeFS.text "remember") ]) ]).

(** A project directory: a hidden folder, a dependency folder, two source
    folders listed out of order, a folder without read permission, a file. *)
Definition projectTree : TreeFS.Node :=
  TreeFS.dir
    [ ("d", TreeFS.dir
         [ ("B", TreeFS.dir [ ("inner", TreeFS.dir []) ]);
           (".git", TreeFS.dir [ ("objects", TreeFS.dir []) ]);
           ("Z", TreeFS.text "z");
           ("node_modules", TreeFS.dir [ ("express", TreeFS.dir []) ]);
           ("A", TreeFS.dir []);
           ("locked", TreeFS.Dir 0 false [ ("hidden", TreeFS.dir []) ]) ]) ].

Definition projectFS : Fs.FS := TreeFS.toFS "/" projectTree.

(** A listing that names the directory [c] although [c] is gone when it is
    looked at again. *)
Definition raceFS : Fs.FS :=
  Fs.mkFS "/"
    (fun p =>
       if p =? "/d" then Ok [Fs.mkDirent "c" true; Fs.mkDirent "x.txt" false]
       else Throw (Fs.enoent p))
    (fun p =>
       if p =? "/d" then Ok (Fs.mkStats 4096 0 true)
       else if p =? "/d/x.txt" then Ok (Fs.mkStats 1 0 false)
       else Throw (Fs.enoent p))
    (fun p =>
       if p =? "/d/x.txt" then Ok (list_byte_of_string "x")
       else Throw (Fs.enoent p))
    (fun p => (p =? "/d") || (p =? "/d/x.txt")).

(** Folders B and A and a file Z. *)
Definition bazFS : Fs.FS :=
  TreeFS.toFS "/"
    (TreeFS.dir
       [ ("d", TreeFS.dir
            [ ("Z", TreeFS.text "z"); ("B", TreeFS.dir []); ("A", TreeFS.dir []) ]) ]).

Definition abz : list FolderStructureApp.Item :=
  [ FolderStructureApp.FolderItem "A" "/d/A" [];
    FolderStructureApp.FolderItem "B" "/d/B" [];
    FolderStructureApp.FileItem "Z" "/d/Z" 1 ].

End Samples.

(** ** Further functions of the servers *)

(** [getFileType] of file_explorer_app.js and enhanced_server.js (the same
    text in both). *)
Module FileTypes.

Definition textFiles : list string :=
  [".txt"; ".md"; ".js"; ".html"; ".css"; ".json"; ".xml"; ".csv"; ".log"].

Definition binaryFiles : list string :=
  [".pdf"; ".xlsx"; ".xls"; ".docx"; ".doc"; ".pptx"; ".ppt"].

Definition getFileType (filename : string) : string :=
  let ext := Str.toLowerCase (Path.extname filename) in
  if Str.includes textFiles ext then "text"
  else if Str.includes binaryFiles ext then "binary"
  else "text".

(** The same, from the lower-cased extension. *)
Definition typeOfExt (ext : string) : string :=
  if Str.includes textFiles ext then "text"
  else if Str.includes binaryFiles ext then "binary"
  else "text".

End FileTypes.

(** The simple file explorer: [GET /api/root-info], the recursive
    [getFolderStructure] with its list of supported file types, and
    [GET /api/structure]. *)
Module SimpleStructure.

(** [{ configured, rootPath, folderName }]; the last two are absent when
    nothing is configured. *)
Record RootInfo := mkRootInfo {
  configured : bool;
  infoRootPath : option string;
  infoFolderName : option string
}.

Definition rootInfo (ROOT_FOLDER : RootFolder) : Reply RootInfo :=
  match ROOT_FOLDER with
  | Some r =>
      if r =? "" then Json (mkRootInfo false None None)
      else Json (mkRootInfo true (Some r) (Some (Path.basename r)))
  | None => Json (mkRootInfo false None None)
  end.

(** [{ name, path, type }] *)
Record FileEntry := mkFileEntry {
  fileName : string;
  filePath : string;
  fileType : string
}.

(** [{ name, path, folders, files }] *)
Inductive FolderNode :=
| mkFolderNode (name path : string) (folders : list FolderNode)
    (files : list FileEntry).

(** [{ folders, files }] *)
Record Structure := mkStructure {
  folders : list FolderNode;
  files : list FileEntry
}.

Definition emptyStructure : Structure := mkStructure [] [].

Definition supportedTypes : list string :=
  [".xls"; ".xlsx"; ".doc"; ".docx"; ".csv"; ".txt"; ".pdf"; ".jpg"; ".png"].

(** The [for (const item of items)] loop; [rec] is the recursive call,
    [None] when it does not return. *)
Fixpoint structureLoop (rec : string -> string -> option Structure)
  (dirPath relativePath : string) (items : list Fs.Dirent) : option Structure :=
  match items with
  | [] => Some emptyStructure
  | item :: rest =>
      let itemPath :=
        Str.backslashToSlash (Path.join relativePath (Fs.name item)) in
      if Fs.isDir item then
        match rec (Path.join dirPath (Fs.name item)) itemPath with
        | None => None
        | Some subStructure =>
            match structureLoop rec dirPath relativePath rest with
            | None => None
            | Some result =>
                Some (mkStructure
                        (mkFolderNode (Fs.name item) itemPath
                           (folders subStructure) (files subStructure)
                           :: folders result)
                        (files result))
            end
        end
      else
        let ext := Str.toLowerCase (Path.extname (Fs.name item)) in
        match structureLoop rec dirPath relativePath rest with
        | None => None
        | Some result =>
            if Str.includes supportedTypes ext then
              Some (mkStructure (folders result)
                      (mkFileEntry (Fs.name item) itemPath (Str.slice1 ext)
                         :: files result))
            else Some result
        end
  end.

(** [async function getFolderStructure(dirPath, relativePath = '')]; [fuel]
    bounds the depth of the recursion and [None] says the bound was
    reached. *)
Fixpoint getFolderStructure (fuel : nat) (fs : Fs.FS)
  (dirPath relativePath : string) : option Structure :=
  match fuel with
  | O => None
  | S fuel =>
      match Fs.readdir fs dirPath with
      | Ok items =>
          structureLoop (getFolderStructure fuel fs) dirPath relativePath items
      | Throw _ => Some emptyStructure
      end
  end.

(** [GET /api/structure] *)
Definition apiStructure (fuel : nat) (fs : Fs.FS) (ROOT_FOLDER : RootFolder)
  : option (Reply Structure) :=
  match ROOT_FOLDER with
  | None => Some (Failure 400 "Root folder not configured")
  | Some root =>
      if root =? "" then Some (Failure 400 "Root folder not configured")
      else
        match getFolderStructure fuel fs root "" with
        | None => None
        | Some structure => Some (Json structure)
        end
  end.

(** *** Trees, for the properties below *)

(** Every file below the node satisfies [P]. *)
Fixpoint allFilesNode (P : FileEntry -> bool) (n : FolderNode) : bool :=
  match n with
  | mkFolderNode _ _ folders files =>
      forallb (allFilesNode P) folders && forallb P files
  end.

Definition allFiles (P : FileEntry -> bool) (s : Structure) : bool :=
  forallb (allFilesNode P) (folders s) && forallb P (files s).

(** A file entry whose name has a supported extension, whose [type] is that
    extension without its dot, and for which [getFileTypeName] has a name. *)
Definition supportedEntry (f : FileEntry) : bool :=
  let ext := Str.toLowerCase (Path.extname (fileName f)) in
  Str.includes supportedTypes ext
  && (fileType f =? Str.slice1 ext)
  && negb (SimpleExplorer.getFileTypeName ext =? "Unknown File").

Definition nodeName (n : FolderNode) : string :=
  match n with mkFolderNode name _ _ _ => name end.

Definition nodePath (n : FolderNode) : string :=
  match n with mkFolderNode _ path _ _ => path end.

(** Every node and file below [n] carries the path made of the path of its
    parent and its own name. *)
Fixpoint pathsFromNode (n : FolderNode) : bool :=
  match n with
  | mkFolderNode _ path folders files =>
      forallb
        (fun c =>
           (nodePath c =? Str.backslashToSlash (Path.join path (nodeName c)))
           && pathsFromNode c)
        folders
      && forallb
           (fun f =>
              filePath f =? Str.backslashToSlash (Path.join path (fileName f)))
           files
  end.

Definition pathsFrom (relativePath : string) (s : Structure) : bool :=
  forallb
    (fun c =>
       (nodePath c
        =? Str.backslashToSlash (Path.join relativePath (nodeName c)))
       && pathsFromNode c)
    (folders s)
  && forallb
       (fun f =>
          filePath f
          =? Str.backslashToSlash (Path.join relativePath (fileName f)))
       (files s).

End SimpleStructure.

(** Vocabulary for the depth-limited enumerator. *)
Module ItemTrees.

Import FolderStructureApp.

(** The number of levels of a list of items. *)
Fixpoint itemLevels (i : Item) : nat :=
  match i with
  | FolderItem _ _ children =>
      S ((fix levels (l : list Item) : nat :=
            match l with
            | [] => 0
            | c :: r => Nat.max (itemLevels c) (levels r)
            end) children)
  | FileItem _ _ _ => 1
  end.

Fixpoint levelsOf (l : list Item) : nat :=
  match l with
  | [] => 0
  | c :: r => Nat.max (itemLevels c) (levelsOf r)
  end.

Definition itemPath (i : Item) : string :=
  match i with
  | FolderItem _ path _ => path
  | FileItem _ path _ => path
  end.

(** Every item below [i] carries the path [path.join] makes of the path of
    its parent and its own name. *)
Fixpoint pathsBelow (i : Item) : bool :=
  match i with
  | FolderItem _ path children =>
      forallb
        (fun c => (itemPath c =? Path.join path (itemName c)) && pathsBelow c)
        children
  | FileItem _ _ _ => true
  end.

Definition pathsUnder (dirPath : string) (l : list Item) : bool :=
  forallb
    (fun c => (itemPath c =? Path.join dirPath (itemName c)) && pathsBelow c) l.

(** The first [n] levels of a tree: the folders of level [n] are left
    without children. *)
Fixpoint cut (n : nat) (l : list Item) : list Item :=
  match n with
  | O => []
  | S m =>
      map (fun i =>
             match i with
             | FolderItem name path children =>
                 FolderItem name path (cut m children)
             | FileItem _ _ _ => i
             end) l
  end.

Definition cutItem (m : nat) (i : Item) : Item :=
  match i with
  | FolderItem name path children => FolderItem name path (cut m children)
  | FileItem _ _ _ => i
  end.

(** Some entry of the listing that is not skipped cannot be [stat]ed. *)
Definition statFails (fs : Fs.FS) (dirPath : string) (items : list string)
  : bool :=
  existsb
    (fun item =>
       negb (skipped item)
       && match Fs.stat fs (Path.join dirPath item) with
          | Ok _ => false
          | Throw _ => true
          end)
    items.

End ItemTrees.

(** Vocabulary for the security check. *)
Module GuardTerms.

(** What a string comparison of two slash-separated paths compares: the
    segments of [R] but the last are the first segments of [P], and the last
    segment of [R] starts the segment of [P] at its place. *)
Fixpoint looseContained (R P : list string) : bool :=
  match R, P with
  | [], _ => true
  | _ :: _, [] => false
  | r :: R', x :: P' =>
      match R' with
      | [] => String.prefix r x
      | _ :: _ => (r =? x) && looseContained R' P'
      end
  end.

End GuardTerms.

(** Vocabulary for the listing of one directory. *)
Module ListingTerms.

(** The entry [GET /api/folders] returns for a file of the listing. *)
Definition fileEntryOf (folderPath : string) (item : Fs.Dirent)
  : FileExplorer.FileEntry :=
  FileExplorer.mkFileEntry (Fs.name item)
    (FileExplorer.relPath folderPath (Fs.name item)).

Definition isFile (item : Fs.Dirent) : bool := negb (Fs.isDir item).

(** A folder of a listing as a folder of the folders-only tree: its name and
    sub-folders, without its path. *)
Definition folderOf (e : FileExplorer.FolderEntry) : FileExplorer.Folder :=
  FileExplorer.mkFolder (FileExplorer.feName e) (FileExplorer.feSubFolders e).

Fixpoint noBackslash (s : string) : bool :=
  match s with
  | EmptyString => true
  | String c r => negb (Ascii.eqb c "\"%char) && noBackslash r
  end.

End ListingTerms.

(** A served directory with files of supported and of other types. *)
Module MoreSamples.

Definition mixedTree : TreeFS.Node :=
  TreeFS.dir
    [ ("srv", TreeFS.dir
         [ ("Report.PDF", TreeFS.text "%PDF");
           ("notes.md", TreeFS.text "# notes");
           ("pics", TreeFS.dir
              [ ("a.png", TreeFS.text "png"); ("b.gif", TreeFS.text "gif") ]);
           ("data.csv", TreeFS.text "1,2");
           ("locked", TreeFS.Dir 0 false [ ("x.txt", TreeFS.text "x") ]) ]) ].

Definition mixedFS : Fs.FS := TreeFS.toFS "/" mixedTree.

Definition mixedStructure : SimpleStructure.Structure :=
  SimpleStructure.mkStructure
    [ SimpleStructure.mkFolderNode "locked" "locked" [] [];
      SimpleStructure.mkFolderNode "pics" "pics" []
        [ SimpleStructure.mkFileEntry "a.png" "pics/a.png" "png" ] ]
    [ SimpleStructure.mkFileEntry "Report.PDF" "Report.PDF" "pdf";
      SimpleStructure.mkFileEntry "data.csv" "data.csv" "csv" ].

(** The directory [sun] of the first version, with one day. *)
Definition sunFS : Fs.FS :=
  TreeFS.toFS "/"
    (TreeFS.dir
       [ ("sun", TreeFS.dir
            [ ("mon", TreeFS.dir
                 [ ("meetings", TreeFS.dir [ ("agenda.md", TreeFS.text "#") ]);
                   ("schedule.txt", TreeFS.text "Schedule for mon") ]) ]) ]).

Definition monListing : FileExplorer.Listing :=
  FileExplorer.mkListing
    [ FileExplorer.mkFolderEntry "meetings" "mon/meetings" [] ]
    [ FileExplorer.mkFileEntry "schedule.txt" "mon/schedule.txt" ].

(** The descriptor of [/srv/pics/a.png]. *)
Definition previewOfPng : SimpleExplorer.FileInfo :=
  SimpleExplorer.mkFileInfo "a.png" 3 0 "png" "data:image/png;base64,cG5n"
    false true true.

(** The listing of [/d] in the project tree. *)
Definition projectListing : FileExplorer.Listing :=
  FileExplorer.mkListing
    [ FileExplorer.mkFolderEntry ".git" ".git"
        [ FileExplorer.mkFolder "objects" [] ];
      FileExplorer.mkFolderEntry "A" "A" [];
      FileExplorer.mkFolderEntry "B" "B" [ FileExplorer.mkFolder "inner" [] ];
      FileExplorer.mkFolderEntry "locked" "locked" [];
      FileExplorer.mkFolderEntry "node_modules" "node_modules"
        [ FileExplorer.mkFolder "express" [] ] ]
    [ FileExplorer.mkFileEntry "Z" "Z" ].

(** The listing of [/d] in the tree with the folders B and A and the file
    Z. *)
Definition bazListing : FileExplorer.Listing :=
  FileExplorer.mkListing
    [ FileExplorer.mkFolderEntry "A" "A" [];
      FileExplorer.mkFolderEntry "B" "B" [] ]
    [ FileExplorer.mkFileEntry "Z" "Z" ].

End MoreSamples.

(** Vocabulary that relates the enumerators of the simple explorer and of
    file_explorer_app.js. *)
Module StructureTerms.

(** The folders of a node, without paths and files: the tree the
    folders-only enumerator builds. *)
Fixpoint skeleton (n : SimpleStructure.FolderNode) : FileExplorer.Folder :=
  match n with
  | SimpleStructure.mkFolderNode name _ folders _ =>
      FileExplorer.mkFolder name (map skeleton folders)
  end.

Definition skeletons (s : SimpleStructure.Structure) : list FileExplorer.Folder :=
  map skeleton (SimpleStructure.folders s).

(** A name a directory can list that holds no backslash. *)
Definition properName (name : string) : bool :=
  TreeFS.validName name && ListingTerms.noBackslash name.

(** The request path [p], joined to the root, names what [d] names. *)
Definition addresses (cwd root p d : string) : bool :=
  Path.resolve cwd (Path.join root p) =? Path.resolve cwd d.

(** The [path] of every folder and file below [n], a node enumerated in the
    directory [dir], addresses the place on disk the entry was read at. *)
Fixpoint addressedNode (cwd root dir : string)
  (n : SimpleStructure.FolderNode) : bool :=
  match n with
  | SimpleStructure.mkFolderNode name path folders files =>
      addresses cwd root path (Path.join dir name)
      && (forallb (addressedNode cwd root (Path.join dir name)) folders
          && forallb
               (fun f =>
                  addresses cwd root (SimpleStructure.filePath f)
                    (Path.join (Path.join dir name) (SimpleStructure.fileName f)))
               files)
  end.

Definition addressed (cwd root dir : string) (s : SimpleStructure.Structure)
  : bool :=
  forallb (addressedNode cwd root dir) (SimpleStructure.folders s)
  && forallb
       (fun f =>
          addresses cwd root (SimpleStructure.filePath f)
            (Path.join dir (SimpleStructure.fileName f)))
       (SimpleStructure.files s).

(** What the enumerator keeps from a directory to the directories in it:
    the relative path, joined to the root, has the segments of the directory;
    it is relative and holds no backslash. *)
Definition inStep (cwd root dirPath relativePath : string) : Prop :=
  dirPath <> ""
  /\ TreeFS.segments cwd (Path.join root relativePath)
     = TreeFS.segments cwd dirPath
  /\ ListingTerms.noBackslash relativePath = true
  /\ Path.isAbsolute relativePath = false.

(** Every name in the tree satisfies [P]. *)
Fixpoint namesOk (P : string -> bool) (n : TreeFS.Node) : bool :=
  match n with
  | TreeFS.Dir _ _ entries =>
      forallb (fun e => P (fst e) && namesOk P (snd e)) entries
  | _ => true
  end.

End StructureTerms.

(** [path.join] with three arguments. *)
Module PathJoin.

(** The arguments that are not empty, glued with slashes. *)
Fixpoint glue (args : list string) : string :=
  match args with
  | [] => ""
  | arg :: rest =>
      if arg =? "" then glue rest
      else if glue rest =? "" then arg
      else arg ++ String Path.slash (glue rest)
  end.

(** [path.join(a, b, c)] *)
Definition join3 (a b c : string) : string :=
  let joined := glue [a; b; c] in
  if joined =? "" then "." else Path.normalize joined.

End PathJoin.

(** f1.js, the first version of the server: it serves the directory [sun]
    below [__dirname] and has no root to configure.  Its
    [getFolderStructure] is the text of file_explorer_app.js. *)
Module F1.

(** [{ content, size, modified }] *)
Record FileData := mkFileData {
  content : string;
  size : N;
  modified : Z
}.

(** [GET /api/folders/:folderPath]; [dirname] is [__dirname]. *)
Definition apiFolders (fuel : nat) (fs : Fs.FS) (dirname : string)
  (param : option string) : option (Reply FileExplorer.Listing) :=
  let folderPath := match param with
                    | Some p => p
                    | None => ""
                    end in
  let fullPath := PathJoin.join3 dirname "sun" folderPath in
  match Fs.readdir fs fullPath with
  | Throw _ => Some (Failure 500 "Unable to read directory")
  | Ok items =>
      match FileExplorer.listingLoop (FileExplorer.getFolderStructure fuel fs)
              fullPath folderPath items with
      | None => None
      | Some structure => Some (Json structure)
      end
  end.

(** [GET /api/file/:filePath] *)
Definition apiFile (fs : Fs.FS) (dirname : string) (param : option string)
  : Reply FileData :=
  match param with
  | None => Failure 500 "Unable to read file"
  | Some filePath =>
      let fullPath := PathJoin.join3 dirname "sun" filePath in
      match Fs.readFileUtf8 fs fullPath with
      | Throw _ => Failure 500 "Unable to read file"
      | Ok content =>
          match Fs.stat fs fullPath with
          | Throw _ => Failure 500 "Unable to read file"
          | Ok fileInfo =>
              Json (mkFileData content (Fs.size fileInfo) (Fs.mtime fileInfo))
          end
      end
  end.

(** [GET /api/home-structure] *)
Definition apiHomeStructure (fuel : nat) (fs : Fs.FS) (dirname : string)
  : option (Reply (list FileExplorer.Folder)) :=
  match FileExplorer.getFolderStructure fuel fs (Path.join dirname "sun") with
  | None => None
  | Some structure => Some (Json structure)
  end.

(** A reply of the later server as the first version words it: its 500
    carries no message of the exception. *)
Definition plainError (r : Reply FileExplorer.Listing)
  : Reply FileExplorer.Listing :=
  match r with
  | Failure 500 _ => Failure 500 "Unable to read directory"
  | _ => r
  end.

End F1.

(** [createSampleStructure], the start-up routine of file_explorer_app.js and
    of f1.js.  The file system it writes to is a state [World] with an
    operation that performs one call and may throw. *)
Module SampleStructure.

Definition upperChar (c : ascii) : ascii :=
  let n := nat_of_ascii c in
  if Nat.leb 97 n && Nat.leb n 122 then ascii_of_nat (n - 32) else c.

(** [s.toUpperCase()] on ASCII letters; other bytes are kept. *)
Fixpoint toUpperCase (s : string) : string :=
  match s with
  | EmptyString => EmptyString
  | String c r => String (upperChar c) (toUpperCase r)
  end.

(** [fs.mkdir(p, { recursive: true })] and [fs.writeFile(p, data)]. *)
Inductive FsOp :=
| Mkdir (p : string)
| WriteFile (p data : string).

Definition opPath (op : FsOp) : string :=
  match op with
  | Mkdir p => p
  | WriteFile p _ => p
  end.

Definition days : list string := ["mon"; "tue"; "wed"; "thurs"; "fri"; "satur"].

Definition schedule (day : string) : string :=
  unlines
    [ "Schedule for " ++ day; ""; "Morning: Team standup";
      "Afternoon: Project work" ].

Definition agenda (day : string) : string :=
  unlines
    [ "# " ++ toUpperCase day ++ " Meeting Agenda"; ""; "- Review progress";
      "- Discuss blockers"; "- Plan next steps" ].

Definition todo (day : string) : string :=
  unlines
    [ day ++ " Tasks:"; "1. Complete code review"; "2. Update documentation";
      "3. Test new features" ].

Definition daily (day : string) : string :=
  unlines
    [ "# Daily Notes - " ++ day; ""; "Key points from today's work..." ].

(** The calls of the body of [for (const day of days)], in order. *)
Definition dayOps (baseDir day : string) : list FsOp :=
  let dayDir := Path.join baseDir day in
  [ Mkdir dayDir;
    Mkdir (Path.join dayDir "meetings");
    Mkdir (Path.join dayDir "tasks");
    Mkdir (Path.join dayDir "notes");
    WriteFile (Path.join dayDir "schedule.txt") (schedule day);
    WriteFile (PathJoin.join3 dayDir "meetings" "agenda.md") (agenda day);
    WriteFile (PathJoin.join3 dayDir "tasks" "todo.txt") (todo day);
    WriteFile (PathJoin.join3 dayDir "notes" "daily.md") (daily day) ].

(** The calls of the [try] block, in order. *)
Definition sampleOps (baseDir : string) : list FsOp :=
  Mkdir baseDir :: flat_map (dayOps baseDir) days.

(** What the routine leaves: the file system, the calls it made (the one
    that threw included), and how it ended. *)
Inductive Outcome :=
| Rejected (message : string)     (* the promise is rejected *)
| Logged (line : string).         (* [console.log] *)

Record Run (World : Type) := mkRun {
  world : World;
  attempted : list FsOp;
  outcome : Outcome
}.

Arguments mkRun {World} _ _ _.
Arguments world {World} _.
Arguments attempted {World} _.
Arguments outcome {World} _.

Section Effects.

Variable World : Type.
Variable perform : World -> FsOp -> result World.

(** Awaited calls one after the other; the first that throws ends them. *)
Fixpoint performAll (w : World) (ops : list FsOp)
  : World * list FsOp * option string :=
  match ops with
  | [] => (w, [], None)
  | op :: rest =>
      match perform w op with
      | Throw message => (w, [op], Some message)
      | Ok w' =>
          match performAll w' rest with
          | (w'', done, error) => (w'', op :: done, error)
          end
      end
  end.

(** The [try]/[catch] around the calls. *)
Definition tryCreate (w : World) (baseDir : string) : Run World :=
  match performAll w (sampleOps baseDir) with
  | (w', done, None) =>
      mkRun w' done (Logged "Sample directory structure created successfully!")
  | (w', done, Some message) =>
      mkRun w' done
        (Logged
           ("Directory structure might already exist or error occurred: "
            ++ message))
  end.

(** [createSampleStructure] of file_explorer_app.js. *)
Definition createSampleStructure (w : World) (ROOT_FOLDER : RootFolder)
  : Run World :=
  match ROOT_FOLDER with
  | None =>
      mkRun w [] (Rejected "Cannot read properties of null (reading 'endsWith')")
  | Some root =>
      if OfficeFormats.endsWith root "sun" then tryCreate w root
      else mkRun w [] (Logged ("Using existing directory structure at: " ++ root))
  end.

(** [createSampleStructure] of f1.js; [dirname] is [__dirname]. *)
Definition createSampleStructureF1 (w : World) (dirname : string) : Run World :=
  tryCreate w (Path.join dirname "sun").

End Effects.

(** The path of a call lies in the base directory, by segments. *)
Definition inside (cwd baseDir : string) (op : FsOp) : bool :=
  Path.containedBySegments (Path.resolve cwd baseDir)
    (Path.resolve cwd (opPath op)).

(** A file system that records the calls and refuses none. *)
Definition record (w : list FsOp) (op : FsOp) : result (list FsOp) :=
  Ok (w ++ [op])%list.

(** A file system on which nothing can be written. *)
Definition readOnly (w : list FsOp) (op : FsOp) : result (list FsOp) :=
  Throw ("EROFS: read-only file system '" ++ opPath op ++ "'").

End SampleStructure.

(** Vocabulary for the order of listings. *)
Module OrderTerms.

(** The order of the bytes, on the names of entries. *)
Definition byFolderName (a b : FileExplorer.FolderEntry) : Prop :=
  Str.leb (FileExplorer.feName a) (FileExplorer.feName b) = true.

Definition byFileName (a b : FileExplorer.FileEntry) : Prop :=
  Str.leb (FileExplorer.fiName a) (FileExplorer.fiName b) = true.

Definition bySubFolderName (a b : FileExplorer.Folder) : Prop :=
  Str.leb (FileExplorer.folderName' a) (FileExplorer.folderName' b) = true.

(** The same order on the entries of a directory of a tree. *)
Definition byEntryName (a b : string * TreeFS.Node) : Prop :=
  Str.leb (fst a) (fst b) = true.

(** A folders-only tree in which the folders of every folder, at every
    depth, are in the order of their names. *)
Inductive sortedFolders : list FileExplorer.Folder -> Prop :=
| sortedFolders_intro (l : list FileExplorer.Folder) :
    StronglySorted bySubFolderName l ->
    Forall (fun f => sortedFolders (FileExplorer.subFolders f)) l ->
    sortedFolders l.

(** A list of items with its folders before its files, each of the two
    groups in the order of [localeCompare] on names. *)
Definition foldersFirst (localeCompare : string -> string -> Z)
  (l : list FolderStructureApp.Item) : Prop :=
  l = (filter FolderStructureApp.isFolder l
       ++ filter FolderStructureApp.notFolder l)%list
  /\ StronglySorted (FolderStructureApp.byName localeCompare)
       (filter FolderStructureApp.isFolder l)
  /\ StronglySorted (FolderStructureApp.byName localeCompare)
       (filter FolderStructureApp.notFolder l).

(** [P] holds of the list and of the children of every folder in it, at
    every depth. *)
Inductive everyLevel (P : list FolderStructureApp.Item -> Prop)
  : list FolderStructureApp.Item -> Prop :=
| everyLevel_intro (l : list FolderStructureApp.Item) :
    P l ->
    Forall (fun i => everyLevel P (FolderStructureApp.itemChildren i)) l ->
    everyLevel P l.

End OrderTerms.

(** * Properties *)

(** ** Strings *)

Module StrFacts.

Lemma includes_In l x : Str.includes l x = true <-> In x l.
Proof.
  unfold Str.includes. rewrite existsb_exists. split.
  - intros [y [Hy E]]. apply String.eqb_eq in E. now subst.
  - intros H. exists x. split; [assumption | apply String.eqb_refl].
Qed.

Lemma prefix_refl s : String.prefix s s = true.
Proof.
  induction s as [|c s IH]; simpl; [reflexivity|].
  destruct (ascii_dec c c); [assumption | congruence].
Qed.

Lemma prefix_app s t : String.prefix s (s ++ t) = true.
Proof.
  induction s as [|c s IH]; simpl.
  - now destruct t.
  - destruct (ascii_dec c c); [assumption | congruence].
Qed.

Lemma prefix_cons c s t :
  String.prefix (String c s) (String c t) = String.prefix s t.
Proof. simpl. destruct (ascii_dec c c); [reflexivity | congruence]. Qed.

End StrFacts.

(** ** Segments of paths *)

Module PathFacts.

Import Path.

Example join_ex1 : join "/root" "a/b" = "/root/a/b".
Proof. reflexivity. Qed.

Example join_ex2 : join "/root" "../x/" = "/x/".
Proof. reflexivity. Qed.

Example join_ex3 : join "/srv/root" "/etc/passwd" = "/srv/root/etc/passwd".
Proof. reflexivity. Qed.

Example join_ex4 : join "" "" = ".".
Proof. reflexivity. Qed.

Example join_ex5 : join "sun" "../../x" = "../x".
Proof. reflexivity. Qed.

Example resolve_ex1 : resolve "/home/u" "sun/../a//b/" = "/home/u/a/b".
Proof. reflexivity. Qed.

Example resolve_ex2 : resolve "/home/u" "/a/./b/../../.." = "/".
Proof. reflexivity. Qed.

Example resolve_ex3 : resolve "/home/u" "" = "/home/u".
Proof. reflexivity. Qed.

Example basename_ex : basename "/a/b.txt/" = "b.txt" /\ basename "/" = "".
Proof. split; reflexivity. Qed.

Example extname_ex :
  extname "/a/b.tar.gz" = ".gz" /\ extname "/a/.bashrc" = ""
  /\ extname "x/.." = "" /\ extname "a." = "." /\ extname "/a.b/c" = ""
  /\ extname "..." = "." /\ extname "pic.PNG/" = ".PNG".
Proof. repeat split; reflexivity. Qed.

Lemma split_slash_cons (s : string) :
  exists h t, split_slash s = h :: t.
Proof.
  induction s as [|c s [h [t IH]]]; simpl.
  - eauto.
  - destruct (Ascii.eqb c slash); [eauto|]. rewrite IH. eauto.
Qed.

Lemma split_slash_app (a b : string) :
  split_slash (a ++ String slash b) = (split_slash a ++ split_slash b)%list.
Proof.
  induction a as [|c a IH]; simpl.
  - reflexivity.
  - destruct (Ascii.eqb c slash).
    + now rewrite IH.
    + rewrite IH. destruct (split_slash_cons a) as [h [t E]].
      rewrite E. reflexivity.
Qed.

Lemma split_slash_snoc (a : string) :
  split_slash (a ++ "/") = (split_slash a ++ [""])%list.
Proof. apply (split_slash_app a ""). Qed.

Lemma split_no_slash (x : string) :
  hasSlash x = false -> split_slash x = [x].
Proof.
  induction x as [|c x IH]; simpl; [reflexivity|].
  intros H. apply orb_false_iff in H as [Hc Hx].
  rewrite Hc, (IH Hx). reflexivity.
Qed.

Lemma split_segments_no_slash (s : string) :
  Forall (fun x => hasSlash x = false) (split_slash s).
Proof.
  induction s as [|c s IH]; simpl.
  - constructor; [reflexivity | constructor].
  - destruct (Ascii.eqb c slash) eqn:E.
    + constructor; [reflexivity | assumption].
    + destruct (split_slash s) as [|h t].
      * constructor; [simpl; now rewrite E | constructor].
      * inversion IH; subst. constructor; [simpl; now rewrite E | assumption].
Qed.

Lemma split_join (l : list string) :
  Forall (fun x => hasSlash x = false) l -> l <> [] ->
  split_slash (join_slash l) = l.
Proof.
  induction l as [|x r IH]; intros HF Hne; [congruence|].
  inversion HF as [|? ? Hx Hr]; subst.
  destruct r as [|y r'].
  - simpl. now apply split_no_slash.
  - change (join_slash (x :: y :: r'))
      with (x ++ String slash (join_slash (y :: r'))).
    rewrite split_slash_app, (split_no_slash x Hx), IH; [reflexivity | assumption | discriminate].
Qed.

Lemma plain_kept s : plain s = true -> kept s = true.
Proof.
  unfold plain, kept. destruct (s =? ""), (s =? "."); simpl; congruence.
Qed.

Lemma kept_cases s : kept s = true -> s = ".." \/ plain s = true.
Proof.
  unfold plain, kept. destruct (s =? ""), (s =? "."); simpl; try congruence.
  intros _. destruct (s =? "..") eqn:E; [left; now apply String.eqb_eq | now right].
Qed.

Lemma step_dropped b stk s : kept s = false -> step b stk s = stk.
Proof.
  unfold kept, step. destruct ((s =? "") || (s =? ".")); simpl; congruence.
Qed.

Lemma step_plain b stk s : plain s = true -> step b stk s = s :: stk.
Proof.
  unfold plain, step.
  destruct (s =? ""), (s =? "."), (s =? ".."); simpl; congruence.
Qed.

Lemma step_dotdot_plain b t stk :
  plain t = true -> step b (t :: stk) ".." = stk.
Proof.
  unfold plain, step. simpl.
  destruct (t =? ""), (t =? "."), (t =? ".."); simpl; congruence.
Qed.

Lemma fold_step_filter b l stk :
  fold_left (step b) (filter kept l) stk = fold_left (step b) l stk.
Proof.
  revert stk. induction l as [|s l IH]; intros stk; simpl; [reflexivity|].
  destruct (kept s) eqn:E; simpl.
  - apply IH.
  - rewrite (step_dropped b stk s E). apply IH.
Qed.

Lemma normSegs_filter b l : normSegs b (filter kept l) = normSegs b l.
Proof. unfold normSegs. now rewrite fold_step_filter. Qed.

Lemma fold_step_plain b l stk :
  Forall (fun s => plain s = true) l ->
  fold_left (step b) l stk = (rev l ++ stk)%list.
Proof.
  revert stk. induction l as [|s l IH]; intros stk HF; simpl; [reflexivity|].
  inversion HF; subst. rewrite step_plain by assumption.
  rewrite IH by assumption. now rewrite <- app_assoc.
Qed.

(** Without [allowAboveRoot] the result holds names only. *)
Lemma fold_step_false_plain l stk :
  Forall (fun s => plain s = true) stk ->
  Forall (fun s => plain s = true) (fold_left (step false) l stk).
Proof.
  revert stk. induction l as [|s l IH]; intros stk HF; simpl; [assumption|].
  apply IH. unfold step.
  destruct ((s =? "") || (s =? ".")) eqn:E1; [assumption|].
  destruct (s =? "..") eqn:E2.
  - destruct stk as [|t r]; [constructor|].
    inversion HF; subst. destruct (t =? ".."); assumption.
  - constructor; [|assumption].
    unfold plain. apply orb_false_iff in E1 as [-> ->]. now rewrite E2.
Qed.

Lemma normSegs_false_plain l :
  Forall (fun s => plain s = true) (normSegs false l).
Proof.
  unfold normSegs. apply Forall_rev. apply fold_step_false_plain. constructor.
Qed.

(** With [allowAboveRoot] the result holds names and [..]. *)
Lemma fold_step_kept b l stk :
  Forall (fun s => kept s = true) stk ->
  Forall (fun s => kept s = true) (fold_left (step b) l stk).
Proof.
  revert stk. induction l as [|s l IH]; intros stk HF; simpl; [assumption|].
  apply IH. unfold step.
  destruct ((s =? "") || (s =? ".")) eqn:E1; [assumption|].
  assert (Hs : kept s = true) by (unfold kept; now rewrite E1).
  destruct (s =? "..") eqn:E2.
  - destruct stk as [|t r].
    + destruct b; repeat constructor; assumption.
    + inversion HF; subst.
      destruct (t =? ".."); [destruct b|]; try assumption.
      constructor; assumption.
  - constructor; assumption.
Qed.

Lemma normSegs_kept b l : Forall (fun s => kept s = true) (normSegs b l).
Proof.
  unfold normSegs. apply Forall_rev. apply fold_step_kept. constructor.
Qed.

Lemma normSegs_plain_id b l :
  Forall (fun s => plain s = true) l -> normSegs b l = l.
Proof.
  intros HF. unfold normSegs. rewrite fold_step_plain by assumption.
  rewrite app_nil_r. apply rev_involutive.
Qed.

Lemma normSegs_false_idem l : normSegs false (normSegs false l) = normSegs false l.
Proof. apply normSegs_plain_id, normSegs_false_plain. Qed.

Lemma fold_step_app b l1 l2 stk :
  fold_left (step b) (l1 ++ l2)%list stk
  = fold_left (step b) l2 (fold_left (step b) l1 stk).
Proof. apply fold_left_app. Qed.

(** Normalizing a relative path first and resolving it against a base
    afterwards is resolving it against the base at once. *)
Lemma fold_step_relative l stk :
  fold_left (step false) (rev (fold_left (step true) l [])) stk
  = fold_left (step false) l stk.
Proof.
  induction l as [|s l IH] using rev_ind; [reflexivity|].
  rewrite !fold_left_app. simpl.
  rewrite <- IH.
  pose proof (fold_step_kept true l [] (Forall_nil _)) as HK.
  remember (fold_left (step true) l []) as T eqn:ET. clear ET IH.
  destruct (kept s) eqn:Ks.
  - destruct (kept_cases s Ks) as [-> | Hp].
    + destruct T as [|t T'].
      * reflexivity.
      * inversion HK as [|? ? Kt KT']; subst.
        destruct (kept_cases t Kt) as [-> | Hpt].
        -- change (step true (".." :: T') "..") with (".." :: ".." :: T').
           change (rev (".." :: ".." :: T'))
             with ((rev (".." :: T')) ++ [".."])%list.
           now rewrite fold_left_app.
        -- rewrite (step_dotdot_plain true t T' Hpt).
           change (rev (t :: T')) with (rev T' ++ [t])%list.
           rewrite fold_left_app. simpl.
           rewrite (step_plain false _ t Hpt).
           now rewrite (step_dotdot_plain false t _ Hpt).
    + rewrite (step_plain true T s Hp).
      change (rev (s :: T)) with (rev T ++ [s])%list.
      now rewrite fold_left_app.
  - now rewrite !step_dropped by assumption.
Qed.

Lemma normSegs_relative base l :
  normSegs false (base ++ normSegs true l)%list = normSegs false (base ++ l)%list.
Proof.
  unfold normSegs. rewrite !fold_left_app. now rewrite fold_step_relative.
Qed.

(** Names appended to a path are appended to its normal form. *)
Lemma normSegs_false_app_plain base l :
  Forall (fun s => plain s = true) l ->
  normSegs false (base ++ l)%list = (normSegs false base ++ l)%list.
Proof.
  intros HF. unfold normSegs. rewrite fold_left_app.
  rewrite fold_step_plain by assumption.
  now rewrite rev_app_distr, rev_involutive.
Qed.

End PathFacts.

(** ** [path.join], [path.resolve] and the security check on segments *)

Module ResolveFacts.

Import Path PathFacts.

Lemma segments_eq cwd p :
  TreeFS.segments cwd p = normSegs false (TreeFS.base cwd p ++ split_slash p)%list.
Proof. reflexivity. Qed.

Lemma normSegs_snoc_empty b l : normSegs b (l ++ [""])%list = normSegs b l.
Proof.
  rewrite <- (normSegs_filter b (l ++ [""])%list), filter_app. simpl.
  rewrite app_nil_r. apply normSegs_filter.
Qed.

Lemma normSegs_filter_base b x l :
  normSegs b (filter kept x ++ l)%list = normSegs b (x ++ l)%list.
Proof.
  unfold normSegs. rewrite !fold_left_app. now rewrite fold_step_filter.
Qed.

Lemma fold_step_Forall (P : string -> Prop) b l stk :
  Forall P stk -> Forall P l -> Forall P (fold_left (step b) l stk).
Proof.
  revert stk. induction l as [|s l IH]; intros stk Hs Hl; simpl; [assumption|].
  inversion Hl; subst. apply IH; [|assumption].
  unfold step.
  destruct ((s =? "") || (s =? ".")); [assumption|].
  destruct (s =? "..").
  - destruct stk as [|t r].
    + destruct b; repeat constructor; assumption.
    + inversion Hs; subst.
      destruct (t =? ".."); [destruct b|]; try assumption.
      constructor; assumption.
  - constructor; assumption.
Qed.

Lemma normSegs_no_slash b s :
  Forall (fun x => hasSlash x = false) (normSegs b (split_slash s)).
Proof.
  unfold normSegs. apply Forall_rev.
  apply fold_step_Forall; [constructor | apply split_segments_no_slash].
Qed.

Lemma filter_kept_id l :
  Forall (fun s => kept s = true) l -> filter kept l = l.
Proof.
  induction 1 as [|x l Hx _ IH]; simpl; [reflexivity|].
  now rewrite Hx, IH.
Qed.

Lemma join_slash_nonempty x r : kept x = true -> join_slash (x :: r) <> "".
Proof.
  intros K. destruct x as [|c x]; [discriminate|].
  destruct r; simpl; discriminate.
Qed.

Lemma isAbsolute_join_slash x r :
  kept x = true -> hasSlash x = false -> isAbsolute (join_slash (x :: r)) = false.
Proof.
  intros K H. destruct x as [|c x]; [discriminate|].
  simpl in H. apply orb_false_iff in H as [Hc _].
  destruct r; simpl; assumption.
Qed.

Lemma isAbsolute_append a b : a <> "" -> isAbsolute (a ++ b) = isAbsolute a.
Proof. destruct a; [congruence | reflexivity]. Qed.

Lemma eqb_false_of_neq (a b : string) : a <> b -> (a =? b) = false.
Proof. intros H. now apply String.eqb_neq. Qed.

Lemma filter_kept_lead l : filter kept ("" :: l) = filter kept l.
Proof. reflexivity. Qed.

Lemma filter_kept_trail l : filter kept (l ++ [""])%list = filter kept l.
Proof. rewrite filter_app. simpl. apply app_nil_r. Qed.

(** The segments of a normalized path are the normalized segments. *)
Lemma normalize_facts s :
  s <> "" ->
  isAbsolute (normalize s) = isAbsolute s
  /\ filter kept (split_slash (normalize s))
     = normSegs (negb (isAbsolute s)) (split_slash s).
Proof.
  intros Hs. unfold normalize, normalizeString.
  rewrite (eqb_false_of_neq _ _ Hs).
  pose proof (normSegs_kept (negb (isAbsolute s)) (split_slash s)) as HK.
  pose proof (normSegs_no_slash (negb (isAbsolute s)) s) as HN.
  destruct (normSegs (negb (isAbsolute s)) (split_slash s)) as [|x r] eqn:EN.
  - simpl. destruct (isAbsolute s); [split; reflexivity|].
    destruct (Str.endsWithChar slash s); split; reflexivity.
  - rewrite (eqb_false_of_neq _ _ (join_slash_nonempty x r (Forall_inv HK))).
    assert (HS : split_slash (join_slash (x :: r)) = x :: r)
      by (apply split_join; [assumption | discriminate]).
    assert (HF : filter kept (x :: r) = x :: r) by now apply filter_kept_id.
    assert (HA : isAbsolute (join_slash (x :: r)) = false)
      by (apply isAbsolute_join_slash; [exact (Forall_inv HK) | exact (Forall_inv HN)]).
    destruct (isAbsolute s), (Str.endsWithChar slash s); split;
      try reflexivity;
      try (rewrite isAbsolute_append
             by (apply join_slash_nonempty; exact (Forall_inv HK));
           exact HA);
      try exact HA.
    + change (split_slash (String slash (join_slash (x :: r) ++ "/")))
        with ("" :: split_slash (join_slash (x :: r) ++ "/")).
      rewrite filter_kept_lead, split_slash_snoc, filter_kept_trail, HS.
      exact HF.
    + change (split_slash (String slash (join_slash (x :: r))))
        with ("" :: split_slash (join_slash (x :: r))).
      rewrite filter_kept_lead, HS. exact HF.
    + rewrite split_slash_snoc, filter_kept_trail, HS. exact HF.
    + rewrite HS. exact HF.
Qed.

Lemma segments_normalize cwd s :
  s <> "" ->
  TreeFS.segments cwd (normalize s)
  = normSegs false (TreeFS.base cwd s ++ split_slash s)%list.
Proof.
  intros Hs. destruct (normalize_facts s Hs) as [HA HF].
  rewrite segments_eq. unfold TreeFS.base. rewrite HA.
  rewrite <- normSegs_filter, filter_app, HF.
  destruct (isAbsolute s); simpl.
  - apply normSegs_false_idem.
  - rewrite normSegs_relative. apply normSegs_filter_base.
Qed.

(** The path that [path.join(a, b)] names: the segments of [a] followed by
    those of [b], whether or not [b] starts with a slash. *)
Lemma join_segments cwd a b :
  a <> "" ->
  TreeFS.segments cwd (join a b)
  = normSegs false (TreeFS.base cwd a ++ split_slash a ++ split_slash b)%list.
Proof.
  intros Ha. unfold join. rewrite (eqb_false_of_neq _ _ Ha).
  destruct (b =? "") eqn:Eb.
  - apply String.eqb_eq in Eb. subst b.
    rewrite (eqb_false_of_neq _ _ Ha).
    rewrite segments_normalize by assumption.
    change (split_slash "") with [""].
    now rewrite app_assoc, normSegs_snoc_empty.
  - assert (Hj : a ++ String slash b <> "") by (destruct a; [congruence | discriminate]).
    rewrite (eqb_false_of_neq _ _ Hj).
    rewrite segments_normalize by assumption.
    unfold TreeFS.base. rewrite (isAbsolute_append a _ Ha).
    now rewrite split_slash_app.
Qed.

(** [path.resolve] is the slash-separated list of the segments. *)
Lemma resolve_segments cwd p :
  isAbsolute cwd = true ->
  resolve cwd p = String slash (join_slash (TreeFS.segments cwd p)).
Proof.
  intros Hc. unfold resolve, normalizeString. rewrite segments_eq. unfold TreeFS.base.
  destruct (p =? "") eqn:Ep.
  - apply String.eqb_eq in Ep. subst p. rewrite Hc. simpl negb. cbv iota.
    now rewrite split_slash_snoc.
  - destruct (isAbsolute p) eqn:Ea; simpl orb; simpl negb; cbv iota.
    + now rewrite split_slash_snoc, normSegs_snoc_empty.
    + rewrite Hc. simpl negb. cbv iota.
      rewrite split_slash_app, split_slash_snoc.
      now rewrite app_assoc, normSegs_snoc_empty.
Qed.

Lemma prefix_append_same (x a b : string) :
  String.prefix (x ++ a) (x ++ b) = String.prefix a b.
Proof.
  induction x as [|c x IH]; [reflexivity|].
  change (String.prefix (String c (x ++ a)) (String c (x ++ b)) = String.prefix a b).
  now rewrite StrFacts.prefix_cons.
Qed.

Lemma join_slash_prefix (S T : list string) :
  String.prefix (join_slash S) (join_slash (S ++ T)%list) = true.
Proof.
  induction S as [|x S IH].
  - simpl. now destruct (join_slash T).
  - destruct S as [|y S'].
    + destruct T as [|t T']; [apply StrFacts.prefix_refl|].
      change (String.prefix x (x ++ String slash (join_slash (t :: T'))) = true).
      apply StrFacts.prefix_app.
    + change (String.prefix (x ++ String slash (join_slash (y :: S')))
                 (x ++ String slash (join_slash ((y :: S') ++ T)%list)) = true).
      rewrite prefix_append_same, StrFacts.prefix_cons. exact IH.
Qed.

Lemma isPrefixOf_app l1 l2 :
  isPrefixOf l1 l2 = true -> exists T, l2 = (l1 ++ T)%list.
Proof.
  revert l2. induction l1 as [|x l1 IH]; intros l2 H.
  - exists l2. reflexivity.
  - destruct l2 as [|y l2]; [discriminate|].
    simpl in H. apply andb_true_iff in H as [E H].
    apply String.eqb_eq in E. subst y.
    destruct (IH _ H) as [T ->]. exists T. reflexivity.
Qed.

Lemma plain_nonEmpty l :
  Forall (fun s => plain s = true) l -> filter nonEmpty l = l.
Proof.
  induction 1 as [|x l Hx _ IH]; simpl; [reflexivity|].
  unfold plain in Hx. unfold nonEmpty at 1.
  destruct (x =? ""); [discriminate|]. simpl. now rewrite IH.
Qed.

(** The non-empty segments of a resolved path. *)
Lemma resolved_segments l :
  Forall (fun s => plain s = true) l ->
  Forall (fun x => hasSlash x = false) l ->
  filter nonEmpty (split_slash (String slash (join_slash l))) = l.
Proof.
  intros HP HS.
  change (split_slash (String slash (join_slash l)))
    with ("" :: split_slash (join_slash l)).
  simpl filter at 1.
  destruct l as [|x r]; [reflexivity|].
  rewrite split_join by (assumption || discriminate).
  now apply plain_nonEmpty.
Qed.

Lemma segments_no_slash cwd p :
  Forall (fun x => hasSlash x = false) (TreeFS.segments cwd p).
Proof.
  rewrite segments_eq. unfold normSegs. apply Forall_rev.
  apply fold_step_Forall; [constructor|].
  apply Forall_app. split; [|apply split_segments_no_slash].
  unfold TreeFS.base. destruct (isAbsolute p); [constructor | apply split_segments_no_slash].
Qed.

End ResolveFacts.

(** ** The security check *)

Module Guard.

Import Path PathFacts ResolveFacts Samples.

Lemma segments_plain cwd p :
  Forall (fun s => plain s = true) (TreeFS.segments cwd p).
Proof. rewrite segments_eq. apply normSegs_false_plain. Qed.

(** Containment by segments of resolved paths is a prefix of segment lists. *)
Lemma containedBySegments_resolve cwd r p :
  isAbsolute cwd = true ->
  containedBySegments (resolve cwd r) (resolve cwd p)
  = isPrefixOf (TreeFS.segments cwd r) (TreeFS.segments cwd p).
Proof.
  intros Hc. unfold containedBySegments.
  rewrite !resolve_segments by assumption.
  rewrite !resolved_segments
    by (apply segments_plain || apply segments_no_slash).
  reflexivity.
Qed.

(** The check never refuses a path that lies in the root. *)
Lemma securityCheck_complete cwd root p :
  isAbsolute cwd = true ->
  containedBySegments (resolve cwd root) (resolve cwd p) = true ->
  securityCheck cwd root p = true.
Proof.
  intros Hc H. rewrite containedBySegments_resolve in H by assumption.
  destruct (isPrefixOf_app _ _ H) as [T E].
  unfold securityCheck, Str.startsWith.
  rewrite !resolve_segments by assumption. rewrite E.
  rewrite StrFacts.prefix_cons. apply join_slash_prefix.
Qed.

Lemma isPrefixOf_app_r (l t : list string) : isPrefixOf l (l ++ t)%list = true.
Proof.
  induction l as [|x l IH]; [reflexivity|].
  simpl. now rewrite String.eqb_refl, IH.
Qed.

Lemma kept_noDotDot_plain l :
  forallb (fun s => negb (s =? "..")) l = true ->
  Forall (fun s => plain s = true) (filter kept l).
Proof.
  induction l as [|s l IH]; simpl; intros H; [constructor|].
  apply andb_true_iff in H as [Hs Hl].
  destruct (kept s) eqn:K; [|now apply IH].
  constructor; [|now apply IH].
  destruct (kept_cases s K) as [-> | Hp]; [discriminate | assumption].
Qed.

(** The segments of a joined path whose second part climbs nowhere. *)
Lemma join_noDotDot_segments cwd root p :
  root <> "" -> noDotDot p = true ->
  TreeFS.segments cwd (join root p)
  = (TreeFS.segments cwd root ++ filter kept (split_slash p))%list.
Proof.
  intros Hr Hp. rewrite join_segments by assumption.
  rewrite app_assoc.
  unfold normSegs at 1. rewrite fold_left_app.
  rewrite <- fold_step_filter.
  rewrite fold_step_plain by (apply kept_noDotDot_plain; exact Hp).
  rewrite rev_app_distr, rev_involutive. reflexivity.
Qed.

(** A leading slash of the second argument of [path.join] changes nothing
    in the path that is resolved. *)
Lemma join_leading_slash cwd root p :
  isAbsolute cwd = true -> root <> "" ->
  resolve cwd (join root (String slash p)) = resolve cwd (join root p).
Proof.
  intros Hc Hr. rewrite !resolve_segments by assumption.
  rewrite !join_segments by assumption.
  change (split_slash (String slash p)) with ("" :: split_slash p).
  do 2 f_equal.
  rewrite <- (normSegs_filter false (_ ++ _ ++ "" :: _)%list).
  rewrite <- (normSegs_filter false (_ ++ _ ++ split_slash p)%list).
  now rewrite !filter_app.
Qed.

Example guard_rejects_plain_escape :
  FileExplorer.apiFile siblingFS (Some "/root") (Some "../etc/passwd")
  = Failure 403 "Access denied".
Proof. reflexivity. Qed.

Example guard_accepts_inside :
  statusOf (FileExplorer.apiFile siblingFS (Some "/root") (Some "a/../readme.txt"))
  = 200.
Proof. reflexivity. Qed.

(** C1 (the code at the failing input).  With the root [/root], the path
    [../root-evil/secret.txt] resolves to [/root-evil/secret.txt], which is
    outside the root when compared by segments; the check compares the two
    strings, finds [/root] at the start of [/root-evil/secret.txt], and the
    file, folder and download handlers go on to the file system: no 403 is
    sent and the file outside the root is read. *)
Theorem sibling_prefix_passes_security_check :
  let root := "/root" in
  let p := "../root-evil/secret.txt" in
  Path.resolve "/" (Path.join root p) = "/root-evil/secret.txt"
  /\ Path.containedBySegments (Path.resolve "/" root)
       (Path.resolve "/" (Path.join root p)) = false
  /\ securityCheck "/" root (Path.join root p) = true
  /\ FileExplorer.apiFile siblingFS (Some root) (Some p)
     = Json (FileExplorer.mkFileInfo 10 0 "txt" true false "top secret" None None)
  /\ option_map statusOf
       (FileExplorer.apiFolders 1 siblingFS (Some root) (Some "../root-evil"))
     = Some 200
  /\ FileExplorer.apiDownload siblingFS (Some root) (Some p)
     = SendFile "/root-evil/secret.txt" (Some "secret.txt")
  /\ statusOf
       (SimpleExplorer.apiFile (SimpleExplorer.mkRuntime (fun _ => "") (fun _ => ""))
          siblingFS (Some root) (Some p)) = 200.
Proof. repeat split; reflexivity. Qed.

(** C9 (counterexample).  An absolute request path that holds [..] is not
    re-rooted inside the root: joined to the root [/root], [/../etc/passwd]
    gives [/etc/passwd], the very location the absolute path names, and that
    is the path handed to the security check. *)
Lemma absolute_path_with_dotdot_leaves_root :
  Path.isAbsolute "/../etc/passwd" = true
  /\ Path.join "/root" "/../etc/passwd" = "/etc/passwd"
  /\ Path.resolve "/" (Path.join "/root" "/../etc/passwd")
     = Path.resolve "/" "/../etc/passwd"
  /\ Path.containedBySegments (Path.resolve "/" "/root")
       (Path.resolve "/" (Path.join "/root" "/../etc/passwd")) = false.
Proof. repeat split; reflexivity. Qed.

(** C9 (amended).  [path.join] reads the request path relative to the root:
    a leading slash changes nothing in the resolved path, and a request
    path without a [..] segment, absolute or not, resolves to the segments
    of the root followed by its own, so it lies in the root by segments and
    passes the security check. *)
Theorem join_reroots_request_path (cwd root p : string) :
  Path.isAbsolute cwd = true ->
  root <> "" ->
  Path.resolve cwd (Path.join root (String Path.slash p))
  = Path.resolve cwd (Path.join root p)
  /\ (noDotDot p = true ->
      Path.resolve cwd (Path.join root p)
      = String Path.slash
          (Path.join_slash
             (TreeFS.segments cwd root ++ filter kept (Path.split_slash p))%list)
      /\ Path.containedBySegments (Path.resolve cwd root)
           (Path.resolve cwd (Path.join root p)) = true
      /\ securityCheck cwd root (Path.join root p) = true).
Proof.
  intros Hc Hr. split; [now apply join_leading_slash|].
  intros Hp.
  assert (E := join_noDotDot_segments cwd root p Hr Hp).
  assert (C : containedBySegments (resolve cwd root) (resolve cwd (join root p)) = true).
  { rewrite containedBySegments_resolve by assumption.
    rewrite E. apply isPrefixOf_app_r. }
  repeat split.
  - rewrite resolve_segments by assumption. now rewrite E.
  - exact C.
  - now apply securityCheck_complete.
Qed.

Lemma join_reroots_request_path_witness :
  Path.resolve "/" (Path.join "/srv/files" "//etc/passwd")
  = Path.resolve "/" (Path.join "/srv/files" "/etc/passwd")
  /\ Path.resolve "/" (Path.join "/srv/files" "/etc/passwd")
     = "/srv/files/etc/passwd"
  /\ Path.containedBySegments (Path.resolve "/" "/srv/files")
       (Path.resolve "/" (Path.join "/srv/files" "/etc/passwd")) = true
  /\ securityCheck "/" "/srv/files" (Path.join "/srv/files" "/etc/passwd") = true.
Proof.
  destruct (join_reroots_request_path "/" "/srv/files" "/etc/passwd"
              eq_refl ltac:(discriminate)) as [H1 H2].
  destruct (H2 eq_refl) as [H3 [H4 H5]].
  exact (conj H1 (conj H3 (conj H4 H5))).
Defined.

End Guard.

(** ** Setting the root *)

Module RootConfig.

Import Samples.

Lemma stat_ok_nonempty fs p stats : Fs.stat fs p = Ok stats -> (p =? "") = false.
Proof.
  unfold Fs.stat. destruct (p =? ""); [discriminate | reflexivity].
Qed.

Lemma setRoot_rejects fs ROOT_FOLDER folderPath :
  existingDirectory fs folderPath = false ->
  fst (FileExplorer.setRoot fs ROOT_FOLDER folderPath) = ROOT_FOLDER
  /\ statusOf (snd (FileExplorer.setRoot fs ROOT_FOLDER folderPath)) = 400.
Proof.
  unfold existingDirectory, FileExplorer.setRoot. intros H.
  destruct (falsy folderPath); [split; reflexivity|].
  destruct folderPath as [| |b|z|p|]; try (split; reflexivity).
  destruct (Fs.stat fs p) as [stats|m]; [|split; reflexivity].
  rewrite H. split; reflexivity.
Qed.

Lemma simple_setRoot_rejects fs ROOT_FOLDER folderPath :
  existingDirectory fs folderPath = false ->
  fst (SimpleExplorer.setRoot fs ROOT_FOLDER folderPath) = ROOT_FOLDER
  /\ statusOf (snd (SimpleExplorer.setRoot fs ROOT_FOLDER folderPath)) = 400.
Proof.
  unfold existingDirectory, SimpleExplorer.setRoot. intros H.
  destruct (falsy folderPath); [split; reflexivity|].
  destruct folderPath as [| |b|z|p|]; try (split; reflexivity).
  destruct (Fs.stat fs p) as [stats|m]; [|split; reflexivity].
  rewrite H. split; reflexivity.
Qed.

Lemma setRoot_accepts fs ROOT_FOLDER p :
  existingDirectory fs (JString p) = true ->
  let canonical := Path.resolve (Fs.cwd fs) p in
  FileExplorer.setRoot fs ROOT_FOLDER (JString p)
  = (Some canonical, Json (mkRootSet canonical (Path.basename canonical)))
  /\ SimpleExplorer.setRoot fs ROOT_FOLDER (JString p)
     = (Some canonical, Json (mkRootSet canonical (Path.basename canonical))).
Proof.
  unfold existingDirectory, FileExplorer.setRoot, SimpleExplorer.setRoot.
  intros H. simpl falsy.
  destruct (Fs.stat fs p) as [stats|m] eqn:E; [|discriminate].
  rewrite (stat_ok_nonempty fs p stats E), H. split; reflexivity.
Qed.

(** C7.  In both servers, a candidate that is no existing directory gets
    status 400 and leaves [ROOT_FOLDER] as it was; a candidate that is an
    existing directory makes [ROOT_FOLDER] its resolved path and is answered
    with that [rootPath] and its base name as [folderName]. *)
Theorem set_root_validates_before_it_assigns
  (fs : Fs.FS) (ROOT_FOLDER : RootFolder) (folderPath : JsValue) :
  (existingDirectory fs folderPath = false ->
   fst (FileExplorer.setRoot fs ROOT_FOLDER folderPath) = ROOT_FOLDER
   /\ statusOf (snd (FileExplorer.setRoot fs ROOT_FOLDER folderPath)) = 400
   /\ fst (SimpleExplorer.setRoot fs ROOT_FOLDER folderPath) = ROOT_FOLDER
   /\ statusOf (snd (SimpleExplorer.setRoot fs ROOT_FOLDER folderPath)) = 400)
  /\ (existingDirectory fs folderPath = true ->
      exists p,
        folderPath = JString p
        /\ let canonical := Path.resolve (Fs.cwd fs) p in
           let reply := Json (mkRootSet canonical (Path.basename canonical)) in
           FileExplorer.setRoot fs ROOT_FOLDER folderPath = (Some canonical, reply)
           /\ SimpleExplorer.setRoot fs ROOT_FOLDER folderPath
              = (Some canonical, reply)
           /\ statusOf reply = 200).
Proof.
  split.
  - intros H.
    destruct (setRoot_rejects fs ROOT_FOLDER folderPath H) as [A B].
    destruct (simple_setRoot_rejects fs ROOT_FOLDER folderPath H) as [C D].
    repeat split; assumption.
  - intros H. destruct folderPath as [| |b|z|p|]; try discriminate.
    exists p. split; [reflexivity|].
    destruct (setRoot_accepts fs ROOT_FOLDER p H) as [A B].
    cbv zeta in *. repeat split; assumption.
Qed.

Lemma set_root_validates_before_it_assigns_witness :
  (FileExplorer.setRoot docsFS (Some "/old") (JString "/data/docs/a.txt")
   = (Some "/old", Failure 400 "Path is not a directory")
   /\ fst (SimpleExplorer.setRoot docsFS (Some "/old") (JString "/nowhere"))
      = Some "/old")
  /\ FileExplorer.setRoot docsFS (Some "/old") (JString "docs/../docs/")
     = (Some "/data/docs", Json (mkRootSet "/data/docs" "docs")).
Proof.
  split; [split|].
  - reflexivity.
  - exact (proj1 (proj2 (proj2
      (proj1 (set_root_validates_before_it_assigns docsFS (Some "/old")
                (JString "/nowhere")) eq_refl)))).
  - destruct (proj2 (set_root_validates_before_it_assigns docsFS (Some "/old")
                       (JString "docs/../docs/")) eq_refl) as [p [E [A _]]].
    injection E as <-. exact A.
Defined.

End RootConfig.

(** ** Base64 text decodes to the bytes it encodes *)

Module Base64Facts.

Import Base64.

Example encode_ex :
  encode (list_byte_of_string "Man") = "TWFu"
  /\ encode (list_byte_of_string "Ma") = "TWE="
  /\ encode (list_byte_of_string "M") = "TQ=="
  /\ decode "TWFuTQ==" = Some (list_byte_of_string "ManM").
Proof. repeat split; reflexivity. Qed.

Lemma sextets_checked : forallb sextetOk (seq 0 64) = true.
Proof. vm_compute. reflexivity. Qed.

Lemma sextet_ok (n : N) :
  (n < 64)%N ->
  decodeChar (encodeSextet n) = Some n
  /\ Ascii.eqb (encodeSextet n) pad = false.
Proof.
  intros H.
  assert (Hin : In (N.to_nat n) (seq 0 64)) by (apply in_seq; lia).
  pose proof (proj1 (forallb_forall sextetOk (seq 0 64)) sextets_checked _ Hin) as Hk.
  unfold sextetOk in Hk. rewrite N2Nat.id in Hk.
  apply andb_true_iff in Hk as [H1 H2].
  destruct (decodeChar (encodeSextet n)) as [m|]; [|discriminate].
  apply N.eqb_eq in H1. subst m.
  split; [reflexivity|]. now apply negb_true_iff in H2.
Qed.

Ltac div_mod_lia :=
  zify; Z.to_euclidean_division_equations; lia.

Lemma sextet1_lt a : (a < 256)%N -> (sextet1 a < 64)%N.
Proof. unfold sextet1. intros. div_mod_lia. Qed.

Lemma sextet2_lt a b : (b < 256)%N -> (sextet2 a b < 64)%N.
Proof. unfold sextet2. intros. div_mod_lia. Qed.

Lemma sextet3_lt b c : (c < 256)%N -> (sextet3 b c < 64)%N.
Proof. unfold sextet3. intros. div_mod_lia. Qed.

Lemma sextet4_lt c : (sextet4 c < 64)%N.
Proof. unfold sextet4. div_mod_lia. Qed.

Lemma byte1_sextets a b :
  (b < 256)%N -> byte1 (sextet1 a) (sextet2 a b) = a.
Proof. unfold byte1, sextet1, sextet2. intros. div_mod_lia. Qed.

Lemma byte2_sextets a b c :
  (b < 256)%N -> (c < 256)%N -> byte2 (sextet2 a b) (sextet3 b c) = b.
Proof. unfold byte2, sextet2, sextet3. intros. div_mod_lia. Qed.

Lemma byte3_sextets b c :
  (c < 256)%N -> byte3 (sextet3 b c) (sextet4 c) = c.
Proof. unfold byte3, sextet3, sextet4. intros. div_mod_lia. Qed.

Lemma to_N_lt (x : byte) : (Byte.to_N x < 256)%N.
Proof. pose proof (Byte.to_N_bounded x). lia. Qed.

Lemma list_ind3 (A : Type) (P : list A -> Prop) :
  P [] -> (forall a, P [a]) -> (forall a b, P [a; b]) ->
  (forall a b c l, P l -> P (a :: b :: c :: l)) ->
  forall l, P l.
Proof.
  intros H0 H1 H2 H3 l.
  enough (H : P l /\ (forall a, P (a :: l)) /\ (forall a b, P (a :: b :: l)))
    by apply H.
  induction l as [|c l [IH0 [IH1 IH2]]].
  - repeat split; auto.
  - repeat split; auto.
Qed.

Lemma bytes1_encode a :
  bytes1 (encodeSextet (sextet1 (Byte.to_N a)))
    (encodeSextet (sextet2 (Byte.to_N a) 0)) = Some [a].
Proof.
  unfold bytes1.
  rewrite (proj1 (sextet_ok _ (sextet1_lt _ (to_N_lt a)))).
  rewrite (proj1 (sextet_ok (sextet2 (Byte.to_N a) 0) (sextet2_lt _ 0 eq_refl))).
  rewrite byte1_sextets by reflexivity.
  now rewrite Byte.of_to_N.
Qed.

Lemma bytes2_encode a b :
  bytes2 (encodeSextet (sextet1 (Byte.to_N a)))
    (encodeSextet (sextet2 (Byte.to_N a) (Byte.to_N b)))
    (encodeSextet (sextet3 (Byte.to_N b) 0)) = Some [a; b].
Proof.
  unfold bytes2.
  rewrite (proj1 (sextet_ok _ (sextet1_lt _ (to_N_lt a)))).
  rewrite (proj1 (sextet_ok _ (sextet2_lt (Byte.to_N a) _ (to_N_lt b)))).
  rewrite (proj1 (sextet_ok (sextet3 (Byte.to_N b) 0) (sextet3_lt _ 0 eq_refl))).
  rewrite byte1_sextets by apply to_N_lt.
  rewrite byte2_sextets by (apply to_N_lt || reflexivity).
  now rewrite !Byte.of_to_N.
Qed.

Lemma bytes3_encode a b c :
  bytes3 (encodeSextet (sextet1 (Byte.to_N a)))
    (encodeSextet (sextet2 (Byte.to_N a) (Byte.to_N b)))
    (encodeSextet (sextet3 (Byte.to_N b) (Byte.to_N c)))
    (encodeSextet (sextet4 (Byte.to_N c))) = Some [a; b; c].
Proof.
  unfold bytes3.
  rewrite (proj1 (sextet_ok _ (sextet1_lt _ (to_N_lt a)))).
  rewrite (proj1 (sextet_ok _ (sextet2_lt (Byte.to_N a) _ (to_N_lt b)))).
  rewrite (proj1 (sextet_ok _ (sextet3_lt (Byte.to_N b) _ (to_N_lt c)))).
  rewrite (proj1 (sextet_ok _ (sextet4_lt (Byte.to_N c)))).
  rewrite byte1_sextets by apply to_N_lt.
  rewrite byte2_sextets by apply to_N_lt.
  rewrite byte3_sextets by apply to_N_lt.
  now rewrite !Byte.of_to_N.
Qed.

(** Decoding the base64 text of a buffer gives the buffer back. *)
Lemma decode_encode (bs : list byte) : decode (encode bs) = Some bs.
Proof.
  induction bs as [|a|a b|a b c rest IH] using list_ind3.
  - reflexivity.
  - cbn [encode decode]. rewrite Ascii.eqb_refl. apply bytes1_encode.
  - cbn [encode decode]. rewrite Ascii.eqb_refl.
    rewrite (proj2 (sextet_ok (sextet3 (Byte.to_N b) 0) (sextet3_lt _ 0 eq_refl))).
    apply bytes2_encode.
  - cbn [encode decode].
    rewrite (proj2 (sextet_ok _ (sextet4_lt (Byte.to_N c)))).
    rewrite bytes3_encode, IH. reflexivity.
Qed.

End Base64Facts.

(** ** Image previews *)

Module ImagePreview.

Import SimpleExplorer Samples.

Lemma payload_dataUri ext bytes :
  ext = ".png" \/ ext = ".jpg" ->
  payload (dataUri ext bytes) = Base64.encode bytes.
Proof. intros [-> | ->]; reflexivity. Qed.

(** C8.  For a file whose lower-cased extension is [.png] (or [.jpg]) that
    passes the security check and can be read, [GET /api/file] answers with
    a descriptor whose [isImage] is true and whose [content] is
    [data:image/png;base64,] ([data:image/jpeg;base64,] for [.jpg]) followed
    by the base64 text of the whole file, and that text decodes to exactly
    the bytes of the file. *)
Theorem image_descriptor_is_data_uri
  (rt : Runtime) (fs : Fs.FS) (root filePath ext : string)
  (stats : Fs.Stats) (bytes : list byte) :
  root <> "" ->
  securityCheck (Fs.cwd fs) root (Path.join root filePath) = true ->
  Fs.stat fs (Path.join root filePath) = Ok stats ->
  Fs.readFile fs (Path.join root filePath) = Ok bytes ->
  Str.toLowerCase (Path.extname (Path.join root filePath)) = ext ->
  ext = ".png" \/ ext = ".jpg" ->
  exists fileInfo,
    apiFile rt fs (Some root) (Some filePath) = Json fileInfo
    /\ isImage fileInfo = true
    /\ content fileInfo
       = (if ext =? ".png" then "data:image/png;base64,"
          else "data:image/jpeg;base64,") ++ Base64.encode bytes
    /\ Base64.decode (payload (content fileInfo)) = Some bytes
    /\ size fileInfo = Fs.size stats
    /\ modified fileInfo = Fs.mtime stats.
Proof.
  intros Hroot Hguard Hstat Hread Hext Himg.
  unfold apiFile.
  rewrite (ResolveFacts.eqb_false_of_neq _ _ Hroot), Hguard. simpl negb. cbv iota.
  rewrite Hstat, Hext.
  assert (Htxt : Str.includes [".txt"; ".csv"] ext = false)
    by (destruct Himg as [-> | ->]; reflexivity).
  assert (Himg' : Str.includes [".jpg"; ".png"] ext = true)
    by (destruct Himg as [-> | ->]; reflexivity).
  rewrite Htxt, Himg', Hread.
  eexists. split; [reflexivity|].
  cbn [isImage content size modified setContent setIsImage].
  split; [reflexivity|]. split.
  - destruct Himg as [-> | ->]; reflexivity.
  - split; [|split; reflexivity].
    rewrite payload_dataUri by assumption. apply Base64Facts.decode_encode.
Qed.

Lemma image_descriptor_is_data_uri_witness :
  exists fileInfo,
    apiFile plainRuntime picturesFS (Some "/pics") (Some "Logo.PNG") = Json fileInfo
    /\ isImage fileInfo = true
    /\ content fileInfo = "data:image/png;base64,iVBORw0KGgo="
    /\ Base64.decode (payload (content fileInfo)) = Some pngBytes
    /\ size fileInfo = 8%N
    /\ modified fileInfo = 1700000000000%Z.
Proof.
  exact (image_descriptor_is_data_uri plainRuntime picturesFS "/pics" "Logo.PNG"
           ".png" (Fs.mkStats 8 1700000000000 false) pngBytes
           ltac:(discriminate) eq_refl eq_refl eq_refl eq_refl (or_introl eq_refl)).
Defined.

End ImagePreview.

(** ** The content reader *)

Module ContentReader.

Import OfficeFormats Samples.

Lemma isOffice_false ext :
  isOffice ext = false ->
  (ext =? ".pdf") = false /\ (ext =? ".xlsx") = false /\ (ext =? ".xls") = false
  /\ (ext =? ".docx") = false /\ (ext =? ".doc") = false
  /\ (ext =? ".pptx") = false /\ (ext =? ".ppt") = false.
Proof.
  unfold isOffice, officeGroup, Str.includes. simpl.
  destruct (ext =? ".pdf"), (ext =? ".xlsx"), (ext =? ".xls"), (ext =? ".docx"),
    (ext =? ".doc"), (ext =? ".pptx"), (ext =? ".ppt"); simpl; intros H;
    try discriminate; repeat split; reflexivity.
Qed.

Lemma isOffice_cases ext :
  isOffice ext = true ->
  ext = ".pdf" \/ ext = ".xlsx" \/ ext = ".xls" \/ ext = ".docx"
  \/ ext = ".doc" \/ ext = ".pptx" \/ ext = ".ppt".
Proof.
  intros H. apply StrFacts.includes_In in H. simpl in H.
  repeat destruct H as [H | H]; subst; tauto.
Qed.

(** The four placeholders of enhanced_server.js name the format and say that
    the file is available for download. *)
Lemma enhanced_placeholders_announce_download :
  forallb (fun s => endsWith s "The file is available for download.")
    [ EnhancedServer.pdfUnavailable; EnhancedServer.excelUnavailable;
      EnhancedServer.docxUnavailable; EnhancedServer.legacyDoc ] = true
  /\ Str.startsWith EnhancedServer.pdfUnavailable "PDF" = true
  /\ Str.startsWith EnhancedServer.excelUnavailable "Excel" = true
  /\ Str.startsWith EnhancedServer.docxUnavailable "Word Document" = true
  /\ Str.startsWith EnhancedServer.legacyDoc "Legacy DOC" = true.
Proof. repeat split; reflexivity. Qed.

(** C2 (counterexample).  The content given to a PowerPoint file is not a
    fixed string: two presentations with the same bytes and different names
    get different contents from enhanced_server.js; and file_explorer_app.js
    leaves [downloadable] unset for a [.doc] file. *)
Lemma office_content_not_fixed :
  (enhancedContent
     (EnhancedServer.readFileContent EnhancedServer.noLibs stubRuntime officeFS
        "/d/a.pptx")
   =? enhancedContent
        (EnhancedServer.readFileContent EnhancedServer.noLibs stubRuntime officeFS
           "/d/b.pptx")) = false
  /\ FileExplorer.readFileContent officeFS "/d/old.doc"
     = Ok (FileExplorer.mkFileInfo 3 0 "doc" false true
             FileExplorer.docPlaceholder None None).
Proof. split; vm_compute; reflexivity. Qed.

(** C2 (amended).  For a file of the office and PDF group whose metadata can
    be read, neither reader throws.  enhanced_server.js, with no extractor
    loaded for the extension, returns a descriptor with [downloadable] true
    and no error; its content is a fixed placeholder for [.pdf], [.xlsx],
    [.xls], [.docx] and [.doc], and the text [processPptFile] builds from the
    file for [.pptx] and [.ppt].  file_explorer_app.js returns a descriptor
    with no error; its content is a fixed placeholder for [.pdf] and [.doc]
    and a text built from the file otherwise, and [downloadable] is set, to
    true, for [.pdf] only. *)
Theorem office_files_get_placeholders
  (libs : EnhancedServer.Libs) (rt : EnhancedServer.Runtime) (fs : Fs.FS)
  (filePath : string) (stats : Fs.Stats) :
  Fs.stat fs filePath = Ok stats ->
  isOffice (extOf filePath) = true ->
  extractorUnavailable libs (extOf filePath) = true ->
  (exists fileInfo,
     EnhancedServer.readFileContent libs rt fs filePath = Ok fileInfo
     /\ EnhancedServer.downloadable fileInfo = true
     /\ EnhancedServer.isBinary fileInfo = true
     /\ EnhancedServer.error fileInfo = None
     /\ EnhancedServer.content fileInfo
        = enhancedPlaceholder rt fs filePath (extOf filePath))
  /\ (exists fileInfo,
        FileExplorer.readFileContent fs filePath = Ok fileInfo
        /\ FileExplorer.isBinary fileInfo = true
        /\ FileExplorer.error fileInfo = None
        /\ FileExplorer.content fileInfo
           = explorerPlaceholder fs filePath (extOf filePath)
        /\ FileExplorer.downloadable fileInfo
           = if extOf filePath =? ".pdf" then Some true else None).
Proof.
  intros Hstat Hoffice Hlib.
  unfold EnhancedServer.readFileContent, FileExplorer.readFileContent.
  rewrite Hstat. unfold extOf in *.
  remember (Str.toLowerCase (Path.extname filePath)) as ext eqn:Hext.
  clear Hext.
  unfold EnhancedServer.readBranch, FileExplorer.readBranch,
    enhancedPlaceholder, explorerPlaceholder.
  destruct (isOffice_cases ext Hoffice)
    as [-> | [-> | [-> | [-> | [-> | [-> | ->]]]]]];
    unfold extractorUnavailable in Hlib; simpl in Hlib |- *.
  - destruct (EnhancedServer.pdfParse libs); [discriminate|].
    split; eexists; repeat split; reflexivity.
  - destruct (EnhancedServer.XLSX libs); [discriminate|].
    split; eexists; repeat split; reflexivity.
  - destruct (EnhancedServer.XLSX libs); [discriminate|].
    split; eexists; repeat split; reflexivity.
  - destruct (EnhancedServer.mammoth libs); [discriminate|].
    split; eexists; repeat split; reflexivity.
  - split; eexists; repeat split; reflexivity.
  - split; eexists; repeat split; reflexivity.
  - split; eexists; repeat split; reflexivity.
Qed.

Lemma office_files_get_placeholders_witness :
  (exists fileInfo,
     EnhancedServer.readFileContent EnhancedServer.noLibs stubRuntime officeFS
       "/d/report.pdf" = Ok fileInfo
     /\ EnhancedServer.downloadable fileInfo = true
     /\ EnhancedServer.isBinary fileInfo = true
     /\ EnhancedServer.error fileInfo = None
     /\ EnhancedServer.content fileInfo = EnhancedServer.pdfUnavailable)
  /\ (exists fileInfo,
        FileExplorer.readFileContent officeFS "/d/report.pdf" = Ok fileInfo
        /\ FileExplorer.isBinary fileInfo = true
        /\ FileExplorer.error fileInfo = None
        /\ FileExplorer.content fileInfo = FileExplorer.pdfPlaceholder
        /\ FileExplorer.downloadable fileInfo = Some true).
Proof.
  exact (office_files_get_placeholders EnhancedServer.noLibs stubRuntime officeFS
           "/d/report.pdf" (Fs.mkStats 4 0 false) eq_refl eq_refl eq_refl).
Defined.

(** C4 (counterexample).  An exception raised while the content of an
    office file is produced is caught inside the helper: the descriptor
    carries the message in [content] and its [error] stays [null].  And when
    the metadata cannot be read, [readFileContent] itself throws. *)
Lemma helper_exception_leaves_error_null :
  FileExplorer.readFileContent officeFS "/d/locked.xlsx"
  = Ok (FileExplorer.mkFileInfo 2 0 "xlsx" false true
          "Error reading Excel file: EACCES: permission denied '/d/locked.xlsx'"
          None None)
  /\ EnhancedServer.readFileContent EnhancedServer.noLibs stubRuntime officeFS
       "/d/locked.ppt"
     = Ok (EnhancedServer.mkFileInfo 3 0 "ppt" false true
             "Error accessing PowerPoint file: EACCES: permission denied '/d/locked.ppt'"
             None true)
  /\ FileExplorer.readFileContent officeFS "/d/gone.txt"
     = Throw "ENOENT: no such file or directory '/d/gone.txt'"
  /\ EnhancedServer.readFileContent EnhancedServer.noLibs stubRuntime officeFS
       "/d/gone.txt"
     = Throw "ENOENT: no such file or directory '/d/gone.txt'".
Proof. repeat split; vm_compute; reflexivity. Qed.

(** When the metadata cannot be read the exception leaves [readFileContent];
    the route handler answers it with status 500. *)
Lemma stat_failure_is_thrown libs rt fs filePath message :
  Fs.stat fs filePath = Throw message ->
  EnhancedServer.readFileContent libs rt fs filePath = Throw message
  /\ FileExplorer.readFileContent fs filePath = Throw message.
Proof.
  intros H. unfold EnhancedServer.readFileContent, FileExplorer.readFileContent.
  now rewrite H.
Qed.

Ltac ext_cases :=
  repeat match goal with
         | H : (_ =? _) = true |- _ => apply String.eqb_eq in H; subst
         | H : (?a =? ?a) = false |- _ =>
             rewrite String.eqb_refl in H; discriminate H
         | H : _ \/ _ |- _ => destruct H
         | H : ?x = _ |- _ => is_var x; subst x
         end.

(** The reader of file_explorer_app.js. *)
Lemma explorer_reader fs filePath stats :
  Fs.stat fs filePath = Ok stats ->
  exists explorer,
    FileExplorer.readFileContent fs filePath = Ok explorer
    /\ FileExplorer.size explorer = Fs.size stats
    /\ FileExplorer.modified explorer = Fs.mtime stats
    /\ (isOffice (extOf filePath) = true -> FileExplorer.error explorer = None)
    /\ (forall message,
          Fs.readFile fs filePath = Throw message ->
          (extOf filePath = ".xlsx" \/ extOf filePath = ".xls" ->
           FileExplorer.content explorer = "Error reading Excel file: " ++ message)
          /\ (extOf filePath = ".docx" ->
              FileExplorer.content explorer
              = "Error reading Word document: " ++ message)
          /\ (extOf filePath = ".pptx" \/ extOf filePath = ".ppt" ->
              FileExplorer.content explorer
              = "Error reading PowerPoint file: " ++ message))
    /\ (isOffice (extOf filePath) = false ->
        match Fs.readFile fs filePath with
        | Ok bytes =>
            FileExplorer.error explorer = None
            /\ FileExplorer.content explorer = Utf8.decode bytes
        | Throw message =>
            FileExplorer.error explorer
            = Some ("Error reading file: " ++ message)
            /\ FileExplorer.content explorer = FileExplorer.unableToRead
        end).
Proof.
  intros Hstat. unfold FileExplorer.readFileContent. rewrite Hstat.
  unfold extOf. generalize (Str.toLowerCase (Path.extname filePath)).
  intros ext. cbv zeta.
  unfold FileExplorer.readBranch, FileExplorer.processExcelFile,
    FileExplorer.processDocxFile, FileExplorer.processPptFile, Fs.readFileUtf8.
  destruct (isOffice ext) eqn:Hoffice.
  - destruct (isOffice_cases ext Hoffice)
      as [-> | [-> | [-> | [-> | [-> | [-> | ->]]]]]];
      cbn [String.eqb Ascii.eqb Bool.eqb orb];
      (eexists; split; [reflexivity|]);
      cbn [FileExplorer.size FileExplorer.modified FileExplorer.error
           FileExplorer.content FileExplorer.setContent
           FileExplorer.setIsBinary FileExplorer.setDownloadable];
      repeat split; try discriminate;
      intros; ext_cases; try discriminate;
      match goal with
      | H : Fs.readFile _ _ = Throw _ |- _ => now rewrite H
      end.
  - destruct (isOffice_false ext Hoffice) as [E1 [E2 [E3 [E4 [E5 [E6 E7]]]]]].
    rewrite E1, E2, E3, E4, E5, E6, E7. cbn [orb].
    destruct (Fs.readFile fs filePath) as [bytes|message];
      (eexists; split; [reflexivity|]);
      repeat split; try discriminate; intros; ext_cases.
Qed.

(** The reader of enhanced_server.js. *)
Lemma enhanced_reader libs rt fs filePath stats :
  Fs.stat fs filePath = Ok stats ->
  exists enhanced,
    EnhancedServer.readFileContent libs rt fs filePath = Ok enhanced
    /\ EnhancedServer.size enhanced = Fs.size stats
    /\ EnhancedServer.modified enhanced = Fs.mtime stats
    /\ (isOffice (extOf filePath) = true -> EnhancedServer.error enhanced = None)
    /\ (forall message,
          Fs.readFile fs filePath = Throw message ->
          extOf filePath = ".pptx" \/ extOf filePath = ".ppt" ->
          EnhancedServer.content enhanced
          = "Error accessing PowerPoint file: " ++ message)
    /\ (forall tryBlock message,
          tryBlock fs filePath = Throw message ->
          (extOf filePath = ".pdf" ->
           EnhancedServer.pdfParse libs = Some tryBlock ->
           EnhancedServer.content enhanced = EnhancedServer.pdfFailed message)
          /\ (extOf filePath = ".xlsx" \/ extOf filePath = ".xls" ->
              EnhancedServer.XLSX libs = Some tryBlock ->
              EnhancedServer.content enhanced
              = EnhancedServer.excelFailed message)
          /\ (extOf filePath = ".docx" ->
              EnhancedServer.mammoth libs = Some tryBlock ->
              EnhancedServer.content enhanced
              = EnhancedServer.docxFailed message))
    /\ (isOffice (extOf filePath) = false ->
        match Fs.readFile fs filePath with
        | Ok bytes =>
            EnhancedServer.error enhanced = None
            /\ EnhancedServer.content enhanced = Utf8.decode bytes
        | Throw message =>
            EnhancedServer.error enhanced
            = Some ("Error reading file: " ++ message)
            /\ EnhancedServer.content enhanced
               = EnhancedServer.unableToRead message
        end).
Proof.
  intros Hstat. unfold EnhancedServer.readFileContent. rewrite Hstat.
  unfold extOf. generalize (Str.toLowerCase (Path.extname filePath)).
  intros ext. cbv zeta.
  unfold EnhancedServer.readBranch, EnhancedServer.processPptFile,
    EnhancedServer.caught, Fs.readFileUtf8.
  destruct (isOffice ext) eqn:Hoffice.
  - destruct (EnhancedServer.pdfParse libs) as [pdf|] eqn:Lp,
      (EnhancedServer.XLSX libs) as [xlsx|] eqn:Lx,
      (EnhancedServer.mammoth libs) as [docx|] eqn:Lm;
      destruct (isOffice_cases ext Hoffice)
        as [-> | [-> | [-> | [-> | [-> | [-> | ->]]]]]];
      cbn [String.eqb Ascii.eqb Bool.eqb orb];
      (eexists; split; [reflexivity|]);
      cbn [EnhancedServer.size EnhancedServer.modified EnhancedServer.error
           EnhancedServer.content EnhancedServer.setContent
           EnhancedServer.setIsBinary EnhancedServer.setDownloadable];
      repeat split; try discriminate;
      intros; ext_cases; try discriminate;
      repeat match goal with
             | H : Some _ = Some _ |- _ => injection H as <-
             end;
      match goal with
      | H : _ = Throw _ |- _ => now rewrite H
      end.
  - destruct (isOffice_false ext Hoffice) as [E1 [E2 [E3 [E4 [E5 [E6 E7]]]]]].
    rewrite E1, E2, E3, E4, E5, E6, E7. cbn [orb].
    destruct (Fs.readFile fs filePath) as [bytes|message];
      (eexists; split; [reflexivity|]);
      repeat split; try discriminate; intros; ext_cases.
Qed.

(** C4 (amended).  Once the metadata of the path is read, neither reader
    throws: each returns a descriptor whose size and modification time are
    those of the metadata.  Outside the office and PDF group the file is read
    as text: its content is the file decoded as UTF-8, and a read that throws
    gives a descriptor whose [error] is [Error reading file: ] followed by
    the message and whose [content] is the diagnostic placeholder.  In the
    office and PDF group [error] stays [null], and an exception raised while
    the content is produced is caught in the helper, which puts its message
    into [content]: the failed read of the file in [processExcelFile],
    [processDocxFile] and [processPptFile] of file_explorer_app.js and in
    [processPptFile] of enhanced_server.js, and any exception of the [try]
    block in [processPdfFile], [processExcelFile] and [processDocxFile] of
    enhanced_server.js when their library is loaded. *)
Theorem read_failures_become_descriptors
  (libs : EnhancedServer.Libs) (rt : EnhancedServer.Runtime) (fs : Fs.FS)
  (filePath : string) (stats : Fs.Stats) :
  Fs.stat fs filePath = Ok stats ->
  exists enhanced explorer,
    EnhancedServer.readFileContent libs rt fs filePath = Ok enhanced
    /\ FileExplorer.readFileContent fs filePath = Ok explorer
    /\ EnhancedServer.size enhanced = Fs.size stats
    /\ EnhancedServer.modified enhanced = Fs.mtime stats
    /\ FileExplorer.size explorer = Fs.size stats
    /\ FileExplorer.modified explorer = Fs.mtime stats
    /\ (isOffice (extOf filePath) = true ->
        EnhancedServer.error enhanced = None
        /\ FileExplorer.error explorer = None)
    /\ (forall message,
          Fs.readFile fs filePath = Throw message ->
          (extOf filePath = ".xlsx" \/ extOf filePath = ".xls" ->
           FileExplorer.content explorer = "Error reading Excel file: " ++ message)
          /\ (extOf filePath = ".docx" ->
              FileExplorer.content explorer
              = "Error reading Word document: " ++ message)
          /\ (extOf filePath = ".pptx" \/ extOf filePath = ".ppt" ->
              FileExplorer.content explorer
              = "Error reading PowerPoint file: " ++ message
              /\ EnhancedServer.content enhanced
                 = "Error accessing PowerPoint file: " ++ message))
    /\ (forall tryBlock message,
          tryBlock fs filePath = Throw message ->
          (extOf filePath = ".pdf" ->
           EnhancedServer.pdfParse libs = Some tryBlock ->
           EnhancedServer.content enhanced = EnhancedServer.pdfFailed message)
          /\ (extOf filePath = ".xlsx" \/ extOf filePath = ".xls" ->
              EnhancedServer.XLSX libs = Some tryBlock ->
              EnhancedServer.content enhanced
              = EnhancedServer.excelFailed message)
          /\ (extOf filePath = ".docx" ->
              EnhancedServer.mammoth libs = Some tryBlock ->
              EnhancedServer.content enhanced
              = EnhancedServer.docxFailed message))
    /\ (isOffice (extOf filePath) = false ->
        match Fs.readFile fs filePath with
        | Ok bytes =>
            EnhancedServer.error enhanced = None
            /\ EnhancedServer.content enhanced = Utf8.decode bytes
            /\ FileExplorer.error explorer = None
            /\ FileExplorer.content explorer = Utf8.decode bytes
        | Throw message =>
            EnhancedServer.error enhanced
            = Some ("Error reading file: " ++ message)
            /\ EnhancedServer.content enhanced
               = EnhancedServer.unableToRead message
            /\ FileExplorer.error explorer
               = Some ("Error reading file: " ++ message)
            /\ FileExplorer.content explorer = FileExplorer.unableToRead
        end).
Proof.
  intros Hstat.
  destruct (enhanced_reader libs rt fs filePath stats Hstat)
    as [enhanced [A1 [A2 [A3 [A4 [A5 [A6 A7]]]]]]].
  destruct (explorer_reader fs filePath stats Hstat)
    as [explorer [B1 [B2 [B3 [B4 [B5 B6]]]]]].
  exists enhanced, explorer.
  split; [exact A1|]. split; [exact B1|].
  split; [exact A2|]. split; [exact A3|].
  split; [exact B2|]. split; [exact B3|].
  split; [intros H; split; [now apply A4 | now apply B4]|].
  split.
  { intros message Hm. destruct (B5 message Hm) as [C1 [C2 C3]].
    split; [exact C1|]. split; [exact C2|].
    intros He. split; [now apply C3 | now apply (A5 message)]. }
  split; [exact A6|].
  intros Hoff. specialize (A7 Hoff). specialize (B6 Hoff).
  destruct (Fs.readFile fs filePath) as [bytes|message];
    destruct A7 as [P Q], B6 as [R T]; repeat split; assumption.
Qed.

Lemma read_failures_become_descriptors_witness :
  (exists enhanced explorer,
     EnhancedServer.readFileContent EnhancedServer.noLibs stubRuntime officeFS
       "/d/locked.txt" = Ok enhanced
     /\ FileExplorer.readFileContent officeFS "/d/locked.txt" = Ok explorer
     /\ EnhancedServer.size enhanced = 1%N
     /\ EnhancedServer.error enhanced
        = Some "Error reading file: EACCES: permission denied '/d/locked.txt'"
     /\ FileExplorer.error explorer
        = Some "Error reading file: EACCES: permission denied '/d/locked.txt'"
     /\ FileExplorer.content explorer = FileExplorer.unableToRead)
  /\ (exists enhanced explorer,
        EnhancedServer.readFileContent EnhancedServer.noLibs stubRuntime
          officeFS "/d/locked.ppt" = Ok enhanced
        /\ FileExplorer.readFileContent officeFS "/d/locked.ppt" = Ok explorer
        /\ EnhancedServer.error enhanced = None
        /\ FileExplorer.error explorer = None
        /\ FileExplorer.content explorer
           = "Error reading PowerPoint file: EACCES: permission denied '/d/locked.ppt'"
        /\ EnhancedServer.content enhanced
           = "Error accessing PowerPoint file: EACCES: permission denied '/d/locked.ppt'")
  /\ (exists enhanced explorer,
        EnhancedServer.readFileContent
          (EnhancedServer.mkLibs None (Some (fun fs p => Fs.readFileUtf8 fs p))
             None)
          stubRuntime officeFS "/d/locked.xlsx" = Ok enhanced
        /\ FileExplorer.readFileContent officeFS "/d/locked.xlsx" = Ok explorer
        /\ EnhancedServer.error enhanced = None
        /\ EnhancedServer.content enhanced
           = EnhancedServer.excelFailed
               "EACCES: permission denied '/d/locked.xlsx'"
        /\ FileExplorer.content explorer
           = "Error reading Excel file: EACCES: permission denied '/d/locked.xlsx'").
Proof.
  split; [|split].
  - destruct (read_failures_become_descriptors EnhancedServer.noLibs stubRuntime
                officeFS "/d/locked.txt" (Fs.mkStats 1 0 false) eq_refl)
      as [enhanced [explorer [A [B [C [_ [_ [_ [_ [_ [_ D]]]]]]]]]]].
    destruct (D eq_refl) as [E [_ [F G]]].
    exists enhanced, explorer.
    exact (conj A (conj B (conj C (conj E (conj F G))))).
  - destruct (read_failures_become_descriptors EnhancedServer.noLibs stubRuntime
                officeFS "/d/locked.ppt" (Fs.mkStats 3 0 false) eq_refl)
      as [enhanced [explorer [A [B [_ [_ [_ [_ [C [D _]]]]]]]]]].
    destruct (C eq_refl) as [C1 C2].
    destruct (D "EACCES: permission denied '/d/locked.ppt'" eq_refl)
      as [_ [_ D3]].
    destruct (D3 (or_intror eq_refl)) as [D4 D5].
    exists enhanced, explorer.
    exact (conj A (conj B (conj C1 (conj C2 (conj D4 D5))))).
  - destruct (read_failures_become_descriptors
                (EnhancedServer.mkLibs None
                   (Some (fun fs p => Fs.readFileUtf8 fs p)) None)
                stubRuntime officeFS "/d/locked.xlsx" (Fs.mkStats 2 0 false)
                eq_refl)
      as [enhanced [explorer [A [B [_ [_ [_ [_ [C [D [E _]]]]]]]]]]].
    destruct (C eq_refl) as [C1 _].
    destruct (D "EACCES: permission denied '/d/locked.xlsx'" eq_refl)
      as [D1 _].
    destruct (E (fun fs p => Fs.readFileUtf8 fs p)
                "EACCES: permission denied '/d/locked.xlsx'" eq_refl)
      as [_ [E2 _]].
    exists enhanced, explorer.
    exact (conj A (conj B (conj C1
             (conj (E2 (or_introl eq_refl) eq_refl)
                   (D1 (or_introl eq_refl)))))).
Defined.

End ContentReader.

(** ** The folders-only enumerator of file_explorer_app.js *)

Module FoldersOnly.

Import FileExplorer.

Lemma folderLoop_returns rec dirPath items :
  (forall item, In item items -> Fs.isDir item = true ->
                exists sub, rec (Path.join dirPath (Fs.name item)) = Some sub) ->
  exists folders, folderLoop rec dirPath items = Some folders.
Proof.
  induction items as [|item rest IH]; intros H; simpl.
  - eauto.
  - destruct IH as [folders E].
    { intros i Hi. apply H. now right. }
    rewrite E. destruct (Fs.isDir item) eqn:D; [|eauto].
    destruct (H item (or_introl eq_refl) D) as [sub ->]. eauto.
Qed.

Lemma folderLoop_mono rec rec' dirPath items folders :
  (forall p r, rec p = Some r -> rec' p = Some r) ->
  folderLoop rec dirPath items = Some folders ->
  folderLoop rec' dirPath items = Some folders.
Proof.
  intros Hrec. revert folders.
  induction items as [|item rest IH]; intros folders; simpl; [auto|].
  destruct (Fs.isDir item); [|apply IH].
  destruct (rec (Path.join dirPath (Fs.name item))) as [sub|] eqn:E; [|discriminate].
  rewrite (Hrec _ _ E).
  destruct (folderLoop rec dirPath rest) as [fs'|]; [|discriminate].
  now rewrite (IH fs' eq_refl).
Qed.

(** More fuel does not change a result. *)
Lemma getFolderStructure_mono fs n :
  forall dirPath folders,
    getFolderStructure n fs dirPath = Some folders ->
    getFolderStructure (S n) fs dirPath = Some folders.
Proof.
  induction n as [|n IH]; intros dirPath folders H; [discriminate|].
  simpl in H. change (getFolderStructure (S (S n)) fs dirPath)
    with (match Fs.readdir fs dirPath with
          | Ok items => folderLoop (getFolderStructure (S n) fs) dirPath items
          | Throw _ => Some []
          end).
  destruct (Fs.readdir fs dirPath) as [items|m]; [|assumption].
  apply (folderLoop_mono (getFolderStructure n fs)); assumption.
Qed.

Lemma getFolderStructure_mono_le fs n m dirPath folders :
  n <= m ->
  getFolderStructure n fs dirPath = Some folders ->
  getFolderStructure m fs dirPath = Some folders.
Proof.
  induction 1 as [|m Hle IH]; [auto|].
  intros H. apply getFolderStructure_mono. auto.
Qed.

(** With fuel beyond the depth of the directory the enumerator returns. *)
Lemma getFolderStructure_returns fs depth :
  Fs.finiteDepth fs depth ->
  forall fuel dirPath,
    depth dirPath < fuel ->
    exists folders, getFolderStructure fuel fs dirPath = Some folders.
Proof.
  intros Hfin. induction fuel as [|fuel IH]; intros dirPath Hd; [lia|].
  simpl. destruct (Fs.readdir fs dirPath) as [items|m] eqn:E; [|eauto].
  apply folderLoop_returns. intros item Hin Hdir.
  apply IH. specialize (Hfin dirPath items item E Hin Hdir). lia.
Qed.

(** What the loop returns: one folder for each directory of the listing, in
    the order of the listing, with the result of the recursive call. *)
Lemma folderLoop_spec rec dirPath items folders :
  folderLoop rec dirPath items = Some folders ->
  Forall2
    (fun item f =>
       folderName' f = Fs.name item
       /\ rec (Path.join dirPath (Fs.name item)) = Some (subFolders f))
    (filter Fs.isDir items) folders.
Proof.
  revert folders. induction items as [|item rest IH]; intros folders; simpl.
  - intros H. injection H as <-. constructor.
  - destruct (Fs.isDir item); [|apply IH].
    destruct (rec (Path.join dirPath (Fs.name item))) as [sub|] eqn:E; [|discriminate].
    destruct (folderLoop rec dirPath rest) as [fs'|]; [|discriminate].
    intros H. injection H as <-. constructor; [split; [reflexivity | exact E]|].
    now apply IH.
Qed.

Lemma Forall2_names items folders (P : Fs.Dirent -> Folder -> Prop) :
  Forall2 (fun item f => folderName' f = Fs.name item /\ P item f) items folders ->
  map folderName' folders = map Fs.name items.
Proof.
  induction 1 as [|item f items folders [E _] _ IH]; simpl; [reflexivity|].
  now rewrite E, IH.
Qed.

Lemma Forall2_In_l (A B : Type) (R : A -> B -> Prop) (l : list A) (l' : list B) x :
  Forall2 R l l' -> In x l -> exists y, In y l' /\ R x y.
Proof.
  induction 1 as [|a b l l' Hab _ IH]; intros Hin; [contradiction|].
  destruct Hin as [-> | Hin].
  - exists b. split; [now left | assumption].
  - destruct (IH Hin) as [y [Hy Hr]]. exists y. split; [now right | assumption].
Qed.

Lemma getFolderStructure_unreadable fs fuel dirPath message :
  Fs.readdir fs dirPath = Throw message ->
  getFolderStructure (S fuel) fs dirPath = Some [].
Proof. intros H. simpl. now rewrite H. Qed.

(** The result does not depend on the fuel, once there is enough of it. *)
Lemma getFolderStructure_stable fs depth dirPath :
  Fs.finiteDepth fs depth ->
  exists folders,
    forall fuel, depth dirPath < fuel ->
                 getFolderStructure fuel fs dirPath = Some folders.
Proof.
  intros Hfin.
  destruct (getFolderStructure_returns fs depth Hfin (S (depth dirPath)) dirPath
              (Nat.lt_succ_diag_r _)) as [folders E].
  exists folders. intros fuel Hf.
  apply (getFolderStructure_mono_le fs (S (depth dirPath))); [lia | assumption].
Qed.

(** C10.  On a file system whose directories nest to a finite depth,
    [getFolderStructure] returns a list for every path, the empty list when
    the directory cannot be listed; so [GET /api/home-structure] answers a
    configured root with status 200 and that list, also when the root itself
    cannot be read. *)
Theorem folders_only_enumerator_is_total
  (fs : Fs.FS) (depth : string -> nat) (dirPath : string) :
  Fs.finiteDepth fs depth ->
  exists folders,
    (forall fuel, depth dirPath < fuel ->
                  getFolderStructure fuel fs dirPath = Some folders)
    /\ (forall message, Fs.readdir fs dirPath = Throw message -> folders = [])
    /\ (dirPath <> "" ->
        forall fuel, depth dirPath < fuel ->
          apiHomeStructure fuel fs (Some dirPath) = Some (Json folders)
          /\ statusOf (Json folders) = 200).
Proof.
  intros Hfin.
  destruct (getFolderStructure_stable fs depth dirPath Hfin) as [folders Hall].
  exists folders.
  split; [exact Hall|]. split.
  - intros message Hm.
    pose proof (Hall (S (depth dirPath)) (Nat.lt_succ_diag_r _)) as E.
    rewrite (getFolderStructure_unreadable fs _ dirPath message Hm) in E.
    now injection E.
  - intros Hne fuel Hf. unfold apiHomeStructure.
    rewrite (ResolveFacts.eqb_false_of_neq _ _ Hne), (Hall fuel Hf).
    split; reflexivity.
Qed.

End FoldersOnly.

(** ** File systems given by a tree nest to a finite depth *)

Module TreeFacts.

Import Path PathFacts ResolveFacts TreeFS.

Lemma height_entry m r entries k v :
  In (k, v) entries -> height v < height (Dir m r entries).
Proof.
  simpl. induction entries as [|e rest IH]; intros H; [contradiction|].
  destruct H as [-> | H].
  - simpl. lia.
  - specialize (IH H). lia.
Qed.

Lemma child_In k entries v : child k entries = Some v -> In (k, v) entries.
Proof.
  induction entries as [|[k' v'] rest IH]; simpl; [discriminate|].
  destruct (k' =? k) eqn:E.
  - intros H. injection H as <-. apply String.eqb_eq in E. subst. now left.
  - intros H. right. now apply IH.
Qed.

Lemma child_exists k v entries :
  In (k, v) entries -> exists v', child k entries = Some v'.
Proof.
  induction entries as [|[k' v'] rest IH]; simpl; [contradiction|].
  intros [H | H].
  - injection H as -> ->. rewrite String.eqb_refl. eauto.
  - destruct (k' =? k); [eauto | now apply IH].
Qed.

Lemma walk_app node l1 l2 :
  walk node (l1 ++ l2)%list
  = match walk node l1 with
    | Some n => walk n l2
    | None => None
    end.
Proof.
  revert node. induction l1 as [|s l1 IH]; intros node; simpl; [reflexivity|].
  destruct node as [| m r entries |]; try reflexivity.
  destruct (child s entries); [apply IH | reflexivity].
Qed.

Lemma validName_plain k : validName k = true -> plain k = true /\ hasSlash k = false.
Proof.
  unfold validName, plain. intros H.
  apply andb_true_iff in H as [H Hs].
  split; [exact H | now apply negb_true_iff in Hs].
Qed.

Lemma normalize_nonempty s : normalize s <> "".
Proof.
  unfold normalize. destruct (s =? ""); [discriminate|].
  pose proof (normSegs_kept (negb (isAbsolute s)) (split_slash s)) as HK.
  unfold normalizeString.
  destruct (normSegs (negb (isAbsolute s)) (split_slash s)) as [|x r].
  - simpl. destruct (isAbsolute s); [discriminate|].
    destruct (Str.endsWithChar slash s); discriminate.
  - pose proof (join_slash_nonempty x r (Forall_inv HK)) as Hne.
    rewrite (eqb_false_of_neq _ _ Hne).
    destruct (isAbsolute s); [discriminate|].
    destruct (Str.endsWithChar slash s); [|assumption].
    destruct (join_slash (x :: r)); [congruence | discriminate].
Qed.

Lemma join_nonempty a b : join a b <> "".
Proof.
  unfold join.
  destruct ((if a =? "" then b else if b =? "" then a else a ++ String slash b) =? "");
    [discriminate | apply normalize_nonempty].
Qed.

(** The entry [k] of the directory [dirPath] is reached through
    [path.join(dirPath, k)]. *)
Lemma segments_join_name cwd dirPath k :
  dirPath <> "" -> validName k = true ->
  segments cwd (join dirPath k) = (segments cwd dirPath ++ [k])%list.
Proof.
  intros Hd Hk. destruct (validName_plain k Hk) as [Hp Hs].
  rewrite join_segments by assumption.
  rewrite (split_no_slash k Hs), app_assoc.
  rewrite normSegs_false_app_plain by (constructor; [assumption | constructor]).
  reflexivity.
Qed.

Lemma lookup_join_name root cwd dirPath k m r entries :
  lookup root cwd dirPath = Some (Dir m r entries) ->
  validName k = true ->
  lookup root cwd (join dirPath k) = child k entries.
Proof.
  unfold lookup. intros H Hk.
  destruct (dirPath =? "") eqn:Ed; [discriminate|].
  apply String.eqb_neq in Ed.
  rewrite (eqb_false_of_neq _ _ (join_nonempty dirPath k)).
  rewrite segments_join_name by assumption.
  rewrite walk_app, H. simpl. destruct (child k entries); reflexivity.
Qed.

Lemma insertEntry_perm e l : Permutation (insertEntry e l) (e :: l).
Proof.
  induction l as [|x l IH]; cbn [insertEntry]; [reflexivity|].
  destruct (Str.leb (fst e) (fst x)); [reflexivity|].
  rewrite IH. apply perm_swap.
Qed.

Lemma sortEntries_perm l : Permutation (sortEntries l) l.
Proof.
  induction l as [|e l IH]; cbn [sortEntries]; [reflexivity|].
  rewrite insertEntry_perm. now constructor.
Qed.

Lemma sortEntries_In e l : In e (sortEntries l) <-> In e l.
Proof.
  split; apply Permutation_in;
    [apply sortEntries_perm | symmetry; apply sortEntries_perm].
Qed.

Lemma readdir_inv root cwd dirPath items :
  Fs.readdir (toFS cwd root) dirPath = Ok items ->
  exists m entries,
    lookup root cwd dirPath = Some (Dir m true entries)
    /\ items = map dirent (sortEntries (filter listed entries)).
Proof.
  unfold Fs.readdir. destruct (dirPath =? ""); [discriminate|].
  simpl. unfold readdir.
  destruct (lookup root cwd dirPath) as [[| m [|] entries |]|]; try discriminate.
  intros H. injection H as <-. eauto.
Qed.

(** Every file system given by a tree nests to a finite depth. *)
Lemma tree_finiteDepth (root : Node) (cwd : string) :
  Fs.finiteDepth (toFS cwd root) (depth root cwd).
Proof.
  intros dirPath items item Hread Hin Hdir.
  destruct (readdir_inv root cwd dirPath items Hread) as [m [entries [Hl ->]]].
  apply in_map_iff in Hin as [[k v] [<- Hin]].
  apply (proj1 (sortEntries_In _ _)) in Hin.
  apply filter_In in Hin as [Hin Hvalid].
  unfold listed in Hvalid. cbn [fst] in Hvalid.
  cbn [dirent Fs.name fst].
  unfold depth. rewrite Hl.
  rewrite (lookup_join_name root cwd dirPath k m true entries Hl Hvalid).
  destruct (child_exists k v entries Hin) as [v' Hc]. rewrite Hc.
  pose proof (height_entry m true entries k v' (child_In _ _ _ Hc)). lia.
Qed.

(** On a tree the folders-only enumerator returns for every path, with fuel
    beyond the depth of the tree below the path. *)
Lemma tree_enumeration_returns (root : Node) (cwd dirPath : string) :
  exists folders,
    forall fuel, depth root cwd dirPath < fuel ->
                 FileExplorer.getFolderStructure fuel (toFS cwd root) dirPath
                 = Some folders.
Proof. apply FoldersOnly.getFolderStructure_stable, tree_finiteDepth. Qed.

End TreeFacts.

(** ** The depth-limited enumerator of folder_structure_app.js *)

Module DepthLimited.

Import FolderStructureApp.

Lemma skipped_hiddenOrBuild name : skipped name = false -> hiddenOrBuild name = false.
Proof.
  unfold skipped, hiddenOrBuild, Str.includes. simpl.
  destruct (Str.startsWith name "."); simpl; [discriminate|].
  destruct (name =? "node_modules"), (name =? ".git"), (name =? "dist"),
    (name =? "build"); simpl; congruence.
Qed.

Section Facts.

Variable localeCompare : string -> string -> Z.
Variable fs : Fs.FS.

#[local] Abbreviation sort := (sort localeCompare).
#[local] Abbreviation insert := (insert localeCompare).
#[local] Abbreviation getFolderStructure := (getFolderStructure localeCompare fs).
#[local] Abbreviation getFolderStructureLevels := (getFolderStructureLevels localeCompare fs).
#[local] Abbreviation leItem := (leItem localeCompare).
#[local] Abbreviation byName := (byName localeCompare).

(** The function as the source writes it: [null] at the depth limit, the
    recursive call one level deeper. *)
Lemma getFolderStructure_eq dirPath maxDepth currentDepth :
  getFolderStructure dirPath maxDepth currentDepth
  = if Nat.leb maxDepth currentDepth then None
    else
      match Fs.readdirNames fs dirPath with
      | Throw _ => None
      | Ok items =>
          match itemLoop fs
                  (fun itemPath =>
                     getFolderStructure itemPath maxDepth (currentDepth + 1))
                  dirPath items with
          | Throw _ => None
          | Ok structure => Some (sort structure)
          end
      end.
Proof.
  unfold FolderStructureApp.getFolderStructure.
  destruct (Nat.leb maxDepth currentDepth) eqn:E.
  - apply Nat.leb_le in E.
    replace (maxDepth - currentDepth) with 0 by lia. reflexivity.
  - apply Nat.leb_gt in E.
    replace (maxDepth - currentDepth) with (S (maxDepth - (currentDepth + 1))) by lia.
    reflexivity.
Qed.

Lemma insert_perm x l : Permutation (insert x l) (x :: l).
Proof.
  induction l as [|y l IH]; simpl; [reflexivity|].
  destruct (compareItems localeCompare x y <=? 0)%Z; [reflexivity|].
  rewrite IH. apply perm_swap.
Qed.

Lemma sort_perm l : Permutation (sort l) l.
Proof.
  induction l as [|x l IH]; simpl; [reflexivity|].
  rewrite insert_perm. now constructor.
Qed.

Lemma In_sort x l : In x l -> In x (sort l).
Proof. apply Permutation_in. symmetry. apply sort_perm. Qed.

(** When every entry that is not skipped can be [stat]ed, the loop pushes one
    item for each of them, in the order of the listing. *)
Lemma itemLoop_returns rec dirPath items :
  (forall item, In item items -> skipped item = false ->
                exists stat, Fs.stat fs (Path.join dirPath item) = Ok stat) ->
  exists structure,
    itemLoop fs rec dirPath items = Ok structure
    /\ map itemName structure = filter notSkipped items
    /\ (forall item stat,
          In item items -> skipped item = false ->
          Fs.stat fs (Path.join dirPath item) = Ok stat ->
          In (entryOf rec dirPath item stat) structure).
Proof.
  induction items as [|item rest IH]; intros H.
  - exists []. repeat split. intros ? ? [].
  - destruct IH as [structure [E [Hn Hin]]].
    { intros i Hi. apply H. now right. }
    simpl. unfold notSkipped at 1.
    destruct (skipped item) eqn:Sk; simpl.
    + exists structure. repeat split; [assumption | assumption|].
      intros i st [<- | Hi] Hs Hst; [congruence | eauto].
    + destruct (H item (or_introl eq_refl) Sk) as [stat Hstat].
      rewrite Hstat, E.
      eexists. split; [reflexivity|]. split.
      * simpl. rewrite Hn. destruct (Fs.isDirectory stat); reflexivity.
      * intros i st [<- | Hi] Hs Hst.
        -- left. rewrite Hstat in Hst. injection Hst as <-. reflexivity.
        -- right. eauto.
Qed.

(** A [stat] that throws on an entry that is not skipped makes the whole
    level [null]. *)
Lemma itemLoop_throws rec dirPath items item message :
  In item items -> skipped item = false ->
  Fs.stat fs (Path.join dirPath item) = Throw message ->
  exists message', itemLoop fs rec dirPath items = Throw message'.
Proof.
  induction items as [|i rest IH]; intros Hin Hs Hst; [contradiction|].
  simpl. destruct (skipped i) eqn:Sk.
  - destruct Hin as [-> | Hin]; [congruence | now apply IH].
  - destruct (Fs.stat fs (Path.join dirPath i)) as [st|m] eqn:E; [|eauto].
    destruct Hin as [-> | Hin]; [congruence|].
    destruct (IH Hin Hs Hst) as [m' ->]. eauto.
Qed.

(** A directory that cannot be listed has no children. *)
Lemma unreadable_has_no_children levels dirPath message :
  Fs.readdir fs dirPath = Throw message ->
  orEmpty (getFolderStructureLevels levels dirPath) = [].
Proof.
  intros H. destruct levels as [|levels]; [reflexivity|].
  simpl. unfold Fs.readdirNames. now rewrite H.
Qed.

Lemma forallb_insert (P : Item -> bool) x l :
  forallb P (insert x l) = P x && forallb P l.
Proof.
  induction l as [|y l IH]; simpl; [reflexivity|].
  destruct (compareItems localeCompare x y <=? 0)%Z; simpl; [reflexivity|].
  rewrite IH. destruct (P x), (P y); reflexivity.
Qed.

Lemma forallb_sort (P : Item -> bool) l : forallb P (sort l) = forallb P l.
Proof.
  induction l as [|x l IH]; simpl; [reflexivity|].
  now rewrite forallb_insert, IH.
Qed.

Lemma itemLoop_clean rec dirPath items structure :
  (forall p, forallb clean (orEmpty (rec p)) = true) ->
  itemLoop fs rec dirPath items = Ok structure ->
  forallb clean structure = true.
Proof.
  intros Hrec. revert structure.
  induction items as [|item rest IH]; intros structure; simpl.
  - intros H. injection H as <-. reflexivity.
  - destruct (skipped item) eqn:Sk; [apply IH|].
    destruct (Fs.stat fs (Path.join dirPath item)) as [stat|m]; [|discriminate].
    destruct (itemLoop fs rec dirPath rest) as [rest'|m]; [|discriminate].
    intros H. injection H as <-. simpl.
    rewrite (IH rest' eq_refl), andb_true_r.
    destruct (Fs.isDirectory stat); simpl;
      rewrite (skipped_hiddenOrBuild item Sk); [apply Hrec | reflexivity].
Qed.

Lemma levels_clean levels :
  forall dirPath, forallb clean (orEmpty (getFolderStructureLevels levels dirPath)) = true.
Proof.
  induction levels as [|levels IH]; intros dirPath; [reflexivity|].
  simpl. destruct (Fs.readdirNames fs dirPath) as [items|m]; [|reflexivity].
  destruct (itemLoop fs (getFolderStructureLevels levels) dirPath items)
    as [structure|m] eqn:E; [|reflexivity].
  simpl. rewrite forallb_sort. exact (itemLoop_clean _ _ _ _ IH E).
Qed.

(** Sorting. *)

Hypothesis localeCompare_total :
  forall a b, (localeCompare a b <= 0)%Z \/ (localeCompare b a <= 0)%Z.
Hypothesis localeCompare_trans :
  forall a b c,
    (localeCompare a b <= 0)%Z -> (localeCompare b c <= 0)%Z ->
    (localeCompare a c <= 0)%Z.

Lemma leItem_total a b : leItem a b \/ leItem b a.
Proof.
  unfold leItem, compareItems.
  destruct (isFolder a) eqn:Fa, (isFolder b) eqn:Fb; simpl;
    try apply localeCompare_total; lia.
Qed.

Lemma leItem_trans a b c : leItem a b -> leItem b c -> leItem a c.
Proof.
  unfold leItem, compareItems.
  destruct (isFolder a) eqn:Fa, (isFolder b) eqn:Fb, (isFolder c) eqn:Fc; simpl;
    try apply localeCompare_trans; lia.
Qed.

Lemma HdRel_insert y x l :
  HdRel leItem y l -> leItem y x -> HdRel leItem y (insert x l).
Proof.
  intros Hl Hx. destruct l as [|z l]; simpl; [now constructor|].
  destruct (compareItems localeCompare x z <=? 0)%Z; constructor;
    [assumption | now inversion Hl].
Qed.

Lemma insert_Sorted x l : Sorted leItem l -> Sorted leItem (insert x l).
Proof.
  induction 1 as [|y l Hs IH Hhd]; simpl; [repeat constructor|].
  destruct (compareItems localeCompare x y <=? 0)%Z eqn:E.
  - apply Z.leb_le in E. repeat constructor; assumption.
  - apply Z.leb_gt in E. constructor; [exact IH|].
    apply HdRel_insert; [assumption|].
    destruct (leItem_total y x) as [H | H]; [exact H|].
    unfold leItem in H. lia.
Qed.

Lemma sort_Sorted l : Sorted leItem (sort l).
Proof.
  induction l as [|x l IH]; simpl; [constructor | now apply insert_Sorted].
Qed.

Lemma sort_StronglySorted l : StronglySorted leItem (sort l).
Proof.
  apply Sorted_StronglySorted; [|apply sort_Sorted].
  intros a b c. apply leItem_trans.
Qed.

Lemma filter_none (A : Type) (f : A -> bool) l :
  Forall (fun x => f x = false) l -> filter f l = [].
Proof.
  induction 1 as [|x l Hx _ IH]; simpl; [reflexivity|]. now rewrite Hx.
Qed.

Lemma filter_all (A : Type) (f : A -> bool) l :
  Forall (fun x => f x = true) l -> filter f l = l.
Proof.
  induction 1 as [|x l Hx _ IH]; simpl; [reflexivity|]. now rewrite Hx, IH.
Qed.

(** A list sorted by the comparator has its folders first, and each of the
    two groups is sorted by name. *)
Lemma sorted_folders_first l :
  StronglySorted leItem l ->
  l = (filter isFolder l ++ filter notFolder l)%list
  /\ StronglySorted byName (filter isFolder l)
  /\ StronglySorted byName (filter notFolder l).
Proof.
  induction 1 as [|x l Hs [IH1 [IH2 IH3]] Hx].
  - repeat split; constructor.
  - cbn [filter]. change (notFolder x) with (negb (isFolder x)).
    destruct (isFolder x) eqn:Fx; cbn [negb app].
    + split; [f_equal; exact IH1|]. split; [|assumption].
      constructor; [assumption|].
      apply Forall_forall. intros y Hy. apply filter_In in Hy as [Hy Fy].
      pose proof (proj1 (Forall_forall _ _) Hx y Hy) as Hle.
      unfold leItem, compareItems in Hle. rewrite Fx, Fy in Hle. exact Hle.
    + assert (Hfiles : Forall (fun y => isFolder y = false) l).
      { apply Forall_forall. intros y Hy.
        pose proof (proj1 (Forall_forall _ _) Hx y Hy) as Hle.
        unfold leItem, compareItems in Hle. rewrite Fx in Hle.
        destruct (isFolder y); [simpl in Hle; lia | reflexivity]. }
      assert (Hall : filter notFolder l = l).
      { apply filter_all. apply Forall_forall. intros y Hy.
        unfold notFolder. now rewrite (proj1 (Forall_forall _ _) Hfiles y Hy). }
      rewrite (filter_none _ _ _ Hfiles), Hall. cbn [app].
      split; [reflexivity|]. split; [constructor|].
      constructor.
      * now rewrite Hall in IH3.
      * apply Forall_forall. intros y Hy.
        pose proof (proj1 (Forall_forall _ _) Hx y Hy) as Hle.
        unfold leItem, compareItems in Hle.
        rewrite Fx, (proj1 (Forall_forall _ _) Hfiles y Hy) in Hle. exact Hle.
Qed.

End Facts.

End DepthLimited.

(** ** A [localeCompare] for examples: comparison byte by byte *)

Module ByteOrder.

Import FolderStructureApp.

Lemma ascii_compare_lt_trans x y z :
  Ascii.compare x y = Lt -> Ascii.compare y z = Lt -> Ascii.compare x z = Lt.
Proof.
  unfold Ascii.compare. rewrite !N.compare_lt_iff. lia.
Qed.

Lemma compare_le_trans a :
  forall b c,
    String.compare a b <> Gt -> String.compare b c <> Gt ->
    String.compare a c <> Gt.
Proof.
  induction a as [|x a IH]; intros [|y b] [|z c]; simpl; try congruence.
  destruct (Ascii.compare x y) eqn:Exy; destruct (Ascii.compare y z) eqn:Eyz;
    try congruence.
  - apply Ascii.compare_eq_iff in Exy, Eyz. subst.
    unfold Ascii.compare. rewrite N.compare_refl. apply IH.
  - apply Ascii.compare_eq_iff in Exy. subst. rewrite Eyz. congruence.
  - apply Ascii.compare_eq_iff in Eyz. subst. rewrite Exy. congruence.
  - rewrite (ascii_compare_lt_trans x y z Exy Eyz). congruence.
Qed.

Lemma byteCompare_le a b : (byteCompare a b <= 0)%Z <-> String.compare a b <> Gt.
Proof.
  unfold byteCompare. destruct (String.compare a b); split; intros H;
    try lia; congruence.
Qed.

Lemma byteCompare_total a b :
  (byteCompare a b <= 0)%Z \/ (byteCompare b a <= 0)%Z.
Proof.
  unfold byteCompare. rewrite (String.compare_antisym b a).
  destruct (String.compare a b); simpl; lia.
Qed.

Lemma byteCompare_trans a b c :
  (byteCompare a b <= 0)%Z -> (byteCompare b c <= 0)%Z ->
  (byteCompare a c <= 0)%Z.
Proof. rewrite !byteCompare_le. apply compare_le_trans. Qed.

End ByteOrder.

(** ** Enumerating a directory *)

Module Enumeration.

Import FolderStructureApp DepthLimited Samples.

(** C3.  A child directory removed between the listing of its parent and
    the moment it is looked at.  The directory [/d] lists the directory [c]
    and the file [x.txt]; [c] is gone, so that [fs.stat] and [fs.readdir]
    throw on it.  [getFolderStructure] of folder_structure_app.js answers
    [null] for [/d]: the [fs.stat] of the loop is under the single try/catch
    of the function, so that neither [c] nor its sibling [x.txt] is listed,
    although the function turns the [null] of a child into an empty list.
    [getFolderStructure] of file_explorer_app.js lists [c] with no
    sub-folders. *)
Lemma vanished_child_empties_the_level :
  Fs.readdir raceFS "/d" = Ok [Fs.mkDirent "c" true; Fs.mkDirent "x.txt" false]
  /\ Fs.stat raceFS (Path.join "/d" "c")
     = Throw "ENOENT: no such file or directory '/d/c'"
  /\ Fs.readdir raceFS (Path.join "/d" "c")
     = Throw "ENOENT: no such file or directory '/d/c'"
  /\ getFolderStructure byteCompare raceFS "/d" 3 0 = None
  /\ FileExplorer.getFolderStructure 2 raceFS "/d"
     = Some [FileExplorer.mkFolder "c" []].
Proof. repeat split; reflexivity. Qed.

(** A child that is there but cannot be listed.  Let [dirPath] be a
    directory that can be listed.  The folders-only enumerator returns one folder for each directory of the
    listing, in the order of the listing, and a directory that cannot be
    listed is among them with no sub-folders.  The depth-limited enumerator,
    below its depth limit and provided every entry it does not skip can be
    [stat]ed, returns one item for each such entry, and a directory among
    them that cannot be listed is a folder with no children. *)
Theorem unreadable_child_is_an_empty_folder
  (localeCompare : string -> string -> Z) (fs : Fs.FS) (depth : string -> nat)
  (dirPath : string) (items : list Fs.Dirent) (maxDepth currentDepth : nat) :
  Fs.finiteDepth fs depth ->
  Fs.readdir fs dirPath = Ok items ->
  (exists folders,
     (forall fuel, depth dirPath < fuel ->
                   FileExplorer.getFolderStructure fuel fs dirPath = Some folders)
     /\ map FileExplorer.folderName' folders = map Fs.name (filter Fs.isDir items)
     /\ (forall child message,
           In child items -> Fs.isDir child = true ->
           Fs.readdir fs (Path.join dirPath (Fs.name child)) = Throw message ->
           In (FileExplorer.mkFolder (Fs.name child) []) folders))
  /\ (currentDepth < maxDepth ->
      (forall item, In item items -> skipped (Fs.name item) = false ->
                    exists stat,
                      Fs.stat fs (Path.join dirPath (Fs.name item)) = Ok stat) ->
      exists structure,
        getFolderStructure localeCompare fs dirPath maxDepth currentDepth
        = Some structure
        /\ Permutation (map itemName structure)
             (filter notSkipped (map Fs.name items))
        /\ (forall child stat message,
              In child items -> skipped (Fs.name child) = false ->
              Fs.stat fs (Path.join dirPath (Fs.name child)) = Ok stat ->
              Fs.isDirectory stat = true ->
              Fs.readdir fs (Path.join dirPath (Fs.name child)) = Throw message ->
              In (FolderItem (Fs.name child)
                    (Path.join dirPath (Fs.name child)) []) structure)).
Proof.
  intros Hfin Hread. split.
  - destruct (FoldersOnly.getFolderStructure_stable fs depth dirPath Hfin)
      as [folders Hall].
    exists folders. split; [exact Hall|].
    pose proof (Hall (S (depth dirPath)) (Nat.lt_succ_diag_r _)) as E.
    simpl in E. rewrite Hread in E.
    pose proof (FoldersOnly.folderLoop_spec _ _ _ _ E) as Hspec.
    split; [exact (FoldersOnly.Forall2_names _ _ _ Hspec)|].
    intros child message Hin Hdir Hthrow.
    assert (Hin' : In child (filter Fs.isDir items))
      by (apply filter_In; split; assumption).
    destruct (FoldersOnly.Forall2_In_l _ _ _ _ _ _ Hspec Hin')
      as [[name sub] [Hf [Hname Hsub]]].
    simpl in Hname, Hsub. subst name.
    pose proof (Hfin dirPath items child Hread Hin Hdir) as Hlt.
    destruct (depth dirPath) as [|n]; [lia|].
    rewrite (FoldersOnly.getFolderStructure_unreadable fs n _ message Hthrow) in Hsub.
    injection Hsub as <-. exact Hf.
  - intros Hdepth Hstat.
    unfold getFolderStructure.
    replace (maxDepth - currentDepth) with (S (maxDepth - currentDepth - 1)) by lia.
    cbn [getFolderStructureLevels]. unfold Fs.readdirNames. rewrite Hread.
    destruct (itemLoop_returns fs
                (getFolderStructureLevels localeCompare fs
                   (maxDepth - currentDepth - 1))
                dirPath (map Fs.name items))
      as [structure [E [Hnames Hentries]]].
    { intros name Hin Hs. apply in_map_iff in Hin as [item [<- Hin]]. eauto. }
    rewrite E. eexists. split; [reflexivity|]. split.
    + rewrite <- Hnames. apply Permutation_map, sort_perm.
    + intros child stat message Hin Hs Hst Hdir Hthrow.
      apply In_sort.
      pose proof (Hentries (Fs.name child) stat (in_map Fs.name _ _ Hin) Hs Hst) as H.
      unfold entryOf in H. rewrite Hdir in H.
      now rewrite (unreadable_has_no_children localeCompare fs _ _ message Hthrow) in H.
Qed.

Lemma unreadable_child_is_an_empty_folder_witness :
  (exists folders,
     (forall fuel, TreeFS.depth projectTree "/" "/d" < fuel ->
                   FileExplorer.getFolderStructure fuel projectFS "/d" = Some folders)
     /\ map FileExplorer.folderName' folders
        = [".git"; "A"; "B"; "locked"; "node_modules"]
     /\ In (FileExplorer.mkFolder "locked" []) folders)
  /\ (exists structure,
        getFolderStructure byteCompare projectFS "/d" 3 0 = Some structure
        /\ Permutation (map itemName structure) ["A"; "B"; "Z"; "locked"]
        /\ In (FolderItem "locked" "/d/locked" []) structure).
Proof.
  destruct (unreadable_child_is_an_empty_folder byteCompare projectFS
              (TreeFS.depth projectTree "/") "/d"
              [ Fs.mkDirent ".git" true; Fs.mkDirent "A" true;
                Fs.mkDirent "B" true; Fs.mkDirent "Z" false;
                Fs.mkDirent "locked" true; Fs.mkDirent "node_modules" true ] 3 0
              (TreeFacts.tree_finiteDepth projectTree "/") eq_refl)
    as [[folders [A [B C]]] D].
  split.
  - exists folders. split; [exact A|]. split; [exact B|].
    apply (C (Fs.mkDirent "locked" true) "EACCES: permission denied '/d/locked'");
      [simpl; tauto | reflexivity | reflexivity].
  - destruct D as [structure [E [F G]]].
    + lia.
    + intros item Hin Hs. simpl in Hin.
      repeat (destruct Hin as [<- | Hin];
              [try discriminate Hs; eexists; reflexivity|]).
      contradiction.
    + exists structure. split; [exact E|]. split; [exact F|].
      apply (G (Fs.mkDirent "locked" true) (Fs.mkStats 4096 0 true)
               "EACCES: permission denied '/d/locked'");
        [simpl; tauto | reflexivity | reflexivity | reflexivity | reflexivity].
Defined.

(** C10 (an instance).  The project tree, enumerated from [/d] and from a
    root that does not exist. *)
Lemma folders_only_enumerator_is_total_witness :
  (exists folders,
     (forall fuel, TreeFS.depth projectTree "/" "/d" < fuel ->
                   FileExplorer.getFolderStructure fuel projectFS "/d" = Some folders)
     /\ (forall fuel, TreeFS.depth projectTree "/" "/d" < fuel ->
          FileExplorer.apiHomeStructure fuel projectFS (Some "/d")
          = Some (Json folders)
          /\ statusOf (Json folders) = 200))
  /\ (forall fuel, 0 < fuel ->
       FileExplorer.apiHomeStructure fuel projectFS (Some "/nowhere")
       = Some (Json [])).
Proof.
  split.
  - destruct (FoldersOnly.folders_only_enumerator_is_total projectFS
                (TreeFS.depth projectTree "/") "/d"
                (TreeFacts.tree_finiteDepth projectTree "/"))
      as [folders [A [_ B]]].
    exists folders. split; [exact A|]. apply B. discriminate.
  - destruct (FoldersOnly.folders_only_enumerator_is_total projectFS
                (TreeFS.depth projectTree "/") "/nowhere"
                (TreeFacts.tree_finiteDepth projectTree "/"))
      as [folders [_ [A B]]].
    rewrite (A "ENOENT: no such file or directory '/nowhere'" eq_refl) in B.
    intros fuel Hf. apply B; [discriminate | exact Hf].
Defined.

(** C6 (counterexample).  The folders-only enumerator of
    file_explorer_app.js skips nothing: the tree it returns holds [.git] and
    [node_modules], and what is below them. *)
Lemma folders_only_enumerator_lists_hidden_folders :
  FileExplorer.getFolderStructure 3 projectFS "/d"
  = Some
      [ FileExplorer.mkFolder ".git" [FileExplorer.mkFolder "objects" []];
        FileExplorer.mkFolder "A" [];
        FileExplorer.mkFolder "B" [FileExplorer.mkFolder "inner" []];
        FileExplorer.mkFolder "locked" [];
        FileExplorer.mkFolder "node_modules" [FileExplorer.mkFolder "express" []] ].
Proof. reflexivity. Qed.

(** C6 (amended).  In every tree the depth-limited enumerator of
    folder_structure_app.js returns, no node at any depth has a name that
    starts with a dot or is [node_modules], [dist] or [build]; and an entry
    with such a name is passed over by the loop: it is neither [stat]ed nor
    enumerated. *)
Theorem depth_limited_tree_has_no_hidden_names
  (localeCompare : string -> string -> Z) (fs : Fs.FS)
  (dirPath : string) (maxDepth currentDepth : nat) :
  forallb clean
    (orEmpty (getFolderStructure localeCompare fs dirPath maxDepth currentDepth))
  = true
  /\ (forall rec item rest,
        hiddenOrBuild item = true ->
        itemLoop fs rec dirPath (item :: rest) = itemLoop fs rec dirPath rest).
Proof.
  split.
  - apply levels_clean.
  - intros rec item rest H. simpl.
    destruct (skipped item) eqn:Sk; [reflexivity|].
    rewrite (skipped_hiddenOrBuild item Sk) in H. discriminate.
Qed.

Example depth_limited_project_listing :
  getFolderStructure byteCompare projectFS "/d" 3 0
  = Some
      [ FolderItem "A" "/d/A" [];
        FolderItem "B" "/d/B" [FolderItem "inner" "/d/B/inner" []];
        FolderItem "locked" "/d/locked" [];
        FileItem "Z" "/d/Z" 1 ].
Proof. reflexivity. Qed.

End Enumeration.

(** * Further properties *)

(** ** What the security check accepts *)

Module GuardMore.

Import Path PathFacts ResolveFacts Guard GuardTerms.

Lemma prefix_ascii c d s t :
  String.prefix (String c s) (String d t) = Ascii.eqb c d && String.prefix s t.
Proof.
  simpl. destruct (ascii_dec c d) as [->|Hn].
  - now rewrite Ascii.eqb_refl.
  - apply Ascii.eqb_neq in Hn. now rewrite Hn.
Qed.

Lemma prefix_nil_r s : s <> "" -> String.prefix s "" = false.
Proof. destruct s; [congruence | reflexivity]. Qed.

(** A segment is a prefix of a path exactly when it is a prefix of the
    first segment of the path. *)
Lemma prefix_segment_sep r x rest :
  hasSlash r = false ->
  String.prefix r (x ++ String slash rest) = String.prefix r x.
Proof.
  revert x. induction r as [|c r IH]; intros x H; [now destruct x|].
  simpl in H. apply orb_false_iff in H as [Hc Hr].
  destruct x as [|d x].
  - change ("" ++ String slash rest) with (String slash rest).
    rewrite prefix_ascii, Hc. reflexivity.
  - change (String d x ++ String slash rest) with (String d (x ++ String slash rest)).
    rewrite !prefix_ascii, IH by assumption. reflexivity.
Qed.

Lemma prefix_sep_sep r x A B :
  hasSlash r = false -> hasSlash x = false ->
  String.prefix (r ++ String slash A) (x ++ String slash B)
  = (r =? x) && String.prefix A B.
Proof.
  revert x. induction r as [|c r IH]; intros x Hr Hx.
  - destruct x as [|d x].
    + change (String.prefix (String slash A) (String slash B)
              = true && String.prefix A B).
      now rewrite StrFacts.prefix_cons.
    + simpl in Hx. apply orb_false_iff in Hx as [Hd _].
      change (String.prefix (String slash A) (String d (x ++ String slash B))
              = false).
      rewrite prefix_ascii. rewrite Ascii.eqb_sym, Hd. reflexivity.
  - simpl in Hr. apply orb_false_iff in Hr as [Hc Hr].
    destruct x as [|d x].
    + change (String.prefix (String c (r ++ String slash A)) (String slash B)
              = false).
      rewrite prefix_ascii, Hc. reflexivity.
    + simpl in Hx. apply orb_false_iff in Hx as [Hd Hx].
      change (String.prefix (String c (r ++ String slash A))
                (String d (x ++ String slash B))
              = (Ascii.eqb c d && (r =? x)) && String.prefix A B).
      rewrite prefix_ascii, IH by assumption.
      now rewrite andb_assoc.
Qed.

Lemma prefix_sep_segment r x A :
  hasSlash x = false -> String.prefix (r ++ String slash A) x = false.
Proof.
  revert x. induction r as [|c r IH]; intros x Hx.
  - destruct x as [|d x]; [reflexivity|].
    simpl in Hx. apply orb_false_iff in Hx as [Hd _].
    change (String.prefix (String slash A) (String d x) = false).
    rewrite prefix_ascii, Ascii.eqb_sym, Hd. reflexivity.
  - destruct x as [|d x]; [reflexivity|].
    simpl in Hx. apply orb_false_iff in Hx as [_ Hx].
    change (String.prefix (String c (r ++ String slash A)) (String d x) = false).
    rewrite prefix_ascii, IH by assumption. apply andb_false_r.
Qed.

(** Comparing two slash-separated paths as strings. *)
Lemma prefix_join_slash R :
  forall P,
    Forall (fun s => plain s = true) R ->
    Forall (fun s => hasSlash s = false) R ->
    Forall (fun s => hasSlash s = false) P ->
    String.prefix (join_slash R) (join_slash P) = looseContained R P.
Proof.
  induction R as [|r R IH]; intros P HpR HsR HsP.
  - simpl. now destruct (join_slash P).
  - inversion HpR as [|? ? Hpr HpR']; subst.
    inversion HsR as [|? ? Hsr HsR']; subst.
    assert (Hne : r <> "") by (intros ->; discriminate).
    destruct R as [|r2 R'].
    + destruct P as [|x P]; [now apply prefix_nil_r|].
      destruct P as [|y P']; [reflexivity|].
      change (String.prefix r (x ++ String slash (join_slash (y :: P')))
              = String.prefix r x).
      now apply prefix_segment_sep.
    + change (join_slash (r :: r2 :: R'))
        with (r ++ String slash (join_slash (r2 :: R'))).
      destruct P as [|x P].
      * destruct r; [congruence | reflexivity].
      * inversion HsP as [|? ? Hsx HsP']; subst.
        destruct P as [|y P'].
        -- change (String.prefix (r ++ String slash (join_slash (r2 :: R'))) x
                   = (r =? x) && looseContained (r2 :: R') []).
           rewrite prefix_sep_segment by assumption.
           simpl. now rewrite andb_false_r.
        -- change (String.prefix (r ++ String slash (join_slash (r2 :: R')))
                     (x ++ String slash (join_slash (y :: P')))
                   = (r =? x) && looseContained (r2 :: R') (y :: P')).
           rewrite prefix_sep_sep by assumption.
           now rewrite IH.
Qed.

(** The security check is the string comparison of the two lists of
    segments. *)
Lemma securityCheck_loose cwd root fullPath :
  isAbsolute cwd = true ->
  securityCheck cwd root fullPath
  = looseContained (TreeFS.segments cwd root) (TreeFS.segments cwd fullPath).
Proof.
  intros Hc. unfold securityCheck, Str.startsWith.
  rewrite !resolve_segments by assumption.
  rewrite StrFacts.prefix_cons.
  apply prefix_join_slash;
    [apply segments_plain | apply segments_no_slash | apply segments_no_slash].
Qed.

Lemma looseContained_cases R :
  forall P,
    looseContained R P = true ->
    isPrefixOf R P = true
    \/ exists init r x T,
         R = (init ++ [r])%list /\ P = (init ++ x :: T)%list
         /\ String.prefix r x = true /\ (r =? x) = false.
Proof.
  induction R as [|r R IH]; intros P H; [now left|].
  destruct P as [|x P]; [discriminate|].
  destruct R as [|r2 R'].
  - cbn [looseContained] in H.
    destruct (r =? x) eqn:E.
    + left. simpl. now rewrite E.
    + right. exists [], r, x, P. repeat split; assumption.
  - cbn [looseContained] in H. apply andb_true_iff in H as [E H].
    destruct (IH P H) as [Hp | [init [r' [x' [T [HR [HP [Hpre Hne]]]]]]]].
    + left.
      change (isPrefixOf (r :: r2 :: R') (x :: P))
        with ((r =? x) && isPrefixOf (r2 :: R') P).
      now rewrite E, Hp.
    + right. apply String.eqb_eq in E. subst x.
      exists (r :: init), r', x', T.
      rewrite HR, HP. repeat split; assumption.
Qed.

(** X1.  A path that passes the security check lies in the root, or in a
    sibling of the root whose name starts with the name of the root (or
    below such a sibling): the segments of the root but the last are the
    first segments of the path, and the last one is a proper prefix of the
    segment of the path at its place. *)
Theorem check_accepts_only_root_and_prefix_siblings (cwd root fullPath : string) :
  isAbsolute cwd = true ->
  securityCheck cwd root fullPath = true ->
  containedBySegments (resolve cwd root) (resolve cwd fullPath) = true
  \/ exists init r x T,
       TreeFS.segments cwd root = (init ++ [r])%list
       /\ TreeFS.segments cwd fullPath = (init ++ x :: T)%list
       /\ String.prefix r x = true /\ (r =? x) = false.
Proof.
  intros Hc H. rewrite securityCheck_loose in H by assumption.
  rewrite containedBySegments_resolve by assumption.
  now apply looseContained_cases.
Qed.

Lemma check_accepts_only_root_and_prefix_siblings_witness :
  containedBySegments (resolve "/" "/srv/root")
    (resolve "/" "/srv/root-evil/secret.txt") = true
  \/ exists init r x T,
       TreeFS.segments "/" "/srv/root" = (init ++ [r])%list
       /\ TreeFS.segments "/" "/srv/root-evil/secret.txt" = (init ++ x :: T)%list
       /\ String.prefix r x = true /\ (r =? x) = false.
Proof.
  exact (check_accepts_only_root_and_prefix_siblings "/" "/srv/root"
           "/srv/root-evil/secret.txt" eq_refl eq_refl).
Defined.

(** A path the check accepts is not answered with 403 by any handler. *)
Lemma accepted_is_not_refused fuel rt fs root p :
  root <> "" ->
  securityCheck (Fs.cwd fs) root (join root p) = true ->
  Nat.eqb (statusOf (FileExplorer.apiFile fs (Some root) (Some p))) 403 = false
  /\ refusedWith 403 (FileExplorer.apiDownload fs (Some root) (Some p)) = false
  /\ Nat.eqb (statusOf (SimpleExplorer.apiFile rt fs (Some root) (Some p))) 403 = false
  /\ refusedWith 403 (SimpleExplorer.apiDownload fs (Some root) (Some p)) = false
  /\ match FileExplorer.apiFolders fuel fs (Some root) (Some p) with
     | Some reply => Nat.eqb (statusOf reply) 403 = false
     | None => True
     end.
Proof.
  intros Hr Hg.
  unfold FileExplorer.apiFile, FileExplorer.apiDownload, SimpleExplorer.apiFile,
    SimpleExplorer.apiDownload, FileExplorer.apiFolders.
  rewrite (eqb_false_of_neq _ _ Hr), Hg. simpl negb. cbv iota.
  repeat split.
  - destruct (Fs.access fs (join root p)); [|reflexivity]. simpl negb. cbv iota.
    destruct (FileExplorer.readFileContent fs (join root p)); reflexivity.
  - destruct (Fs.access fs (join root p)); [|reflexivity]. simpl negb.
    cbv iota zeta.
    destruct (negb (validHeaderValue _)); [reflexivity|].
    destruct (isAbsolute (join root p)); reflexivity.
  - destruct (Fs.stat fs (join root p)) as [stats|m]; [|reflexivity].
    destruct (Str.includes [".txt"; ".csv"] _).
    + destruct (Fs.readFileUtf8 fs (join root p)); reflexivity.
    + destruct (Str.includes [".jpg"; ".png"] _); [|reflexivity].
      destruct (Fs.readFile fs (join root p)); reflexivity.
  - destruct (Fs.readdir fs (join root p)) as [items|m]; [|reflexivity].
    destruct (FileExplorer.listingLoop _ _ _ _); [reflexivity | exact I].
Qed.

(** X2.  With a root configured, the file, download and folder handlers of
    both servers answer 403 exactly when the security check fails: then the
    reply is the handler's 403 whatever the file system holds; and when the
    check passes no handler answers 403.  (Past the check a download handler
    answers with another status or calls [res.sendFile] / [res.download];
    what the library answers then is not the handler's and is not stated.) *)
Theorem refused_exactly_when_check_fails
  (fuel : nat) (rt : SimpleExplorer.Runtime) (fs : Fs.FS) (root p : string) :
  root <> "" ->
  (securityCheck (Fs.cwd fs) root (join root p) = false ->
   FileExplorer.apiFile fs (Some root) (Some p) = Failure 403 "Access denied"
   /\ FileExplorer.apiDownload fs (Some root) (Some p)
      = Refused 403 "Access denied"
   /\ FileExplorer.apiFolders fuel fs (Some root) (Some p)
      = Some (Failure 403 "Access denied")
   /\ SimpleExplorer.apiFile rt fs (Some root) (Some p)
      = Failure 403 "Access denied"
   /\ SimpleExplorer.apiDownload fs (Some root) (Some p)
      = Refused 403 "Access denied")
  /\ (securityCheck (Fs.cwd fs) root (join root p) = true ->
      Nat.eqb (statusOf (FileExplorer.apiFile fs (Some root) (Some p))) 403 = false
      /\ refusedWith 403 (FileExplorer.apiDownload fs (Some root) (Some p))
         = false
      /\ Nat.eqb (statusOf (SimpleExplorer.apiFile rt fs (Some root) (Some p))) 403
         = false
      /\ refusedWith 403 (SimpleExplorer.apiDownload fs (Some root) (Some p))
         = false
      /\ match FileExplorer.apiFolders fuel fs (Some root) (Some p) with
         | Some reply => Nat.eqb (statusOf reply) 403 = false
         | None => True
         end).
Proof.
  intros Hr. split.
  - intros Hg.
    unfold FileExplorer.apiFile, FileExplorer.apiDownload, SimpleExplorer.apiFile,
      SimpleExplorer.apiDownload, FileExplorer.apiFolders.
    rewrite (eqb_false_of_neq _ _ Hr), Hg. repeat split; reflexivity.
  - now apply accepted_is_not_refused.
Qed.

Lemma refused_exactly_when_check_fails_witness :
  FileExplorer.apiFile Samples.siblingFS (Some "/root") (Some "../etc/passwd")
  = Failure 403 "Access denied"
  /\ FileExplorer.apiDownload Samples.siblingFS (Some "/root")
       (Some "../etc/passwd")
     = Refused 403 "Access denied"
  /\ Nat.eqb
       (statusOf
          (FileExplorer.apiFile Samples.siblingFS (Some "/root") (Some "readme.txt")))
       403 = false
  /\ refusedWith 403
       (FileExplorer.apiDownload Samples.siblingFS (Some "/root")
          (Some "readme.txt")) = false.
Proof.
  pose proof (refused_exactly_when_check_fails 1 Samples.plainRuntime
                Samples.siblingFS "/root" "../etc/passwd"
                ltac:(discriminate)) as [A _].
  pose proof (refused_exactly_when_check_fails 1 Samples.plainRuntime
                Samples.siblingFS "/root" "readme.txt"
                ltac:(discriminate)) as [_ B].
  destruct (A eq_refl) as [A1 [A2 _]].
  destruct (B eq_refl) as [B1 [B2 _]].
  exact (conj A1 (conj A2 (conj B1 B2))).
Defined.

(** X3.  A request path that names the root or something in it, by
    segments, passes the security check, so no handler of
    file_explorer_app.js answers it with 403; the empty path names the root
    itself.  (A download handler then answers with another status or calls
    [res.sendFile]; the library's response is not stated.) *)
Theorem paths_in_the_root_are_served
  (fuel : nat) (rt : SimpleExplorer.Runtime) (fs : Fs.FS) (root p : string) :
  isAbsolute (Fs.cwd fs) = true ->
  root <> "" ->
  resolve (Fs.cwd fs) (join root "") = resolve (Fs.cwd fs) root
  /\ (containedBySegments (resolve (Fs.cwd fs) root)
        (resolve (Fs.cwd fs) (join root p)) = true ->
      securityCheck (Fs.cwd fs) root (join root p) = true
      /\ Nat.eqb (statusOf (FileExplorer.apiFile fs (Some root) (Some p))) 403
         = false
      /\ refusedWith 403 (FileExplorer.apiDownload fs (Some root) (Some p))
         = false
      /\ match FileExplorer.apiFolders fuel fs (Some root) (Some p) with
         | Some reply => Nat.eqb (statusOf reply) 403 = false
         | None => True
         end).
Proof.
  intros Hc Hr. split.
  - rewrite !resolve_segments by assumption.
    rewrite join_noDotDot_segments by (assumption || reflexivity).
    simpl. now rewrite app_nil_r.
  - intros Hin.
    pose proof (securityCheck_complete _ _ _ Hc Hin) as Hg.
    destruct (accepted_is_not_refused fuel rt fs root p Hr Hg) as [A [B [_ [_ C]]]].
    repeat split; assumption.
Qed.

Lemma paths_in_the_root_are_served_witness :
  resolve "/" (join "/root" "") = resolve "/" "/root"
  /\ securityCheck "/" "/root" (join "/root" "a/../readme.txt") = true
  /\ Nat.eqb
       (statusOf
          (FileExplorer.apiFile Samples.siblingFS (Some "/root")
             (Some "a/../readme.txt"))) 403 = false
  /\ refusedWith 403
       (FileExplorer.apiDownload Samples.siblingFS (Some "/root")
          (Some "a/../readme.txt")) = false.
Proof.
  destruct (paths_in_the_root_are_served 1 Samples.plainRuntime Samples.siblingFS
              "/root" "a/../readme.txt" eq_refl ltac:(discriminate)) as [A B].
  destruct (B eq_refl) as [C [D [E _]]].
  exact (conj A (conj C (conj D E))).
Defined.

End GuardMore.

(** ** The configured root *)

Module RootMore.

Import Path PathFacts ResolveFacts Guard.

Lemma segments_of_resolved cwd S :
  Forall (fun s => plain s = true) S ->
  Forall (fun s => hasSlash s = false) S ->
  TreeFS.segments cwd (String slash (join_slash S)) = S.
Proof.
  intros HP HS. rewrite segments_eq. unfold TreeFS.base.
  change (isAbsolute (String slash (join_slash S))) with true. cbv iota.
  change (split_slash (String slash (join_slash S)))
    with ("" :: split_slash (join_slash S)).
  destruct S as [|x r]; [reflexivity|].
  rewrite split_join by (assumption || discriminate).
  rewrite <- normSegs_filter. change (filter kept ([] ++ "" :: x :: r)%list)
    with (filter kept (x :: r)).
  rewrite normSegs_filter. now apply normSegs_plain_id.
Qed.

(** [path.resolve] gives a canonical path: resolving it again changes
    nothing. *)
Lemma resolve_idempotent cwd p :
  isAbsolute cwd = true -> resolve cwd (resolve cwd p) = resolve cwd p.
Proof.
  intros Hc. rewrite (resolve_segments cwd p Hc).
  rewrite resolve_segments by assumption.
  now rewrite segments_of_resolved
    by (apply segments_plain || apply segments_no_slash).
Qed.

Lemma resolve_absolute cwd p :
  isAbsolute cwd = true -> isAbsolute (resolve cwd p) = true.
Proof. intros Hc. now rewrite resolve_segments. Qed.

Lemma resolve_nonempty cwd p : isAbsolute cwd = true -> resolve cwd p <> "".
Proof. intros Hc. rewrite resolve_segments by assumption. discriminate. Qed.

Lemma endsWithChar_no_slash x : hasSlash x = false -> Str.endsWithChar slash x = false.
Proof.
  induction x as [|c x IH]; [reflexivity|].
  simpl. intros H. apply orb_false_iff in H as [Hc Hx].
  destruct x; [exact Hc | now apply IH].
Qed.

Lemma endsWithChar_cons c d s :
  s <> "" -> Str.endsWithChar c (String d s) = Str.endsWithChar c s.
Proof. destruct s; [congruence | reflexivity]. Qed.

Lemma endsWithChar_append c a b :
  b <> "" -> Str.endsWithChar c (a ++ b) = Str.endsWithChar c b.
Proof.
  intros Hb. induction a as [|d a IH]; [reflexivity|].
  change (String d a ++ b) with (String d (a ++ b)).
  simpl. destruct (a ++ b) eqn:E; [|exact IH].
  destruct a; [simpl in E; congruence | discriminate].
Qed.

Lemma endsWithChar_join_slash l :
  Forall (fun s => plain s = true) l ->
  Forall (fun s => hasSlash s = false) l ->
  Str.endsWithChar slash (join_slash l) = false.
Proof.
  induction l as [|x r IH]; intros HP HS; [reflexivity|].
  inversion HP; inversion HS; subst.
  destruct r as [|y r'].
  - now apply endsWithChar_no_slash.
  - change (join_slash (x :: y :: r'))
      with (x ++ String slash (join_slash (y :: r'))).
    rewrite endsWithChar_append by discriminate.
    assert (Hne : join_slash (y :: r') <> "").
    { apply join_slash_nonempty. apply plain_kept.
      match goal with H : Forall _ (y :: r') |- _ => exact (Forall_inv H) end. }
    rewrite endsWithChar_cons by assumption. now apply IH.
Qed.

Lemma normSegs_of_resolved S :
  Forall (fun s => plain s = true) S ->
  Forall (fun s => hasSlash s = false) S ->
  normSegs false (split_slash (String slash (join_slash S))) = S.
Proof. intros HP HS. exact (segments_of_resolved "" S HP HS). Qed.

Lemma normalize_resolved S :
  Forall (fun s => plain s = true) S ->
  Forall (fun s => hasSlash s = false) S ->
  normalize (String slash (join_slash S)) = String slash (join_slash S).
Proof.
  intros HP HS. unfold normalize, normalizeString.
  assert (Hne : String slash (join_slash S) <> "") by discriminate.
  assert (Habs : isAbsolute (String slash (join_slash S)) = true) by reflexivity.
  rewrite (eqb_false_of_neq _ _ Hne), Habs. cbn [negb].
  rewrite (normSegs_of_resolved S HP HS).
  destruct S as [|x r]; [reflexivity|].
  rewrite (eqb_false_of_neq _ _
             (join_slash_nonempty x r (plain_kept x (Forall_inv HP)))).
  assert (Ht : Str.endsWithChar slash (String slash (join_slash (x :: r))) = false).
  { rewrite endsWithChar_cons
      by (apply join_slash_nonempty, plain_kept; exact (Forall_inv HP)).
    now apply endsWithChar_join_slash. }
  rewrite Ht. reflexivity.
Qed.

(** A canonical path is a fixed point of [path.normalize], so joining the
    empty path to it gives it back. *)
Lemma join_resolved_empty cwd p :
  isAbsolute cwd = true -> join (resolve cwd p) "" = resolve cwd p.
Proof.
  intros Hc. unfold join.
  rewrite (eqb_false_of_neq _ _ (resolve_nonempty cwd p Hc)).
  change ("" =? "") with true. cbv iota.
  rewrite (eqb_false_of_neq _ _ (resolve_nonempty cwd p Hc)).
  rewrite resolve_segments by assumption.
  apply normalize_resolved; [apply segments_plain | apply segments_no_slash].
Qed.

(** X4.  After a set-root that succeeded, [ROOT_FOLDER] is an absolute,
    canonical path: resolving it again gives it back (so the
    [normalizedRoot] of the security check is [ROOT_FOLDER] itself) and the
    empty request path joins to it unchanged; and [GET /api/root-info] of
    both servers reports it as configured, with the [rootPath] and
    [folderName] that set-root replied. *)
Theorem set_root_then_root_info
  (fs : Fs.FS) (ROOT_FOLDER : RootFolder) (p : string) :
  isAbsolute (Fs.cwd fs) = true ->
  existingDirectory fs (JString p) = true ->
  exists root,
    FileExplorer.setRoot fs ROOT_FOLDER (JString p)
    = (Some root, Json (mkRootSet root (basename root)))
    /\ isAbsolute root = true
    /\ resolve (Fs.cwd fs) root = root
    /\ join root "" = root
    /\ FileExplorer.rootInfo (fst (FileExplorer.setRoot fs ROOT_FOLDER (JString p)))
       = Json (FileExplorer.mkRootInfo (Some root) (Some (basename root)) true)
    /\ SimpleStructure.rootInfo
         (fst (SimpleExplorer.setRoot fs ROOT_FOLDER (JString p)))
       = Json (SimpleStructure.mkRootInfo true (Some root) (Some (basename root))).
Proof.
  intros Hc Hd.
  destruct (RootConfig.setRoot_accepts fs ROOT_FOLDER p Hd) as [A B].
  cbv zeta in A, B. exists (resolve (Fs.cwd fs) p).
  split; [exact A|]. split; [now apply resolve_absolute|].
  split; [now apply resolve_idempotent|].
  split; [now apply join_resolved_empty|].
  rewrite A, B. cbn [fst]. unfold FileExplorer.rootInfo, SimpleStructure.rootInfo.
  rewrite (eqb_false_of_neq _ _ (resolve_nonempty (Fs.cwd fs) p Hc)).
  split; reflexivity.
Qed.

Lemma set_root_then_root_info_witness :
  exists root,
    FileExplorer.setRoot Samples.docsFS None (JString "docs/./")
    = (Some root, Json (mkRootSet root (basename root)))
    /\ isAbsolute root = true
    /\ resolve "/data" root = root
    /\ join root "" = root
    /\ FileExplorer.rootInfo
         (fst (FileExplorer.setRoot Samples.docsFS None (JString "docs/./")))
       = Json (FileExplorer.mkRootInfo (Some root) (Some (basename root)) true)
    /\ SimpleStructure.rootInfo
         (fst (SimpleExplorer.setRoot Samples.docsFS None (JString "docs/./")))
       = Json (SimpleStructure.mkRootInfo true (Some root) (Some (basename root))).
Proof.
  exact (set_root_then_root_info Samples.docsFS None "docs/./" eq_refl eq_refl).
Defined.

(** X5.  Until a root is configured every handler that needs one answers
    400, whatever the request path; and a set-root that fails leaves the
    servers in that state. *)
Theorem unconfigured_root_is_a_client_error
  (fuel : nat) (rt : SimpleExplorer.Runtime) (fs : Fs.FS)
  (ROOT_FOLDER : RootFolder) (param : option string) (folderPath : JsValue) :
  notConfigured ROOT_FOLDER = true ->
  existingDirectory fs folderPath = false ->
  let after := fst (FileExplorer.setRoot fs ROOT_FOLDER folderPath) in
  notConfigured after = true
  /\ statusOf (FileExplorer.apiFile fs after param) = 400
  /\ FileExplorer.apiDownload fs after param
     = Refused 400 "Root folder not configured"
  /\ option_map statusOf (FileExplorer.apiFolders fuel fs after param) = Some 400
  /\ option_map statusOf (FileExplorer.apiHomeStructure fuel fs after) = Some 400
  /\ statusOf (SimpleExplorer.apiFile rt fs after param) = 400
  /\ SimpleExplorer.apiDownload fs after param
     = Refused 400 "Root folder not configured"
  /\ option_map statusOf (SimpleStructure.apiStructure fuel fs after) = Some 400
  /\ FileExplorer.rootInfo after = Json (FileExplorer.mkRootInfo None None false)
  /\ SimpleStructure.rootInfo after
     = Json (SimpleStructure.mkRootInfo false None None).
Proof.
  intros Hn Hd.
  destruct (RootConfig.setRoot_rejects fs ROOT_FOLDER folderPath Hd) as [E _].
  cbv zeta. rewrite E.
  unfold notConfigured in Hn.
  unfold FileExplorer.apiFile, FileExplorer.apiDownload, FileExplorer.apiFolders,
    FileExplorer.apiHomeStructure, SimpleExplorer.apiFile,
    SimpleExplorer.apiDownload, SimpleStructure.apiStructure,
    FileExplorer.rootInfo, SimpleStructure.rootInfo, notConfigured.
  destruct ROOT_FOLDER as [r|]; [rewrite Hn|]; repeat split; reflexivity.
Qed.

Lemma unconfigured_root_is_a_client_error_witness :
  statusOf (FileExplorer.apiFile Samples.docsFS
              (fst (FileExplorer.setRoot Samples.docsFS None (JString "/nowhere")))
              (Some "a.txt")) = 400
  /\ FileExplorer.rootInfo
       (fst (FileExplorer.setRoot Samples.docsFS None (JString "/nowhere")))
     = Json (FileExplorer.mkRootInfo None None false).
Proof.
  destruct (unconfigured_root_is_a_client_error 1 Samples.plainRuntime
              Samples.docsFS None (Some "a.txt") (JString "/nowhere")
              eq_refl eq_refl) as [_ [A [_ [_ [_ [_ [_ [_ [B _]]]]]]]]].
  exact (conj A B).
Defined.

End RootMore.

(** ** The listing of one directory *)

Module ListingFacts.

Import Path PathFacts ResolveFacts Guard ListingTerms.
Import FileExplorer.

Lemma listingLoop_returns rec fullPath folderPath items :
  (forall item, In item items -> Fs.isDir item = true ->
                exists sub, rec (join fullPath (Fs.name item)) = Some sub) ->
  exists s, listingLoop rec fullPath folderPath items = Some s.
Proof.
  induction items as [|item rest IH]; intros H; simpl; [eauto|].
  destruct IH as [s E]; [intros i Hi; apply H; now right|].
  rewrite E. destruct (Fs.isDir item) eqn:D; [|eauto].
  destruct (H item (or_introl eq_refl) D) as [sub ->]. eauto.
Qed.

Lemma listingLoop_mono rec rec' fullPath folderPath items s :
  (forall p r, rec p = Some r -> rec' p = Some r) ->
  listingLoop rec fullPath folderPath items = Some s ->
  listingLoop rec' fullPath folderPath items = Some s.
Proof.
  intros Hrec. revert s.
  induction items as [|item rest IH]; intros s; simpl; [auto|].
  destruct (Fs.isDir item).
  - destruct (rec (join fullPath (Fs.name item))) as [sub|] eqn:E; [|discriminate].
    rewrite (Hrec _ _ E).
    destruct (listingLoop rec fullPath folderPath rest) as [s'|]; [|discriminate].
    now rewrite (IH s' eq_refl).
  - destruct (listingLoop rec fullPath folderPath rest) as [s'|]; [|discriminate].
    now rewrite (IH s' eq_refl).
Qed.

(** What the loop returns: the directories of the listing as folders, the
    other entries as files, each group in the order of the listing. *)
Lemma listingLoop_spec rec fullPath folderPath items s :
  listingLoop rec fullPath folderPath items = Some s ->
  Forall2
    (fun item e =>
       feName e = Fs.name item
       /\ fePath e = relPath folderPath (Fs.name item)
       /\ rec (join fullPath (Fs.name item)) = Some (feSubFolders e))
    (filter Fs.isDir items) (folders s)
  /\ files s = map (fileEntryOf folderPath) (filter isFile items).
Proof.
  revert s. induction items as [|item rest IH]; intros s; simpl.
  - intros H. injection H as <-. split; [constructor | reflexivity].
  - unfold isFile at 1. destruct (Fs.isDir item) eqn:D; simpl.
    + destruct (rec (join fullPath (Fs.name item))) as [sub|] eqn:E; [|discriminate].
      destruct (listingLoop rec fullPath folderPath rest) as [s'|]; [|discriminate].
      intros H. injection H as <-. destruct (IH s' eq_refl) as [A B].
      split; [|exact B]. constructor; [repeat split; assumption | exact A].
    + destruct (listingLoop rec fullPath folderPath rest) as [s'|]; [|discriminate].
      intros H. injection H as <-. destruct (IH s' eq_refl) as [A B].
      split; [exact A|]. simpl. now rewrite B.
Qed.

(** X6.  For a request path that passes the security check,
    [GET /api/folders] answers 500 with the message when the directory cannot
    be listed, and otherwise 200 with every entry of the listing exactly
    once: the directories as folders and the other entries as files, each
    group in the order of the listing, every entry with the path made of
    the request path and its name, and every folder with the sub-folders the
    folders-only enumerator returns for it. *)
Theorem listing_holds_every_entry_once
  (fs : Fs.FS) (depth : string -> nat) (root folderPath : string) :
  Fs.finiteDepth fs depth ->
  root <> "" ->
  securityCheck (Fs.cwd fs) root (join root folderPath) = true ->
  match Fs.readdir fs (join root folderPath) with
  | Throw message =>
      forall fuel,
        apiFolders fuel fs (Some root) (Some folderPath)
        = Some (Failure 500 ("Unable to read directory: " ++ message))
  | Ok items =>
      exists s,
        (forall fuel, depth (join root folderPath) <= fuel ->
                      apiFolders fuel fs (Some root) (Some folderPath)
                      = Some (Json s))
        /\ files s = map (fileEntryOf folderPath) (filter isFile items)
        /\ Forall2
             (fun item e =>
                feName e = Fs.name item
                /\ fePath e = relPath folderPath (Fs.name item)
                /\ forall fuel,
                     depth (join (join root folderPath) (Fs.name item)) < fuel ->
                     getFolderStructure fuel fs
                       (join (join root folderPath) (Fs.name item))
                     = Some (feSubFolders e))
             (filter Fs.isDir items) (folders s)
  end.
Proof.
  intros Hfin Hr Hg.
  destruct (Fs.readdir fs (join root folderPath)) as [items|message] eqn:Hread.
  - set (fullPath := join root folderPath) in *.
    destruct (listingLoop_returns (getFolderStructure (depth fullPath) fs)
                fullPath folderPath items) as [s E].
    { intros item Hin Hdir.
      apply (FoldersOnly.getFolderStructure_returns fs depth Hfin).
      exact (Hfin fullPath items item Hread Hin Hdir). }
    exists s.
    destruct (listingLoop_spec _ _ _ _ _ E) as [A B].
    split; [|split; [exact B|]].
    + intros fuel Hf. unfold apiFolders.
      rewrite (eqb_false_of_neq _ _ Hr). fold fullPath. rewrite Hg, Hread.
      simpl negb. cbv iota.
      rewrite (listingLoop_mono (getFolderStructure (depth fullPath) fs)
                 (getFolderStructure fuel fs) fullPath folderPath items s);
        [reflexivity | | exact E].
      intros p r. now apply FoldersOnly.getFolderStructure_mono_le.
    + assert (Hin : forall item, In item (filter Fs.isDir items) ->
                      depth (join fullPath (Fs.name item)) < depth fullPath).
      { intros item Hi. apply filter_In in Hi as [Hi Hd].
        exact (Hfin fullPath items item Hread Hi Hd). }
      clear E B Hread. revert Hin.
      induction A as [|item e l l' [N [P S]] _ IH]; intros Hin; constructor.
      * repeat split; try assumption.
        intros fuel Hf.
        destruct (FoldersOnly.getFolderStructure_stable fs depth
                    (join fullPath (Fs.name item)) Hfin) as [sub Hsub].
        rewrite (Hsub fuel Hf).
        rewrite (Hsub (depth fullPath) (Hin item (or_introl eq_refl))) in S.
        exact S.
      * apply IH. intros i Hi. apply Hin. now right.
  - intros fuel. unfold apiFolders.
    rewrite (eqb_false_of_neq _ _ Hr), Hg, Hread. reflexivity.
Qed.

Lemma listing_holds_every_entry_once_witness :
  exists s,
    (forall fuel, TreeFS.depth Samples.projectTree "/" (join "/d" "") <= fuel ->
                  apiFolders fuel Samples.projectFS (Some "/d") (Some "")
                  = Some (Json s))
    /\ files s = [mkFileEntry "Z" "Z"]
    /\ List.length (folders s) = 5.
Proof.
  pose proof (listing_holds_every_entry_once Samples.projectFS
                (TreeFS.depth Samples.projectTree "/") "/d" ""
                (TreeFacts.tree_finiteDepth Samples.projectTree "/")
                ltac:(discriminate) eq_refl) as H.
  change (Fs.readdir Samples.projectFS (join "/d" ""))
    with (Ok [ Fs.mkDirent ".git" true; Fs.mkDirent "A" true;
               Fs.mkDirent "B" true; Fs.mkDirent "Z" false;
               Fs.mkDirent "locked" true; Fs.mkDirent "node_modules" true ]
          : result (list Fs.Dirent)) in H.
  destruct H as [s [A [B C]]].
  exists s. split; [exact A|]. split; [exact B|].
  symmetry. exact (Forall2_length C).
Defined.

End ListingFacts.

(** ** The paths of a listing lead back to its entries *)

Module Navigation.

Import Path PathFacts ResolveFacts Guard ListingTerms.

Lemma backslashToSlash_id s :
  noBackslash s = true -> Str.backslashToSlash s = s.
Proof.
  induction s as [|c s IH]; [reflexivity|].
  simpl. intros H. apply andb_true_iff in H as [Hc Hs].
  apply negb_true_iff in Hc. now rewrite Hc, IH.
Qed.

Lemma noBackslash_append a b :
  noBackslash (a ++ b) = noBackslash a && noBackslash b.
Proof.
  induction a as [|c a IH]; [reflexivity|].
  simpl. now rewrite IH, andb_assoc.
Qed.

Lemma noBackslash_split s :
  noBackslash s = true ->
  Forall (fun x => noBackslash x = true) (split_slash s).
Proof.
  induction s as [|c s IH]; intros H.
  - repeat constructor.
  - simpl in H. apply andb_true_iff in H as [Hc Hs]. specialize (IH Hs).
    simpl. destruct (Ascii.eqb c slash).
    + constructor; [reflexivity | assumption].
    + destruct (split_slash s) as [|h t].
      * constructor; [simpl; now rewrite Hc | constructor].
      * inversion IH; subst.
        constructor; [simpl; now rewrite Hc | assumption].
Qed.

Lemma noBackslash_join_slash l :
  Forall (fun x => noBackslash x = true) l -> noBackslash (join_slash l) = true.
Proof.
  induction 1 as [|x r Hx _ IH]; [reflexivity|].
  destruct r as [|y r']; [exact Hx|].
  change (join_slash (x :: y :: r'))
    with (x ++ String slash (join_slash (y :: r'))).
  rewrite noBackslash_append, Hx. exact IH.
Qed.

Lemma noBackslash_normalize s :
  noBackslash s = true -> noBackslash (normalize s) = true.
Proof.
  intros H. unfold normalize, normalizeString.
  destruct (s =? ""); [reflexivity|].
  assert (HN : noBackslash
                 (join_slash (normSegs (negb (isAbsolute s)) (split_slash s)))
               = true).
  { apply noBackslash_join_slash. unfold normSegs. apply Forall_rev.
    apply fold_step_Forall; [constructor | now apply noBackslash_split]. }
  cbv zeta.
  destruct (join_slash (normSegs (negb (isAbsolute s)) (split_slash s)) =? "").
  - destruct (isAbsolute s); [reflexivity|].
    destruct (Str.endsWithChar slash s); reflexivity.
  - destruct (isAbsolute s), (Str.endsWithChar slash s);
      cbn [noBackslash]; rewrite ?noBackslash_append, ?HN; reflexivity.
Qed.

Lemma noBackslash_join a b :
  noBackslash a = true -> noBackslash b = true -> noBackslash (join a b) = true.
Proof.
  intros Ha Hb. unfold join.
  assert (H : noBackslash
                (if a =? "" then b else if b =? "" then a else a ++ String slash b)
              = true).
  { destruct (a =? ""); [exact Hb|]. destruct (b =? ""); [exact Ha|].
    rewrite noBackslash_append, Ha. exact Hb. }
  destruct ((if a =? "" then b else if b =? "" then a else a ++ String slash b) =? "");
    [reflexivity | now apply noBackslash_normalize].
Qed.

Lemma normSegs_app_congr U U' Y :
  normSegs false U = normSegs false U' ->
  normSegs false (U ++ Y)%list = normSegs false (U' ++ Y)%list.
Proof.
  unfold normSegs. intros H. rewrite !fold_left_app.
  apply (f_equal (@rev string)) in H. rewrite !rev_involutive in H.
  now rewrite H.
Qed.

Lemma normSegs_filter_suffix b A l :
  normSegs b (A ++ filter kept l)%list = normSegs b (A ++ l)%list.
Proof.
  unfold normSegs. rewrite !fold_left_app. now rewrite fold_step_filter.
Qed.

(** The segments a normalized path adds to a base are those of the path,
    when the path is relative or climbs nowhere. *)
Lemma normSegs_suffix_normalize A s :
  s <> "" ->
  isAbsolute s = false \/ noDotDot s = true ->
  normSegs false (A ++ split_slash (normalize s))%list
  = normSegs false (A ++ split_slash s)%list.
Proof.
  intros Hs Hcase.
  rewrite <- normSegs_filter_suffix.
  rewrite (proj2 (normalize_facts s Hs)).
  destruct (isAbsolute s) eqn:Ea; simpl negb.
  - destruct Hcase as [Hc | Hc]; [discriminate|].
    assert (E : normSegs false (split_slash s) = filter kept (split_slash s)).
    { rewrite <- (normSegs_filter false (split_slash s)).
      apply normSegs_plain_id, kept_noDotDot_plain. exact Hc. }
    rewrite E. apply normSegs_filter_suffix.
  - apply normSegs_relative.
Qed.

Lemma validName_facts name :
  TreeFS.validName name = true ->
  name <> "" /\ isAbsolute name = false /\ split_slash name = [name]
  /\ noDotDot name = true.
Proof.
  intros H. destruct (TreeFacts.validName_plain name H) as [Hp Hs].
  assert (Hsplit : split_slash name = [name]) by now apply split_no_slash.
  unfold plain in Hp.
  destruct (name =? "") eqn:E1; [discriminate|].
  destruct (name =? ".") eqn:E2; [discriminate|].
  destruct (name =? "..") eqn:E3; [discriminate|].
  repeat split.
  - now apply String.eqb_neq.
  - destruct name as [|c n]; [reflexivity|].
    simpl in Hs. now apply orb_false_iff in Hs as [Hc _].
  - exact Hsplit.
  - unfold noDotDot. rewrite Hsplit. simpl. now rewrite E3.
Qed.

Lemma segments_join_join cwd a b c :
  a <> "" ->
  TreeFS.segments cwd (join (join a b) c)
  = normSegs false
      (TreeFS.base cwd a ++ split_slash a ++ split_slash b ++ split_slash c)%list.
Proof.
  intros Ha.
  rewrite join_segments by apply TreeFacts.join_nonempty.
  rewrite app_assoc.
  rewrite (normSegs_app_congr _
             (TreeFS.base cwd a ++ split_slash a ++ split_slash b)%list).
  - now rewrite <- !app_assoc.
  - rewrite <- segments_eq. now apply join_segments.
Qed.

(** The path of an entry, joined to the root, has the segments of the path
    the entry was read at. *)
Lemma segments_relPath cwd root folderPath name :
  root <> "" ->
  TreeFS.validName name = true ->
  noBackslash name = true ->
  noBackslash folderPath = true ->
  isAbsolute folderPath = false \/ noDotDot folderPath = true ->
  TreeFS.segments cwd (join root (FileExplorer.relPath folderPath name))
  = TreeFS.segments cwd (join (join root folderPath) name).
Proof.
  intros Hr Hv Hbn Hbf Hcase.
  destruct (validName_facts name Hv) as [Hne [Hrel [Hsplit Hnd]]].
  unfold FileExplorer.relPath.
  rewrite backslashToSlash_id by now apply noBackslash_join.
  rewrite segments_join_join by assumption.
  rewrite join_segments by assumption.
  rewrite !app_assoc. rewrite <- (app_assoc _ (split_slash folderPath)).
  unfold join.
  destruct (folderPath =? "") eqn:Ef.
  - apply String.eqb_eq in Ef. subst folderPath.
    rewrite (eqb_false_of_neq _ _ Hne).
    rewrite normSegs_suffix_normalize by (assumption || now left).
    rewrite <- normSegs_filter_suffix. symmetry.
    rewrite <- normSegs_filter_suffix. reflexivity.
  - apply String.eqb_neq in Ef.
    rewrite (eqb_false_of_neq _ _ Hne).
    assert (Hj : folderPath ++ String slash name <> "")
      by (destruct folderPath; [congruence | discriminate]).
    rewrite (eqb_false_of_neq _ _ Hj).
    rewrite normSegs_suffix_normalize.
    + now rewrite split_slash_app.
    + exact Hj.
    + rewrite isAbsolute_append by assumption.
      destruct Hcase as [H | H]; [now left | right].
      unfold noDotDot in *. rewrite split_slash_app, forallb_app, H. exact Hnd.
Qed.

(** X7.  The [path] that [GET /api/folders] returns for an entry, sent back
    as the request path, names that entry: joined to the root it resolves to
    the path the entry was read at.  (Names and request path without
    backslash; the request path relative, or without [..].) *)
Theorem listed_path_names_its_entry (cwd root folderPath name : string) :
  isAbsolute cwd = true ->
  root <> "" ->
  TreeFS.validName name = true ->
  noBackslash name = true ->
  noBackslash folderPath = true ->
  isAbsolute folderPath = false \/ noDotDot folderPath = true ->
  resolve cwd (join root (FileExplorer.relPath folderPath name))
  = resolve cwd (join (join root folderPath) name).
Proof.
  intros Hc Hr Hv Hbn Hbf Hcase.
  rewrite !resolve_segments by assumption. do 2 f_equal.
  now apply segments_relPath.
Qed.

Lemma listed_path_names_its_entry_witness :
  FileExplorer.relPath "a/../docs" "notes.txt" = "docs/notes.txt"
  /\ resolve "/" (join "/srv" (FileExplorer.relPath "a/../docs" "notes.txt"))
     = resolve "/" (join (join "/srv" "a/../docs") "notes.txt").
Proof.
  split; [reflexivity|].
  exact (listed_path_names_its_entry "/" "/srv" "a/../docs" "notes.txt"
           eq_refl ltac:(discriminate) eq_refl eq_refl eq_refl
           (or_introl eq_refl)).
Defined.

End Navigation.

(** ** The recursive structure of the simple explorer *)

Module StructureFacts.

Import SimpleStructure StructureTerms.

Lemma supported_has_type_name ext :
  Str.includes supportedTypes ext = true ->
  negb (SimpleExplorer.getFileTypeName ext =? "Unknown File") = true.
Proof.
  unfold Str.includes, supportedTypes. cbn [existsb]. intros H.
  repeat (apply orb_true_iff in H; destruct H as [H | H];
          [apply String.eqb_eq in H; subst ext; reflexivity|]).
  discriminate.
Qed.

Lemma allFiles_node P name path sub :
  allFilesNode P (mkFolderNode name path (folders sub) (files sub))
  = allFiles P sub.
Proof. reflexivity. Qed.

Lemma pathsFrom_node name path sub :
  pathsFromNode (mkFolderNode name path (folders sub) (files sub))
  = pathsFrom path sub.
Proof. reflexivity. Qed.

Lemma structureLoop_supported rec dirPath relativePath items s :
  (forall p r sub, rec p r = Some sub -> allFiles supportedEntry sub = true) ->
  structureLoop rec dirPath relativePath items = Some s ->
  allFiles supportedEntry s = true.
Proof.
  intros Hrec. revert s.
  induction items as [|item rest IH]; intros s; cbn [structureLoop].
  - intros H. injection H as <-. reflexivity.
  - destruct (Fs.isDir item).
    + destruct (rec _ _) as [sub|] eqn:Esub; [|discriminate].
      destruct (structureLoop rec dirPath relativePath rest) as [r|];
        [|discriminate].
      intros H. injection H as <-.
      specialize (IH r eq_refl). unfold allFiles in *. cbn [folders files forallb].
      rewrite allFiles_node. unfold allFiles at 1.
      apply andb_true_iff in IH as [IH1 IH2].
      pose proof (Hrec _ _ _ Esub) as Hs. unfold allFiles in Hs.
      now rewrite Hs, IH1, IH2.
    + destruct (structureLoop rec dirPath relativePath rest) as [r|];
        [|discriminate].
      specialize (IH r eq_refl).
      destruct (Str.includes supportedTypes _) eqn:Einc.
      * intros H. injection H as <-. unfold allFiles in *.
        cbn [folders files forallb].
        apply andb_true_iff in IH as [IH1 IH2]. rewrite IH1, IH2.
        unfold supportedEntry. cbn [fileName fileType].
        rewrite Einc, String.eqb_refl, (supported_has_type_name _ Einc).
        reflexivity.
      * intros H. injection H as <-. exact IH.
Qed.

Lemma structureLoop_paths rec dirPath relativePath items s :
  (forall p r sub, rec p r = Some sub -> pathsFrom r sub = true) ->
  structureLoop rec dirPath relativePath items = Some s ->
  pathsFrom relativePath s = true.
Proof.
  intros Hrec. revert s.
  induction items as [|item rest IH]; intros s; cbn [structureLoop].
  - intros H. injection H as <-. reflexivity.
  - destruct (Fs.isDir item).
    + destruct (rec _ _) as [sub|] eqn:Esub; [|discriminate].
      destruct (structureLoop rec dirPath relativePath rest) as [r|];
        [|discriminate].
      intros H. injection H as <-.
      specialize (IH r eq_refl). unfold pathsFrom in IH |- *.
      cbn [folders files forallb nodePath nodeName].
      rewrite pathsFrom_node, String.eqb_refl.
      apply andb_true_iff in IH as [IH1 IH2]. rewrite IH1, IH2.
      now rewrite (Hrec _ _ _ Esub).
    + destruct (structureLoop rec dirPath relativePath rest) as [r|];
        [|discriminate].
      specialize (IH r eq_refl).
      destruct (Str.includes supportedTypes _).
      * intros H. injection H as <-. unfold pathsFrom in *.
        cbn [folders files forallb fileName filePath].
        apply andb_true_iff in IH as [IH1 IH2].
        now rewrite IH1, IH2, String.eqb_refl.
      * intros H. injection H as <-. exact IH.
Qed.

Lemma getFolderStructure_S fuel fs dirPath relativePath :
  getFolderStructure (S fuel) fs dirPath relativePath
  = match Fs.readdir fs dirPath with
    | Ok items =>
        structureLoop (getFolderStructure fuel fs) dirPath relativePath items
    | Throw _ => Some emptyStructure
    end.
Proof. reflexivity. Qed.

(** X8.  Every file of the structure [getFolderStructure] returns, at any
    depth, has one of the nine supported extensions (compared in lower
    case), carries that extension without its dot as [type], and is a file
    [getFileTypeName] has a name for. *)
Theorem structure_holds_supported_files_only
  (fuel : nat) (fs : Fs.FS) (dirPath relativePath : string) (s : Structure) :
  getFolderStructure fuel fs dirPath relativePath = Some s ->
  allFiles supportedEntry s = true.
Proof.
  revert dirPath relativePath s.
  induction fuel as [|fuel IH]; intros dirPath relativePath s; [discriminate|].
  rewrite getFolderStructure_S.
  destruct (Fs.readdir fs dirPath) as [items|m].
  - apply structureLoop_supported. exact IH.
  - intros H. injection H as <-. reflexivity.
Qed.

Lemma structure_holds_supported_files_only_witness :
  getFolderStructure 3 MoreSamples.mixedFS "/srv" ""
  = Some MoreSamples.mixedStructure
  /\ allFiles supportedEntry MoreSamples.mixedStructure = true.
Proof.
  assert (E : getFolderStructure 3 MoreSamples.mixedFS "/srv" ""
              = Some MoreSamples.mixedStructure) by reflexivity.
  split; [exact E|].
  exact (structure_holds_supported_files_only 3 MoreSamples.mixedFS "/srv" ""
           MoreSamples.mixedStructure E).
Defined.

(** X9.  In the structure [getFolderStructure] returns for a relative path,
    the [path] of every folder and of every file, at any depth, is
    [path.join] of the path of the folder that holds it (the relative path,
    at the top) and its name, with backslashes turned into slashes. *)
Theorem structure_paths_follow_the_nesting
  (fuel : nat) (fs : Fs.FS) (dirPath relativePath : string) (s : Structure) :
  getFolderStructure fuel fs dirPath relativePath = Some s ->
  pathsFrom relativePath s = true.
Proof.
  revert dirPath relativePath s.
  induction fuel as [|fuel IH]; intros dirPath relativePath s; [discriminate|].
  rewrite getFolderStructure_S.
  destruct (Fs.readdir fs dirPath) as [items|m].
  - apply structureLoop_paths. exact IH.
  - intros H. injection H as <-. reflexivity.
Qed.

Lemma structure_paths_follow_the_nesting_witness :
  getFolderStructure 3 MoreSamples.mixedFS "/srv" ""
  = Some MoreSamples.mixedStructure
  /\ pathsFrom "" MoreSamples.mixedStructure = true.
Proof.
  assert (E : getFolderStructure 3 MoreSamples.mixedFS "/srv" ""
              = Some MoreSamples.mixedStructure) by reflexivity.
  split; [exact E|].
  exact (structure_paths_follow_the_nesting 3 MoreSamples.mixedFS "/srv" ""
           MoreSamples.mixedStructure E).
Defined.

Lemma structureLoop_skeleton rec rec' dirPath relativePath items :
  (forall p r, option_map skeletons (rec p r) = rec' p) ->
  option_map skeletons (structureLoop rec dirPath relativePath items)
  = FileExplorer.folderLoop rec' dirPath items.
Proof.
  intros Hrec.
  induction items as [|item rest IH];
    cbn [structureLoop FileExplorer.folderLoop]; [reflexivity|].
  rewrite <- IH. destruct (Fs.isDir item).
  - rewrite <- (Hrec (Path.join dirPath (Fs.name item))
                  (Str.backslashToSlash (Path.join relativePath (Fs.name item)))).
    destruct (rec _ _) as [sub|]; [|reflexivity].
    destruct (structureLoop rec dirPath relativePath rest) as [r|]; reflexivity.
  - destruct (structureLoop rec dirPath relativePath rest) as [r|];
      [|reflexivity].
    destruct (Str.includes supportedTypes _); reflexivity.
Qed.

(** X10.  Without its files and paths, the structure the simple explorer
    builds is the folder tree [getFolderStructure] of file_explorer_app.js
    builds for the same directory, whatever the relative path: the same
    folders in the same order at every depth, and the one returns exactly
    when the other does. *)
Theorem structure_folders_are_the_folders_only_tree
  (fuel : nat) (fs : Fs.FS) (dirPath relativePath : string) :
  option_map skeletons (getFolderStructure fuel fs dirPath relativePath)
  = FileExplorer.getFolderStructure fuel fs dirPath.
Proof.
  revert dirPath relativePath.
  induction fuel as [|fuel IH]; intros dirPath relativePath; [reflexivity|].
  rewrite getFolderStructure_S. cbn [FileExplorer.getFolderStructure].
  destruct (Fs.readdir fs dirPath) as [items|m]; [|reflexivity].
  apply structureLoop_skeleton. exact IH.
Qed.

Lemma structureLoop_mono rec rec' dirPath relativePath items s :
  (forall p r sub, rec p r = Some sub -> rec' p r = Some sub) ->
  structureLoop rec dirPath relativePath items = Some s ->
  structureLoop rec' dirPath relativePath items = Some s.
Proof.
  intros Hrec. revert s.
  induction items as [|item rest IH]; intros s; cbn [structureLoop]; [auto|].
  destruct (Fs.isDir item).
  - destruct (rec _ _) as [sub|] eqn:E; [|discriminate].
    rewrite (Hrec _ _ _ E).
    destruct (structureLoop rec dirPath relativePath rest) as [r|];
      [|discriminate].
    now rewrite (IH r eq_refl).
  - destruct (structureLoop rec dirPath relativePath rest) as [r|];
      [|discriminate].
    now rewrite (IH r eq_refl).
Qed.

Lemma structureLoop_returns rec dirPath relativePath items :
  (forall item, In item items -> Fs.isDir item = true ->
     exists sub,
       rec (Path.join dirPath (Fs.name item))
         (Str.backslashToSlash (Path.join relativePath (Fs.name item)))
       = Some sub) ->
  exists s, structureLoop rec dirPath relativePath items = Some s.
Proof.
  induction items as [|item rest IH]; intros H; cbn [structureLoop].
  - eauto.
  - destruct IH as [r E].
    { intros i Hi. apply H. now right. }
    rewrite E. destruct (Fs.isDir item) eqn:D.
    + destruct (H item (or_introl eq_refl) D) as [sub ->]. eauto.
    + destruct (Str.includes supportedTypes _); eauto.
Qed.

Lemma structure_mono fs n :
  forall dirPath relativePath s,
    getFolderStructure n fs dirPath relativePath = Some s ->
    getFolderStructure (S n) fs dirPath relativePath = Some s.
Proof.
  induction n as [|n IH]; intros dirPath relativePath s H; [discriminate|].
  rewrite getFolderStructure_S in H. rewrite getFolderStructure_S.
  destruct (Fs.readdir fs dirPath) as [items|m]; [|assumption].
  apply (structureLoop_mono (getFolderStructure n fs)); assumption.
Qed.

Lemma structure_mono_le fs n m dirPath relativePath s :
  n <= m ->
  getFolderStructure n fs dirPath relativePath = Some s ->
  getFolderStructure m fs dirPath relativePath = Some s.
Proof.
  induction 1 as [|m Hle IH]; [auto|].
  intros H. apply structure_mono. auto.
Qed.

Lemma structure_returns fs depth :
  Fs.finiteDepth fs depth ->
  forall fuel dirPath relativePath,
    depth dirPath < fuel ->
    exists s, getFolderStructure fuel fs dirPath relativePath = Some s.
Proof.
  intros Hfin. induction fuel as [|fuel IH]; intros dirPath relativePath Hd;
    [lia|].
  rewrite getFolderStructure_S.
  destruct (Fs.readdir fs dirPath) as [items|m] eqn:E; [|eauto].
  apply structureLoop_returns. intros item Hin Hdir.
  apply IH. specialize (Hfin dirPath items item E Hin Hdir). lia.
Qed.

(** X11.  [GET /api/structure] with a configured root always answers 200:
    on a file system whose directories nest to a finite depth the enumerator
    returns for the root, with a result that does not depend on the bound
    of the recursion, and the reply is that structure; it is the empty
    structure when the root cannot be listed.  The route's [catch] (status
    500) is never taken. *)
Theorem structure_route_answers_200
  (fs : Fs.FS) (depth : string -> nat) (root : string) :
  Fs.finiteDepth fs depth ->
  root <> "" ->
  exists s,
    (forall fuel, depth root < fuel ->
       apiStructure fuel fs (Some root) = Some (Json s))
    /\ statusOf (Json s) = 200
    /\ (forall message, Fs.readdir fs root = Throw message ->
          s = emptyStructure).
Proof.
  intros Hfin Hne.
  destruct (structure_returns fs depth Hfin (S (depth root)) root ""
              (Nat.lt_succ_diag_r _)) as [s E].
  exists s. split; [|split].
  - intros fuel Hf. unfold apiStructure.
    rewrite (ResolveFacts.eqb_false_of_neq _ _ Hne).
    rewrite (structure_mono_le fs (S (depth root)) fuel root "" s); [reflexivity | lia | exact E].
  - reflexivity.
  - intros message Hm. rewrite getFolderStructure_S, Hm in E.
    now injection E.
Qed.

Lemma structure_route_answers_200_witness :
  TreeFS.depth MoreSamples.mixedTree "/" "/srv" = 3
  /\ (forall fuel, 3 < fuel ->
        apiStructure fuel MoreSamples.mixedFS (Some "/srv")
        = Some (Json MoreSamples.mixedStructure)).
Proof.
  split; [reflexivity|].
  destruct (structure_route_answers_200 MoreSamples.mixedFS
              (TreeFS.depth MoreSamples.mixedTree "/") "/srv"
              (TreeFacts.tree_finiteDepth MoreSamples.mixedTree "/")
              ltac:(discriminate)) as [s [A _]].
  assert (E : Some (Json s) = Some (Json MoreSamples.mixedStructure)).
  { rewrite <- (A 4); [reflexivity | apply Nat.lt_succ_diag_r]. }
  injection E as ->. exact A.
Defined.

End StructureFacts.

(** ** The depth limit of folder_structure_app.js *)

Module DepthMore.

Import FolderStructureApp ItemTrees.

Lemma itemLevels_folder name path children :
  itemLevels (FolderItem name path children) = S (levelsOf children).
Proof. reflexivity. Qed.

Lemma pathsBelow_folder name path children :
  pathsBelow (FolderItem name path children) = pathsUnder path children.
Proof. reflexivity. Qed.

Section Facts.

Variable localeCompare : string -> string -> Z.
Variable fs : Fs.FS.

#[local] Abbreviation sort := (sort localeCompare).
#[local] Abbreviation insert := (insert localeCompare).
#[local] Abbreviation getFolderStructure := (getFolderStructure localeCompare fs).
#[local] Abbreviation getFolderStructureLevels := (getFolderStructureLevels localeCompare fs).

Lemma levelsOf_insert x l :
  levelsOf (insert x l) = Nat.max (itemLevels x) (levelsOf l).
Proof.
  induction l as [|y l IH]; cbn [FolderStructureApp.insert levelsOf];
    [reflexivity|].
  destruct (compareItems localeCompare x y <=? 0)%Z; cbn [levelsOf];
    [reflexivity|].
  rewrite IH. lia.
Qed.

Lemma levelsOf_sort l : levelsOf (sort l) = levelsOf l.
Proof.
  induction l as [|x l IH]; cbn [FolderStructureApp.sort levelsOf];
    [reflexivity|].
  now rewrite levelsOf_insert, IH.
Qed.

Lemma itemLoop_levels rec dirPath items structure n :
  (forall p, levelsOf (orEmpty (rec p)) <= n) ->
  itemLoop fs rec dirPath items = Ok structure ->
  levelsOf structure <= S n.
Proof.
  intros Hrec. revert structure.
  induction items as [|item rest IH]; intros structure; cbn [itemLoop].
  - intros H. injection H as <-. cbn. lia.
  - destruct (skipped item); [apply IH|].
    destruct (Fs.stat fs (Path.join dirPath item)) as [stat|m]; [|discriminate].
    destruct (itemLoop fs rec dirPath rest) as [rest'|m]; [|discriminate].
    intros H. injection H as <-. cbn [levelsOf].
    specialize (IH rest' eq_refl).
    destruct (Fs.isDirectory stat).
    + rewrite itemLevels_folder. specialize (Hrec (Path.join dirPath item)). lia.
    + cbn [itemLevels]. lia.
Qed.

Lemma levels_bound levels :
  forall dirPath,
    levelsOf (orEmpty (getFolderStructureLevels levels dirPath)) <= levels.
Proof.
  induction levels as [|levels IH]; intros dirPath; [cbn; lia|].
  cbn [FolderStructureApp.getFolderStructureLevels].
  destruct (Fs.readdirNames fs dirPath) as [items|m]; [|cbn; lia].
  destruct (itemLoop fs (getFolderStructureLevels levels) dirPath items)
    as [structure|m] eqn:E; [|cbn; lia].
  cbn [orEmpty]. rewrite levelsOf_sort.
  exact (itemLoop_levels _ _ _ _ _ IH E).
Qed.

(** X12.  The tree [getFolderStructure] returns has at most
    [maxDepth - currentDepth] levels of items below the directory, three
    with the default arguments, whatever the directories on disk hold
    below. *)
Theorem tree_is_no_deeper_than_the_limit
  (dirPath : string) (maxDepth currentDepth : nat) :
  levelsOf (orEmpty (getFolderStructure dirPath maxDepth currentDepth))
  <= maxDepth - currentDepth.
Proof. apply levels_bound. Qed.

Lemma itemLoop_paths rec dirPath items structure :
  (forall p, pathsUnder p (orEmpty (rec p)) = true) ->
  itemLoop fs rec dirPath items = Ok structure ->
  pathsUnder dirPath structure = true.
Proof.
  intros Hrec. revert structure.
  induction items as [|item rest IH]; intros structure; cbn [itemLoop].
  - intros H. injection H as <-. reflexivity.
  - destruct (skipped item); [apply IH|].
    destruct (Fs.stat fs (Path.join dirPath item)) as [stat|m]; [|discriminate].
    destruct (itemLoop fs rec dirPath rest) as [rest'|m]; [|discriminate].
    intros H. injection H as <-.
    specialize (IH rest' eq_refl). unfold pathsUnder in IH |- *.
    cbn [forallb]. rewrite IH, andb_true_r.
    destruct (Fs.isDirectory stat); cbn [itemPath itemName].
    + rewrite String.eqb_refl, pathsBelow_folder. apply Hrec.
    + now rewrite String.eqb_refl.
Qed.

Lemma levels_paths levels :
  forall dirPath,
    pathsUnder dirPath (orEmpty (getFolderStructureLevels levels dirPath)) = true.
Proof.
  induction levels as [|levels IH]; intros dirPath; [reflexivity|].
  cbn [FolderStructureApp.getFolderStructureLevels].
  destruct (Fs.readdirNames fs dirPath) as [items|m]; [|reflexivity].
  destruct (itemLoop fs (getFolderStructureLevels levels) dirPath items)
    as [structure|m] eqn:E; [|reflexivity].
  cbn [orEmpty]. unfold pathsUnder. rewrite DepthLimited.forallb_sort.
  exact (itemLoop_paths _ _ _ _ IH E).
Qed.

(** X13.  In the tree [getFolderStructure] returns for a directory, the
    [path] of every item, at any depth, is [path.join] of the path of the
    folder that holds it (the directory itself, at the top) and the item's
    name; sorting moves items, not their paths. *)
Theorem item_paths_follow_the_nesting
  (dirPath : string) (maxDepth currentDepth : nat) :
  pathsUnder dirPath (orEmpty (getFolderStructure dirPath maxDepth currentDepth))
  = true.
Proof. apply levels_paths. Qed.

Lemma itemLoop_statFails rec dirPath items :
  match itemLoop fs rec dirPath items with
  | Ok _ => statFails fs dirPath items = false
  | Throw _ => statFails fs dirPath items = true
  end.
Proof.
  induction items as [|item rest IH]; cbn [itemLoop]; [reflexivity|].
  unfold statFails in *. cbn [existsb].
  destruct (skipped item); cbn [negb andb orb]; [exact IH|].
  destruct (Fs.stat fs (Path.join dirPath item)) as [stat|m];
    cbn [orb]; [|reflexivity].
  destruct (itemLoop fs rec dirPath rest) as [rest'|m]; exact IH.
Qed.

(** X14.  Below its depth limit, [getFolderStructure] returns [null] in two
    cases and no other: the directory cannot be listed, or [fs.stat] fails
    on an entry of the listing that is not skipped.  What lies deeper never
    makes it [null]. *)
Theorem null_exactly_when_listing_or_stat_fails
  (dirPath : string) (maxDepth currentDepth : nat) :
  currentDepth < maxDepth ->
  getFolderStructure dirPath maxDepth currentDepth = None
  <-> (exists message, Fs.readdir fs dirPath = Throw message)
      \/ (exists items, Fs.readdir fs dirPath = Ok items
                        /\ statFails fs dirPath (map Fs.name items) = true).
Proof.
  intros Hd. unfold FolderStructureApp.getFolderStructure.
  replace (maxDepth - currentDepth) with (S (maxDepth - currentDepth - 1)) by lia.
  cbn [FolderStructureApp.getFolderStructureLevels]. unfold Fs.readdirNames.
  destruct (Fs.readdir fs dirPath) as [items|m].
  - pose proof (itemLoop_statFails
                  (getFolderStructureLevels (maxDepth - currentDepth - 1))
                  dirPath (map Fs.name items)) as H.
    destruct (itemLoop fs _ dirPath (map Fs.name items)) as [structure|m'].
    + split; [discriminate|].
      intros [[m' E] | [items' [E F]]]; [discriminate|].
      injection E as <-. congruence.
    + split; [|reflexivity]. intros _. right. eauto.
  - split; [|reflexivity]. intros _. left. eauto.
Qed.

End Facts.

Lemma null_exactly_when_listing_or_stat_fails_witness :
  statFails Samples.raceFS "/d" ["c"; "x.txt"] = true
  /\ getFolderStructure byteCompare Samples.raceFS "/d" 3 0 = None
  /\ getFolderStructure byteCompare Samples.raceFS "/nowhere" 3 0 = None.
Proof.
  split; [reflexivity|]. split.
  - apply (null_exactly_when_listing_or_stat_fails byteCompare Samples.raceFS
             "/d" 3 0); [lia|].
    right. exists [Fs.mkDirent "c" true; Fs.mkDirent "x.txt" false].
    split; reflexivity.
  - apply (null_exactly_when_listing_or_stat_fails byteCompare Samples.raceFS
             "/nowhere" 3 0); [lia|].
    left. eexists. reflexivity.
Defined.

End DepthMore.

(** ** [getFileType] and the readers *)

Module FileTypeFacts.

Import FileTypes.

Lemma getFileType_binary_cases ext :
  (ext =? ".pdf") = false -> (ext =? ".xlsx") = false ->
  (ext =? ".xls") = false -> (ext =? ".docx") = false ->
  (ext =? ".doc") = false -> (ext =? ".pptx") = false ->
  (ext =? ".ppt") = false ->
  Str.includes binaryFiles ext = false.
Proof.
  intros H1 H2 H3 H4 H5 H6 H7. unfold Str.includes, binaryFiles.
  cbn [existsb]. now rewrite H1, H2, H3, H4, H5, H6, H7.
Qed.

Lemma explorer_branch_flags fs filePath ext info :
  FileExplorer.isText info = false -> FileExplorer.isBinary info = false ->
  let r := fst (FileExplorer.readBranch fs filePath ext info) in
  FileExplorer.isBinary r = (typeOfExt ext =? "binary")
  /\ FileExplorer.isText r = (typeOfExt ext =? "text").
Proof.
  intros Ht Hb. unfold FileExplorer.readBranch, typeOfExt.
  destruct (ext =? ".pdf") eqn:E1;
    [apply String.eqb_eq in E1; subst ext; cbn; rewrite ?Ht; split; reflexivity|].
  destruct (ext =? ".xlsx") eqn:E2;
    [apply String.eqb_eq in E2; subst ext; cbn; rewrite ?Ht; split; reflexivity|].
  destruct (ext =? ".xls") eqn:E3;
    [apply String.eqb_eq in E3; subst ext; cbn; rewrite ?Ht; split; reflexivity|].
  destruct (ext =? ".docx") eqn:E4;
    [apply String.eqb_eq in E4; subst ext; cbn; rewrite ?Ht; split; reflexivity|].
  destruct (ext =? ".doc") eqn:E5;
    [apply String.eqb_eq in E5; subst ext; cbn; rewrite ?Ht; split; reflexivity|].
  destruct (ext =? ".pptx") eqn:E6;
    [apply String.eqb_eq in E6; subst ext; cbn; rewrite ?Ht; split; reflexivity|].
  destruct (ext =? ".ppt") eqn:E7;
    [apply String.eqb_eq in E7; subst ext; cbn; rewrite ?Ht; split; reflexivity|].
  rewrite (getFileType_binary_cases ext E1 E2 E3 E4 E5 E6 E7).
  cbn [orb fst].
  destruct (Fs.readFileUtf8 fs filePath) as [text|m]; cbn [fst];
    destruct (Str.includes textFiles ext); cbn; rewrite ?Hb; split; reflexivity.
Qed.

Lemma enhanced_branch_flags libs rt fs filePath ext info :
  EnhancedServer.isText info = false -> EnhancedServer.isBinary info = false ->
  EnhancedServer.downloadable info = false ->
  let r := fst (EnhancedServer.readBranch libs rt fs filePath ext info) in
  EnhancedServer.isBinary r = (typeOfExt ext =? "binary")
  /\ EnhancedServer.isText r = (typeOfExt ext =? "text")
  /\ EnhancedServer.downloadable r = EnhancedServer.isBinary r.
Proof.
  intros Ht Hb Hd. unfold EnhancedServer.readBranch, typeOfExt.
  destruct (ext =? ".pdf") eqn:E1;
    [apply String.eqb_eq in E1; subst ext;
     destruct (EnhancedServer.pdfParse libs); cbn; rewrite ?Ht;
     repeat split; reflexivity|].
  destruct (ext =? ".xlsx") eqn:E2;
    [apply String.eqb_eq in E2; subst ext;
     destruct (EnhancedServer.XLSX libs); cbn; rewrite ?Ht;
     repeat split; reflexivity|].
  destruct (ext =? ".xls") eqn:E3;
    [apply String.eqb_eq in E3; subst ext;
     destruct (EnhancedServer.XLSX libs); cbn; rewrite ?Ht;
     repeat split; reflexivity|].
  destruct (ext =? ".docx") eqn:E4;
    [apply String.eqb_eq in E4; subst ext;
     destruct (EnhancedServer.mammoth libs); cbn; rewrite ?Ht;
     repeat split; reflexivity|].
  destruct (ext =? ".doc") eqn:E5;
    [apply String.eqb_eq in E5; subst ext; cbn; rewrite ?Ht; repeat split; reflexivity|].
  destruct (ext =? ".pptx") eqn:E6;
    [apply String.eqb_eq in E6; subst ext; cbn; rewrite ?Ht; repeat split; reflexivity|].
  destruct (ext =? ".ppt") eqn:E7;
    [apply String.eqb_eq in E7; subst ext; cbn; rewrite ?Ht; repeat split; reflexivity|].
  rewrite (getFileType_binary_cases ext E1 E2 E3 E4 E5 E6 E7).
  cbn [orb fst].
  destruct (Fs.readFileUtf8 fs filePath) as [text|m]; cbn [fst];
    destruct (Str.includes textFiles ext); cbn; rewrite ?Hb, ?Hd;
    repeat split; reflexivity.
Qed.

(** X15.  The flags of a descriptor are the type [getFileType] gives the
    path, in both readers: whenever the file's metadata can be read,
    [readFileContent] returns a descriptor with [isBinary] set exactly when
    [getFileType] says ['binary'] and [isText] exactly when it says
    ['text'], whether or not the content could be read; in
    enhanced_server.js [downloadable] is set exactly with [isBinary]. *)
Theorem reader_flags_agree_with_getFileType
  (libs : EnhancedServer.Libs) (rt : EnhancedServer.Runtime) (fs : Fs.FS)
  (filePath : string) (stats : Fs.Stats) :
  Fs.stat fs filePath = Ok stats ->
  (exists info,
     FileExplorer.readFileContent fs filePath = Ok info
     /\ FileExplorer.isBinary info = (getFileType filePath =? "binary")
     /\ FileExplorer.isText info = (getFileType filePath =? "text"))
  /\ (exists info,
        EnhancedServer.readFileContent libs rt fs filePath = Ok info
        /\ EnhancedServer.isBinary info = (getFileType filePath =? "binary")
        /\ EnhancedServer.isText info = (getFileType filePath =? "text")
        /\ EnhancedServer.downloadable info = EnhancedServer.isBinary info).
Proof.
  intros Hstat. split.
  - unfold FileExplorer.readFileContent. rewrite Hstat. cbv zeta.
    pose proof (explorer_branch_flags fs filePath
                  (Str.toLowerCase (Path.extname filePath))
                  (FileExplorer.mkFileInfo (Fs.size stats) (Fs.mtime stats)
                     (Str.slice1 (Str.toLowerCase (Path.extname filePath)))
                     false false "" None None) eq_refl eq_refl) as H.
    cbv zeta in H.
    destruct (FileExplorer.readBranch _ _ _ _) as [info [message|]];
      cbn [fst] in H; eexists; (split; [reflexivity|]); exact H.
  - unfold EnhancedServer.readFileContent. rewrite Hstat. cbv zeta.
    pose proof (enhanced_branch_flags libs rt fs filePath
                  (Str.toLowerCase (Path.extname filePath))
                  (EnhancedServer.mkFileInfo (Fs.size stats) (Fs.mtime stats)
                     (Str.slice1 (Str.toLowerCase (Path.extname filePath)))
                     false false "" None false) eq_refl eq_refl eq_refl) as H.
    cbv zeta in H.
    destruct (EnhancedServer.readBranch _ _ _ _ _ _) as [info [message|]];
      cbn [fst] in H; eexists; (split; [reflexivity|]); exact H.
Qed.

Lemma reader_flags_agree_with_getFileType_witness :
  getFileType "/d/locked.xlsx" = "binary"
  /\ exists stats,
       Fs.stat Samples.officeFS "/d/locked.xlsx" = Ok stats
       /\ (exists info,
             FileExplorer.readFileContent Samples.officeFS "/d/locked.xlsx"
             = Ok info
             /\ FileExplorer.isBinary info
                = (getFileType "/d/locked.xlsx" =? "binary")
             /\ FileExplorer.isText info
                = (getFileType "/d/locked.xlsx" =? "text"))
       /\ (exists info,
             EnhancedServer.readFileContent EnhancedServer.noLibs
               Samples.stubRuntime Samples.officeFS "/d/locked.xlsx" = Ok info
             /\ EnhancedServer.isBinary info
                = (getFileType "/d/locked.xlsx" =? "binary")
             /\ EnhancedServer.isText info
                = (getFileType "/d/locked.xlsx" =? "text")
             /\ EnhancedServer.downloadable info
                = EnhancedServer.isBinary info).
Proof.
  split; [reflexivity|].
  eexists. split; [reflexivity|].
  eapply reader_flags_agree_with_getFileType. reflexivity.
Defined.

End FileTypeFacts.

(** ** Downloads below a root set through the interface *)

Module DownloadFacts.

Import Path PathFacts ResolveFacts.

Lemma join_isAbsolute a b : a <> "" -> isAbsolute (join a b) = isAbsolute a.
Proof.
  intros Ha. unfold join. rewrite (eqb_false_of_neq _ _ Ha).
  destruct (b =? "").
  - rewrite (eqb_false_of_neq _ _ Ha).
    exact (proj1 (normalize_facts a Ha)).
  - assert (Hj : a ++ String slash b <> "")
      by (destruct a; [congruence | discriminate]).
    rewrite (eqb_false_of_neq _ _ Hj).
    rewrite (proj1 (normalize_facts _ Hj)). now apply isAbsolute_append.
Qed.

Lemma validHeaderValue_append a b :
  validHeaderValue (a ++ b) = validHeaderValue a && validHeaderValue b.
Proof.
  induction a as [|c a IH]; [reflexivity|].
  cbn [append validHeaderValue]. now rewrite IH, andb_assoc.
Qed.

(** The header is accepted exactly when the name is. *)
Lemma attachment_header_valid name :
  validHeaderValue
    ("attachment; filename=" ++ doubleQuote ++ name ++ doubleQuote)
  = validHeaderValue name.
Proof.
  rewrite !validHeaderValue_append.
  change (validHeaderValue "attachment; filename=") with true.
  change (validHeaderValue doubleQuote) with true.
  now rewrite andb_true_r.
Qed.

(** X16.  Once [POST /api/set-root] has accepted a folder, the download
    route of file_explorer_app.js does one of four things with a request
    path: it answers 403 when the security check refuses the path, 404 when
    the file cannot be accessed, 500 when the base name holds a character
    [res.setHeader] does not accept, and otherwise it calls [res.sendFile]
    with [path.join] of the root and the request path, named after its base
    name.  The joined path is absolute, so the call does not throw for a
    relative path.  What the library answers to the call is its own and is
    not stated. *)
Theorem download_below_a_set_root
  (fs : Fs.FS) (ROOT_FOLDER : RootFolder) (p filePath : string) :
  isAbsolute (Fs.cwd fs) = true ->
  existingDirectory fs (JString p) = true ->
  exists root,
    fst (FileExplorer.setRoot fs ROOT_FOLDER (JString p)) = Some root
    /\ isAbsolute (join root filePath) = true
    /\ FileExplorer.apiDownload fs (Some root) (Some filePath)
       = if negb (securityCheck (Fs.cwd fs) root (join root filePath))
         then Refused 403 "Access denied"
         else if negb (Fs.access fs (join root filePath))
              then Refused 404 "File not found"
              else if negb (validHeaderValue (basename (join root filePath)))
                   then Refused 500
                          ("Unable to download file: "
                           ++ invalidHeaderChar "Content-Disposition")
                   else SendFile (join root filePath)
                          (Some (basename (join root filePath))).
Proof.
  intros Hc Hd.
  destruct (RootConfig.setRoot_accepts fs ROOT_FOLDER p Hd) as [A _].
  cbv zeta in A. exists (resolve (Fs.cwd fs) p).
  pose proof (RootMore.resolve_nonempty (Fs.cwd fs) p Hc) as Hne.
  assert (Habs : isAbsolute (join (resolve (Fs.cwd fs) p) filePath) = true).
  { rewrite join_isAbsolute by assumption. now apply RootMore.resolve_absolute. }
  split; [now rewrite A|]. split; [exact Habs|].
  unfold FileExplorer.apiDownload. cbv zeta.
  rewrite (eqb_false_of_neq _ _ Hne), Habs, attachment_header_valid.
  reflexivity.
Qed.

Lemma download_below_a_set_root_witness :
  exists root,
    fst (FileExplorer.setRoot Samples.docsFS None (JString "docs"))
    = Some root
    /\ isAbsolute (join root "a.txt") = true
    /\ FileExplorer.apiDownload Samples.docsFS (Some root) (Some "a.txt")
       = SendFile "/data/docs/a.txt" (Some "a.txt")
    /\ FileExplorer.apiDownload Samples.docsFS (Some "docs") (Some "a.txt")
       = Refused 500
           "Unable to download file: path must be absolute or specify root to res.sendFile".
Proof.
  destruct (download_below_a_set_root Samples.docsFS None "docs" "a.txt"
              eq_refl eq_refl) as [root [A [B C]]].
  exists root. split; [exact A|]. split; [exact B|].
  injection A as <-. split; [exact C | reflexivity].
Defined.

End DownloadFacts.

(** ** The sample structure *)

Module SampleFacts.

Import Path PathFacts ResolveFacts Guard PathJoin SampleStructure.

Lemma isPrefixOf_app_trans (l m t : list string) :
  isPrefixOf l m = true -> isPrefixOf l (m ++ t)%list = true.
Proof.
  intros H. destruct (isPrefixOf_app _ _ H) as [T ->].
  rewrite <- app_assoc. apply isPrefixOf_app_r.
Qed.

Lemma isPrefixOf_refl (l : list string) : isPrefixOf l l = true.
Proof. rewrite <- (app_nil_r l) at 2. apply isPrefixOf_app_r. Qed.

Lemma join3_join a b c :
  a <> "" -> b <> "" -> c <> "" ->
  join3 a b c = join a (b ++ String slash c).
Proof.
  intros Ha Hb Hc.
  assert (Hbc : b ++ String slash c <> "")
    by (destruct b; [congruence | discriminate]).
  assert (Hg : glue [a; b; c] = a ++ String slash (b ++ String slash c)).
  { cbn [glue]. change ("" =? "") with true. cbv iota.
    rewrite (eqb_false_of_neq _ _ Hc). cbv iota.
    rewrite (eqb_false_of_neq _ _ Hc), (eqb_false_of_neq _ _ Hb). cbv iota.
    now rewrite (eqb_false_of_neq _ _ Hbc), (eqb_false_of_neq _ _ Ha). }
  unfold join3, join. cbv zeta. rewrite Hg.
  now rewrite (eqb_false_of_neq _ _ Ha), (eqb_false_of_neq _ _ Hbc).
Qed.

(** A path joined to a directory inside the base, without climbing, is
    inside the base. *)
Lemma inside_join cwd baseDir dir p :
  dir <> "" -> noDotDot p = true ->
  isPrefixOf (TreeFS.segments cwd baseDir) (TreeFS.segments cwd dir) = true ->
  isPrefixOf (TreeFS.segments cwd baseDir) (TreeFS.segments cwd (join dir p))
  = true.
Proof.
  intros Hd Hp H. rewrite join_noDotDot_segments by assumption.
  now apply isPrefixOf_app_trans.
Qed.

Lemma dayOps_inside cwd baseDir day :
  isAbsolute cwd = true -> baseDir <> "" -> In day days ->
  forallb (inside cwd baseDir) (dayOps baseDir day) = true.
Proof.
  intros Hc Hb Hday.
  assert (Hnd : noDotDot day = true).
  { unfold days in Hday. cbn [In] in Hday.
    repeat (destruct Hday as [<- | Hday]; [reflexivity|]). contradiction. }
  assert (Hdir : isPrefixOf (TreeFS.segments cwd baseDir)
                   (TreeFS.segments cwd (join baseDir day)) = true).
  { apply inside_join; [assumption | assumption | apply isPrefixOf_refl]. }
  assert (Hne : join baseDir day <> "") by apply TreeFacts.join_nonempty.
  unfold dayOps, inside. cbv zeta. cbn [forallb opPath].
  rewrite !join3_join by (assumption || discriminate).
  rewrite !containedBySegments_resolve by assumption.
  rewrite Hdir.
  rewrite !(inside_join cwd baseDir (join baseDir day)) by
    (assumption || reflexivity).
  reflexivity.
Qed.

Lemma sampleOps_inside cwd baseDir :
  isAbsolute cwd = true -> baseDir <> "" ->
  forallb (inside cwd baseDir) (sampleOps baseDir) = true.
Proof.
  intros Hc Hb. unfold sampleOps. cbn [forallb].
  apply andb_true_iff. split.
  - unfold inside. cbn [opPath].
    rewrite containedBySegments_resolve by assumption. apply isPrefixOf_refl.
  - apply forallb_forall. intros op Hop.
    apply in_flat_map in Hop as [day [Hday Hop]].
    pose proof (dayOps_inside cwd baseDir day Hc Hb Hday) as H.
    rewrite forallb_forall in H. now apply H.
Qed.

Section Effects.

Variable World : Type.
Variable perform : World -> FsOp -> result World.

(** The calls made are the first calls of the list. *)
Lemma performAll_attempted (P : FsOp -> bool) w ops :
  forallb P ops = true ->
  forallb P (snd (fst (performAll World perform w ops))) = true.
Proof.
  revert w. induction ops as [|op rest IH]; intros w H; [reflexivity|].
  cbn [forallb] in H. apply andb_true_iff in H as [Hop Hrest].
  cbn [performAll].
  destruct (perform w op) as [w'|m].
  - specialize (IH w' Hrest).
    destruct (performAll World perform w' rest) as [[w'' done] error].
    cbn [fst snd forallb] in *. now rewrite Hop, IH.
  - cbn [fst snd forallb]. now rewrite Hop.
Qed.

Lemma tryCreate_inside cwd w baseDir :
  isAbsolute cwd = true -> baseDir <> "" ->
  forallb (inside cwd baseDir) (attempted (tryCreate World perform w baseDir))
  = true
  /\ exists line, outcome (tryCreate World perform w baseDir) = Logged line.
Proof.
  intros Hc Hb.
  pose proof (performAll_attempted (inside cwd baseDir) w (sampleOps baseDir)
                (sampleOps_inside cwd baseDir Hc Hb)) as H.
  unfold tryCreate.
  destruct (performAll World perform w (sampleOps baseDir)) as [[w' done] error].
  cbn [fst snd] in H.
  destruct error as [message|]; cbn [attempted outcome]; eauto.
Qed.

Lemma endsWith_nonempty s t : t <> "" -> OfficeFormats.endsWith s t = true -> s <> "".
Proof.
  intros Ht H ->. unfold OfficeFormats.endsWith in H.
  destruct t as [|c t]; [congruence|]. discriminate.
Qed.

(** X17.  [createSampleStructure] writes below its base directory only:
    every call it makes, to [fs.mkdir] or [fs.writeFile], is on a path that
    lies in the base directory by segments, whatever the file system answers
    and wherever a call fails.  In file_explorer_app.js the base directory is
    [ROOT_FOLDER]; for a root that is a string the routine never rejects, and
    for one that does not end in [sun] it makes no call at all.  In f1.js the
    base directory is [sun] below [__dirname]. *)
Theorem sample_structure_is_written_below_its_base
  (cwd root dirname : string) (w : World) :
  isAbsolute cwd = true ->
  (forallb (inside cwd root)
     (attempted (createSampleStructure World perform w (Some root))) = true
   /\ (exists line,
         outcome (createSampleStructure World perform w (Some root))
         = Logged line)
   /\ (OfficeFormats.endsWith root "sun" = false ->
       world (createSampleStructure World perform w (Some root)) = w
       /\ attempted (createSampleStructure World perform w (Some root)) = []))
  /\ (forallb (inside cwd (join dirname "sun"))
        (attempted (createSampleStructureF1 World perform w dirname)) = true
      /\ exists line,
           outcome (createSampleStructureF1 World perform w dirname)
           = Logged line).
Proof.
  intros Hc. split.
  - unfold createSampleStructure.
    destruct (OfficeFormats.endsWith root "sun") eqn:E.
    + assert (Hr : root <> "") by (apply (endsWith_nonempty root "sun"); [discriminate | exact E]).
      destruct (tryCreate_inside cwd w root Hc Hr) as [A B].
      split; [exact A|]. split; [exact B | discriminate].
    + cbn [attempted outcome world forallb]. split; [reflexivity|].
      split; [eauto | auto].
  - unfold createSampleStructureF1.
    apply tryCreate_inside; [assumption | apply TreeFacts.join_nonempty].
Qed.

End Effects.

Lemma sample_structure_is_written_below_its_base_witness :
  List.length
    (attempted (createSampleStructure (list FsOp) record [] (Some "data/sun")))
  = 49
  /\ attempted (createSampleStructure (list FsOp) readOnly [] (Some "data/sun"))
     = [Mkdir "data/sun"]
  /\ forallb (inside "/home" "data/sun")
       (attempted (createSampleStructure (list FsOp) record [] (Some "data/sun")))
     = true
  /\ forallb (inside "/home" (join "/app" "sun"))
       (attempted (createSampleStructureF1 (list FsOp) readOnly [] "/app"))
     = true.
Proof.
  split; [reflexivity|]. split; [reflexivity|].
  pose proof (sample_structure_is_written_below_its_base (list FsOp) record
                "/home" "data/sun" "/app" [] eq_refl) as [[A _] _].
  pose proof (sample_structure_is_written_below_its_base (list FsOp) readOnly
                "/home" "data/sun" "/app" [] eq_refl) as [_ [B _]].
  split; [exact A | exact B].
Defined.

End SampleFacts.

(** ** The first version of the server *)

Module FirstVersion.

Import Path PathFacts ResolveFacts PathJoin.

(** What [path.normalize] looks at. *)
Lemma normalize_congr s t :
  s <> "" -> t <> "" ->
  isAbsolute s = isAbsolute t ->
  normSegs (negb (isAbsolute s)) (split_slash s)
  = normSegs (negb (isAbsolute t)) (split_slash t) ->
  Str.endsWithChar slash s = Str.endsWithChar slash t ->
  normalize s = normalize t.
Proof.
  intros Hs Ht Ha Hn He. unfold normalize, normalizeString.
  rewrite (eqb_false_of_neq _ _ Hs), (eqb_false_of_neq _ _ Ht).
  now rewrite Hn, He, Ha.
Qed.

Lemma endsWithChar_glued c x y :
  y <> "" -> Str.endsWithChar c (x ++ String slash y) = Str.endsWithChar c y.
Proof.
  intros Hy. rewrite RootMore.endsWithChar_append by discriminate.
  now apply RootMore.endsWithChar_cons.
Qed.

Lemma glued_nonempty (a b : string) : a ++ String slash b <> "".
Proof. destruct a; discriminate. Qed.

(** A name joined to an absolute path: the canonical path of the segments. *)
Lemma join_name_canonical a b :
  isAbsolute a = true -> TreeFS.validName b = true ->
  join a b
  = String slash (join_slash (normSegs false (split_slash a) ++ [b])%list).
Proof.
  intros Ha Hb.
  destruct (Navigation.validName_facts b Hb) as [Hne [_ [Hsplit _]]].
  destruct (TreeFacts.validName_plain b Hb) as [Hp Hs].
  assert (Hane : a <> "") by (intros ->; discriminate).
  unfold join. rewrite (eqb_false_of_neq _ _ Hane), (eqb_false_of_neq _ _ Hne).
  rewrite (eqb_false_of_neq _ _ (glued_nonempty a b)).
  unfold normalize, normalizeString.
  rewrite (eqb_false_of_neq _ _ (glued_nonempty a b)).
  rewrite isAbsolute_append by assumption. rewrite Ha. cbn [negb]. cbv zeta.
  rewrite split_slash_app, Hsplit.
  rewrite normSegs_false_app_plain by (repeat constructor; exact Hp).
  rewrite endsWithChar_glued by assumption.
  rewrite (RootMore.endsWithChar_no_slash b Hs).
  destruct (join_slash (normSegs false (split_slash a) ++ [b])%list =? "") eqn:E;
    [|reflexivity].
  apply String.eqb_eq in E. exfalso.
  destruct (normSegs false (split_slash a)) as [|x r] eqn:EN.
  - cbn in E. congruence.
  - pose proof (normSegs_false_plain (split_slash a)) as HP. rewrite EN in HP.
    apply (join_slash_nonempty x (r ++ [b])%list
             (plain_kept x (Forall_inv HP))).
    exact E.
Qed.

Lemma canonical_segments a b :
  TreeFS.validName b = true ->
  Forall (fun s => plain s = true) (normSegs false (split_slash a) ++ [b])%list
  /\ Forall (fun s => hasSlash s = false)
       (normSegs false (split_slash a) ++ [b])%list.
Proof.
  intros Hb. destruct (TreeFacts.validName_plain b Hb) as [Hp Hs].
  split; apply Forall_app; split;
    [apply normSegs_false_plain | repeat constructor; exact Hp
    | apply normSegs_no_slash | repeat constructor; exact Hs].
Qed.

(** [path.join(a, b, c)] is [path.join(path.join(a, b), c)] when [a] is
    absolute and [b] a name. *)
Lemma join3_nested a b c :
  isAbsolute a = true -> TreeFS.validName b = true ->
  join3 a b c = join (join a b) c.
Proof.
  intros Ha Hb.
  destruct (Navigation.validName_facts b Hb) as [Hne [_ [Hsplit _]]].
  destruct (TreeFacts.validName_plain b Hb) as [Hp _].
  destruct (canonical_segments a b Hb) as [HP HS].
  assert (Hane : a <> "") by (intros ->; discriminate).
  pose proof (join_name_canonical a b Ha Hb) as Hj.
  unfold join3. cbn [glue]. change ("" =? "") with true. cbv iota.
  rewrite (eqb_false_of_neq _ _ Hane), (eqb_false_of_neq _ _ Hne).
  destruct (c =? "") eqn:Ec.
  - apply String.eqb_eq in Ec. subst c.
    change ("" =? "") with true. cbv iota.
    rewrite (eqb_false_of_neq _ _ Hne). cbv zeta.
    rewrite (eqb_false_of_neq _ _ (glued_nonempty a b)).
    assert (E : normalize (a ++ String slash b) = join a b).
    { unfold join. rewrite (eqb_false_of_neq _ _ Hane), (eqb_false_of_neq _ _ Hne).
      now rewrite (eqb_false_of_neq _ _ (glued_nonempty a b)). }
    rewrite E. unfold join at 2.
    rewrite (eqb_false_of_neq _ _ (TreeFacts.join_nonempty a b)).
    change ("" =? "") with true. cbv iota.
    rewrite (eqb_false_of_neq _ _ (TreeFacts.join_nonempty a b)).
    rewrite Hj. symmetry. now apply RootMore.normalize_resolved.
  - apply String.eqb_neq in Ec.
    rewrite (eqb_false_of_neq _ _ Ec). cbv iota.
    rewrite (eqb_false_of_neq _ _ (glued_nonempty b c)). cbv zeta.
    rewrite (eqb_false_of_neq _ _ (glued_nonempty a _)).
    unfold join at 1.
    rewrite (eqb_false_of_neq _ _ (TreeFacts.join_nonempty a b)),
      (eqb_false_of_neq _ _ Ec), (eqb_false_of_neq _ _ (glued_nonempty _ c)).
    apply normalize_congr.
    + apply glued_nonempty.
    + apply glued_nonempty.
    + rewrite !isAbsolute_append by
        (assumption || apply TreeFacts.join_nonempty).
      rewrite Hj. now rewrite Ha.
    + rewrite !isAbsolute_append by
        (assumption || apply TreeFacts.join_nonempty).
      rewrite Hj at 1. rewrite Ha. cbn [isAbsolute negb].
      change (Ascii.eqb slash slash) with true. cbn [negb].
      rewrite !split_slash_app, Hsplit.
      rewrite app_assoc. apply Navigation.normSegs_app_congr.
      rewrite Hj, (RootMore.normSegs_of_resolved _ HP HS).
      apply normSegs_false_app_plain. repeat constructor. exact Hp.
    + rewrite endsWithChar_glued by apply glued_nonempty.
      now rewrite !endsWithChar_glued by assumption.
Qed.

(** X18.  The folder routes of the first version are those of
    file_explorer_app.js with the root [sun] below [__dirname], without the
    security check: whenever the check passes, [GET /api/folders] of f1.js
    gives the reply of the later server, its status 500 without the message
    of the exception; and [GET /api/home-structure] gives the same reply. *)
Theorem first_version_lists_as_the_later_server
  (fuel : nat) (fs : Fs.FS) (dirname : string) (param : option string) :
  isAbsolute dirname = true ->
  securityCheck (Fs.cwd fs) (join dirname "sun")
    (join (join dirname "sun") match param with
                               | Some p => p
                               | None => ""
                               end) = true ->
  F1.apiFolders fuel fs dirname param
  = option_map F1.plainError
      (FileExplorer.apiFolders fuel fs (Some (join dirname "sun")) param)
  /\ F1.apiHomeStructure fuel fs dirname
     = FileExplorer.apiHomeStructure fuel fs (Some (join dirname "sun")).
Proof.
  intros Ha Hcheck. split.
  - unfold F1.apiFolders, FileExplorer.apiFolders. cbv zeta.
    rewrite (eqb_false_of_neq _ _ (TreeFacts.join_nonempty dirname "sun")).
    rewrite Hcheck. cbn [negb].
    rewrite (join3_nested dirname "sun" _ Ha eq_refl).
    destruct (Fs.readdir fs _) as [items|m]; [|reflexivity].
    destruct (FileExplorer.listingLoop _ _ _ items); reflexivity.
  - unfold F1.apiHomeStructure, FileExplorer.apiHomeStructure.
    now rewrite (eqb_false_of_neq _ _ (TreeFacts.join_nonempty dirname "sun")).
Qed.

Lemma first_version_lists_as_the_later_server_witness :
  join "/" "sun" = "/sun"
  /\ F1.apiFolders 3 MoreSamples.sunFS "/" (Some "mon")
     = Some (Json MoreSamples.monListing)
  /\ FileExplorer.apiFolders 3 MoreSamples.sunFS (Some "/sun") (Some "mon")
     = Some (Json MoreSamples.monListing)
  /\ F1.apiFolders 3 MoreSamples.sunFS "/" (Some "gone")
     = Some (Failure 500 "Unable to read directory").
Proof.
  split; [reflexivity|].
  pose proof (first_version_lists_as_the_later_server 3 MoreSamples.sunFS "/"
                (Some "mon") eq_refl eq_refl) as [A _].
  pose proof (first_version_lists_as_the_later_server 3 MoreSamples.sunFS "/"
                (Some "gone") eq_refl eq_refl) as [B _].
  split; [rewrite A; reflexivity|]. split; [reflexivity|].
  rewrite B. reflexivity.
Defined.

End FirstVersion.

(** ** The paths of the structure, used as request paths *)

Module StructureNavigation.

Import Path PathFacts ResolveFacts ListingTerms SimpleStructure StructureTerms.

Lemma walk_namesOk P segs :
  forall node n,
    namesOk P node = true -> TreeFS.walk node segs = Some n ->
    namesOk P n = true.
Proof.
  induction segs as [|s r IH]; intros node n Hok Hw.
  - cbn in Hw. now injection Hw as <-.
  - cbn [TreeFS.walk] in Hw.
    destruct node as [| m rd entries |]; try discriminate.
    destruct (TreeFS.child s entries) as [c|] eqn:Ec; [|discriminate].
    apply (IH c n); [|exact Hw].
    apply TreeFacts.child_In in Ec. cbn [namesOk] in Hok.
    rewrite forallb_forall in Hok. specialize (Hok _ Ec).
    now apply andb_true_iff in Hok as [_ Hok].
Qed.

(** A tree lists the names it holds. *)
Lemma tree_lists_its_names P root cwd :
  namesOk P root = true ->
  forall dirPath items item,
    Fs.readdir (TreeFS.toFS cwd root) dirPath = Ok items ->
    In item items ->
    TreeFS.validName (Fs.name item) && P (Fs.name item) = true.
Proof.
  intros Hok dirPath items item Hread Hin.
  destruct (TreeFacts.readdir_inv root cwd dirPath items Hread)
    as [m [entries [Hl ->]]].
  apply in_map_iff in Hin as [[k v] [<- Hin]].
  apply (proj1 (TreeFacts.sortEntries_In _ _)) in Hin.
  apply filter_In in Hin as [Hin Hvalid].
  unfold TreeFS.listed in Hvalid. cbn [fst] in Hvalid.
  cbn [TreeFS.dirent Fs.name fst]. rewrite Hvalid. cbn [andb].
  unfold TreeFS.lookup in Hl. destruct (dirPath =? ""); [discriminate|].
  pose proof (walk_namesOk P _ _ _ Hok Hl) as Hd. cbn [namesOk] in Hd.
  rewrite forallb_forall in Hd. specialize (Hd _ Hin).
  now apply andb_true_iff in Hd as [Hd _].
Qed.

Lemma segments_join_congr cwd a b x :
  a <> "" -> b <> "" ->
  TreeFS.segments cwd a = TreeFS.segments cwd b ->
  TreeFS.segments cwd (join a x) = TreeFS.segments cwd (join b x).
Proof.
  intros Ha Hb H. rewrite !join_segments by assumption.
  rewrite !app_assoc. apply Navigation.normSegs_app_congr.
  rewrite <- !segments_eq. exact H.
Qed.

Lemma join_relative a b :
  isAbsolute a = false -> isAbsolute b = false -> isAbsolute (join a b) = false.
Proof.
  intros Ha Hb. unfold join.
  destruct (a =? "") eqn:Ea.
  - destruct (b =? "") eqn:Eb; [reflexivity|].
    apply String.eqb_neq in Eb.
    now rewrite (proj1 (normalize_facts b Eb)).
  - apply String.eqb_neq in Ea.
    destruct (b =? "").
    + rewrite (eqb_false_of_neq _ _ Ea).
      now rewrite (proj1 (normalize_facts a Ea)).
    + rewrite (eqb_false_of_neq _ _ (FirstVersion.glued_nonempty a b)).
      rewrite (proj1 (normalize_facts _ (FirstVersion.glued_nonempty a b))).
      now rewrite isAbsolute_append.
Qed.

Lemma inStep_child cwd root dirPath relativePath name :
  root <> "" ->
  properName name = true ->
  inStep cwd root dirPath relativePath ->
  inStep cwd root (join dirPath name)
    (Str.backslashToSlash (join relativePath name)).
Proof.
  intros Hr Hn [Hd [Hs [Hb Ha]]].
  apply andb_true_iff in Hn as [Hv Hnb].
  destruct (Navigation.validName_facts name Hv) as [_ [Hrel _]].
  pose proof (Navigation.segments_relPath cwd root relativePath name
                Hr Hv Hnb Hb (or_introl Ha)) as E.
  unfold FileExplorer.relPath in E.
  repeat split.
  - apply TreeFacts.join_nonempty.
  - rewrite E. apply segments_join_congr;
      [apply TreeFacts.join_nonempty | assumption | assumption].
  - rewrite Navigation.backslashToSlash_id by now apply Navigation.noBackslash_join.
    now apply Navigation.noBackslash_join.
  - rewrite Navigation.backslashToSlash_id by now apply Navigation.noBackslash_join.
    now apply join_relative.
Qed.

Lemma inStep_addresses cwd root dirPath relativePath :
  isAbsolute cwd = true ->
  inStep cwd root dirPath relativePath ->
  addresses cwd root relativePath dirPath = true.
Proof.
  intros Hc [_ [Hs _]]. unfold addresses.
  rewrite !resolve_segments by assumption. rewrite Hs. apply String.eqb_refl.
Qed.

Lemma addressed_node cwd root dir name path sub :
  addressedNode cwd root dir (mkFolderNode name path (folders sub) (files sub))
  = addresses cwd root path (join dir name)
    && addressed cwd root (join dir name) sub.
Proof. reflexivity. Qed.

Section Walk.

Variable fs : Fs.FS.
Variable root : string.

Hypothesis cwd_absolute : isAbsolute (Fs.cwd fs) = true.
Hypothesis root_configured : root <> "".
Hypothesis proper_names :
  forall dirPath items item,
    Fs.readdir fs dirPath = Ok items -> In item items ->
    properName (Fs.name item) = true.

Lemma structureLoop_addressed rec dirPath relativePath items s :
  (forall item, In item items -> properName (Fs.name item) = true) ->
  (forall p r sub, inStep (Fs.cwd fs) root p r -> rec p r = Some sub ->
                   addressed (Fs.cwd fs) root p sub = true) ->
  inStep (Fs.cwd fs) root dirPath relativePath ->
  structureLoop rec dirPath relativePath items = Some s ->
  addressed (Fs.cwd fs) root dirPath s = true.
Proof.
  intros Hnames Hrec Hinv. revert s.
  induction items as [|item rest IH]; intros s; cbn [structureLoop].
  - intros H. injection H as <-. reflexivity.
  - assert (Hrest : forall i, In i rest -> properName (Fs.name i) = true)
      by (intros i Hi; apply Hnames; now right).
    specialize (IH Hrest).
    pose proof (inStep_child (Fs.cwd fs) root dirPath relativePath
                  (Fs.name item) root_configured
                  (Hnames item (or_introl eq_refl)) Hinv) as Hchild.
    pose proof (inStep_addresses _ _ _ _ cwd_absolute Hchild) as Haddr.
    destruct (Fs.isDir item).
    + destruct (rec _ _) as [sub|] eqn:Esub; [|discriminate].
      destruct (structureLoop rec dirPath relativePath rest) as [r|];
        [|discriminate].
      intros H. injection H as <-.
      specialize (IH r eq_refl). unfold addressed in IH |- *.
      cbn [folders files forallb].
      rewrite addressed_node, Haddr, (Hrec _ _ _ Hchild Esub).
      exact IH.
    + destruct (structureLoop rec dirPath relativePath rest) as [r|];
        [|discriminate].
      specialize (IH r eq_refl).
      destruct (Str.includes supportedTypes _).
      * intros H. injection H as <-. unfold addressed in IH |- *.
        cbn [folders files forallb fileName filePath].
        apply andb_true_iff in IH as [IH1 IH2].
        now rewrite IH1, IH2, Haddr.
      * intros H. injection H as <-. exact IH.
Qed.

Lemma getFolderStructure_addressed fuel :
  forall dirPath relativePath s,
    inStep (Fs.cwd fs) root dirPath relativePath ->
    getFolderStructure fuel fs dirPath relativePath = Some s ->
    addressed (Fs.cwd fs) root dirPath s = true.
Proof.
  induction fuel as [|fuel IH]; intros dirPath relativePath s Hinv;
    [discriminate|].
  rewrite StructureFacts.getFolderStructure_S.
  destruct (Fs.readdir fs dirPath) as [items|m] eqn:E.
  - apply structureLoop_addressed; [|exact IH | exact Hinv].
    intros item Hin. exact (proper_names dirPath items item E Hin).
  - intros H. injection H as <-. reflexivity.
Qed.

(** X19.  Every [path] in the structure of [GET /api/structure], of a folder
    or of a file at any depth, sent back as a request path, names the entry
    it was listed for: joined to the root it resolves to the path the entry
    was read at during the enumeration.  (On a file system whose names hold
    no backslash.) *)
Theorem structure_paths_address_their_entries (fuel : nat) (s : Structure) :
  getFolderStructure fuel fs root "" = Some s ->
  addressed (Fs.cwd fs) root root s = true.
Proof.
  apply getFolderStructure_addressed.
  repeat split; try assumption.
  rewrite join_segments by assumption.
  change (split_slash "") with [""].
  rewrite app_assoc, normSegs_snoc_empty. reflexivity.
Qed.

End Walk.

Lemma structure_paths_address_their_entries_witness :
  getFolderStructure 3 MoreSamples.mixedFS "/srv" ""
  = Some MoreSamples.mixedStructure
  /\ namesOk noBackslash MoreSamples.mixedTree = true
  /\ addressed "/" "/srv" "/srv" MoreSamples.mixedStructure = true.
Proof.
  assert (E : getFolderStructure 3 MoreSamples.mixedFS "/srv" ""
              = Some MoreSamples.mixedStructure) by reflexivity.
  assert (N : namesOk noBackslash MoreSamples.mixedTree = true) by reflexivity.
  split; [exact E|]. split; [exact N|].
  exact (structure_paths_address_their_entries MoreSamples.mixedFS "/srv"
           eq_refl ltac:(discriminate)
           (tree_lists_its_names noBackslash MoreSamples.mixedTree "/" N)
           3 MoreSamples.mixedStructure E).
Defined.

End StructureNavigation.

(** ** The preview of a listed file *)

Module PreviewFacts.

Import Path PathFacts ResolveFacts ListingTerms StructureTerms.

Lemma normSegs_snoc_plain b l x :
  plain x = true -> normSegs b (l ++ [x])%list = (normSegs b l ++ [x])%list.
Proof.
  intros Hx. unfold normSegs. rewrite fold_left_app. cbn [fold_left].
  now rewrite step_plain.
Qed.

Lemma filter_nonEmpty_lead l : filter nonEmpty ("" :: l) = filter nonEmpty l.
Proof. reflexivity. Qed.

Lemma filter_nonEmpty_trail l :
  filter nonEmpty (l ++ [""])%list = filter nonEmpty l.
Proof. rewrite filter_app. cbn. apply app_nil_r. Qed.

Lemma filter_nonEmpty_kept l :
  Forall (fun s => kept s = true) l -> filter nonEmpty l = l.
Proof.
  induction 1 as [|x l Hx _ IH]; [reflexivity|].
  cbn [filter]. rewrite IH. unfold kept in Hx. unfold nonEmpty.
  destruct (x =? ""); [discriminate | reflexivity].
Qed.

(** The base name of a normalized path is its last segment. *)
Lemma basename_normalize s l x :
  s <> "" ->
  normSegs (negb (isAbsolute s)) (split_slash s) = (l ++ [x])%list ->
  basename (normalize s) = x.
Proof.
  intros Hs EN. unfold basename, normalize, normalizeString.
  rewrite (eqb_false_of_neq _ _ Hs).
  pose proof (normSegs_kept (negb (isAbsolute s)) (split_slash s)) as HK.
  pose proof (normSegs_no_slash (negb (isAbsolute s)) s) as HN.
  rewrite EN in *.
  assert (Hne : (l ++ [x])%list <> []) by (destruct l; discriminate).
  assert (HS : split_slash (join_slash (l ++ [x])%list) = (l ++ [x])%list)
    by (apply split_join; assumption).
  assert (HF : filter nonEmpty (l ++ [x])%list = (l ++ [x])%list)
    by now apply filter_nonEmpty_kept.
  assert (Hj : join_slash (l ++ [x])%list <> "").
  { destruct (l ++ [x])%list as [|y r] eqn:E; [congruence|].
    apply join_slash_nonempty. exact (Forall_inv HK). }
  rewrite (eqb_false_of_neq _ _ Hj). cbv zeta.
  destruct (isAbsolute s), (Str.endsWithChar slash s).
  - change (split_slash (String slash (join_slash (l ++ [x])%list ++ "/")))
      with ("" :: split_slash (join_slash (l ++ [x])%list ++ "/")).
    rewrite filter_nonEmpty_lead, split_slash_snoc, filter_nonEmpty_trail, HS, HF.
    apply last_last.
  - change (split_slash (String slash (join_slash (l ++ [x])%list)))
      with ("" :: split_slash (join_slash (l ++ [x])%list)).
    rewrite filter_nonEmpty_lead, HS, HF. apply last_last.
  - rewrite split_slash_snoc, filter_nonEmpty_trail, HS, HF. apply last_last.
  - rewrite HS, HF. apply last_last.
Qed.

(** The last segment of the path of an entry, joined to the root, is the
    name of the entry. *)
Lemma basename_of_listed_path root relativePath name :
  root <> "" ->
  properName name = true ->
  noBackslash relativePath = true ->
  isAbsolute relativePath = false ->
  basename (join root (Str.backslashToSlash (join relativePath name))) = name.
Proof.
  intros Hr Hn Hb Ha.
  apply andb_true_iff in Hn as [Hv Hnb].
  destruct (Navigation.validName_facts name Hv) as [Hne [Hrel [Hsplit _]]].
  destruct (TreeFacts.validName_plain name Hv) as [Hp _].
  rewrite Navigation.backslashToSlash_id by now apply Navigation.noBackslash_join.
  assert (Hseg : exists M,
             filter kept (split_slash (join relativePath name))
             = (M ++ [name])%list).
  { unfold join. destruct (relativePath =? "") eqn:Ef.
    - rewrite (eqb_false_of_neq _ _ Hne).
      rewrite (proj2 (normalize_facts name Hne)), Hrel, Hsplit.
      exists []. cbn [negb]. apply (normSegs_snoc_plain true [] name Hp).
    - apply String.eqb_neq in Ef.
      rewrite (eqb_false_of_neq _ _ Hne).
      rewrite (eqb_false_of_neq _ _ (FirstVersion.glued_nonempty _ _)).
      rewrite (proj2 (normalize_facts _ (FirstVersion.glued_nonempty _ _))).
      rewrite isAbsolute_append, Ha by assumption. cbn [negb].
      rewrite split_slash_app, Hsplit.
      eexists. now apply normSegs_snoc_plain. }
  destruct Hseg as [M HM].
  unfold join at 1.
  rewrite (eqb_false_of_neq _ _ Hr).
  rewrite (eqb_false_of_neq _ _ (TreeFacts.join_nonempty relativePath name)).
  rewrite (eqb_false_of_neq _ _ (FirstVersion.glued_nonempty _ _)).
  apply (basename_normalize _
           (normSegs (negb (isAbsolute root)) (split_slash root ++ M)%list)).
  - apply FirstVersion.glued_nonempty.
  - rewrite isAbsolute_append by assumption.
    rewrite split_slash_app.
    rewrite <- Navigation.normSegs_filter_suffix, HM, app_assoc.
    now apply normSegs_snoc_plain.
Qed.

Lemma basename_name name : TreeFS.validName name = true -> basename name = name.
Proof.
  intros Hv. destruct (Navigation.validName_facts name Hv) as [Hne [_ [Hsplit _]]].
  unfold basename. rewrite Hsplit. cbn [filter]. unfold nonEmpty.
  now rewrite (eqb_false_of_neq _ _ Hne).
Qed.

Lemma extname_of_basename p q : basename p = basename q -> extname p = extname q.
Proof. unfold extname. now intros ->. Qed.

Lemma simple_preview_fields rt fs root p info :
  SimpleExplorer.apiFile rt fs (Some root) (Some p) = Json info ->
  SimpleExplorer.name info = basename (join root p)
  /\ SimpleExplorer.type info
     = Str.slice1 (Str.toLowerCase (extname (join root p))).
Proof.
  unfold SimpleExplorer.apiFile.
  destruct (root =? ""); [discriminate|].
  destruct (negb (securityCheck (Fs.cwd fs) root (join root p)));
    [discriminate|].
  destruct (Fs.stat fs (join root p)) as [stats|m]; [|discriminate].
  cbv zeta.
  destruct (Str.includes [".txt"; ".csv"] _).
  - destruct (Fs.readFileUtf8 fs (join root p)); [|discriminate].
    intros H. injection H as <-. split; reflexivity.
  - destruct (Str.includes [".jpg"; ".png"] _).
    + destruct (Fs.readFile fs (join root p)); [|discriminate].
      intros H. injection H as <-. split; reflexivity.
    + intros H. injection H as <-. split; reflexivity.
Qed.

Lemma explorer_preview_fields fs root p info :
  FileExplorer.apiFile fs (Some root) (Some p) = Json info ->
  FileExplorer.type info
  = Str.slice1 (Str.toLowerCase (extname (join root p))).
Proof.
  unfold FileExplorer.apiFile.
  destruct (root =? ""); [discriminate|].
  destruct (negb (securityCheck (Fs.cwd fs) root (join root p)));
    [discriminate|].
  destruct (negb (Fs.access fs (join root p))); [discriminate|].
  unfold FileExplorer.readFileContent.
  destruct (Fs.stat fs (join root p)) as [stats|m]; [|discriminate].
  cbv zeta.
  assert (Hb : forall ext i,
             FileExplorer.type (fst (FileExplorer.readBranch fs (join root p) ext i))
             = FileExplorer.type i).
  { intros ext i. unfold FileExplorer.readBranch.
    destruct (ext =? ".pdf"); [reflexivity|].
    destruct ((ext =? ".xlsx") || (ext =? ".xls")); [reflexivity|].
    destruct (ext =? ".docx"); [reflexivity|].
    destruct (ext =? ".doc"); [reflexivity|].
    destruct ((ext =? ".pptx") || (ext =? ".ppt")); [reflexivity|].
    destruct (Fs.readFileUtf8 fs (join root p)); reflexivity. }
  match goal with
  | |- context [FileExplorer.readBranch fs ?f ?e ?i] =>
      specialize (Hb e i);
      destruct (FileExplorer.readBranch fs f e i) as [i' [message|]]
  end; cbn [fst] in Hb; intros H; injection H as <-; cbn; exact Hb.
Qed.

(** X20.  The preview of a listed file describes that file: when the [path]
    listed for an entry is sent to [GET /api/file], a descriptor that comes
    back has the listed name as [name] (simple explorer) and the lower-cased
    extension of the listed name, without its dot, as [type] (both servers);
    for the simple explorer that is the [type] of the entry in
    [GET /api/structure]. *)
Theorem preview_describes_the_listed_file
  (rt : SimpleExplorer.Runtime) (fs : Fs.FS)
  (root relativePath name : string) :
  root <> "" ->
  properName name = true ->
  noBackslash relativePath = true ->
  isAbsolute relativePath = false ->
  (forall info,
     SimpleExplorer.apiFile rt fs (Some root)
       (Some (Str.backslashToSlash (join relativePath name))) = Json info ->
     SimpleExplorer.name info = name
     /\ SimpleExplorer.type info = Str.slice1 (Str.toLowerCase (extname name)))
  /\ (forall info,
        FileExplorer.apiFile fs (Some root)
          (Some (FileExplorer.relPath relativePath name)) = Json info ->
        FileExplorer.type info = Str.slice1 (Str.toLowerCase (extname name))).
Proof.
  intros Hr Hn Hb Ha.
  pose proof (basename_of_listed_path root relativePath name Hr Hn Hb Ha) as Hbase.
  assert (Hv : TreeFS.validName name = true)
    by now apply andb_true_iff in Hn as [Hv _].
  assert (Hext : extname (join root (Str.backslashToSlash (join relativePath name)))
                 = extname name).
  { apply extname_of_basename. now rewrite Hbase, basename_name. }
  split.
  - intros info H. destruct (simple_preview_fields _ _ _ _ _ H) as [A B].
    now rewrite A, B, Hbase, Hext.
  - intros info H. unfold FileExplorer.relPath in H.
    now rewrite (explorer_preview_fields _ _ _ _ H), Hext.
Qed.

Lemma preview_describes_the_listed_file_witness :
  SimpleExplorer.apiFile Samples.plainRuntime MoreSamples.mixedFS (Some "/srv")
    (Some "pics/a.png")
  = Json MoreSamples.previewOfPng
  /\ SimpleExplorer.name MoreSamples.previewOfPng = "a.png"
  /\ SimpleExplorer.type MoreSamples.previewOfPng = "png".
Proof.
  assert (E : SimpleExplorer.apiFile Samples.plainRuntime MoreSamples.mixedFS
                (Some "/srv") (Some "pics/a.png")
              = Json MoreSamples.previewOfPng) by reflexivity.
  split; [exact E|].
  exact (proj1 (preview_describes_the_listed_file Samples.plainRuntime
                  MoreSamples.mixedFS "/srv" "pics" "a.png"
                  ltac:(discriminate) eq_refl eq_refl eq_refl)
           MoreSamples.previewOfPng E).
Defined.

End PreviewFacts.

(** ** Trees for two depth limits *)

Module DepthCut.

Import FolderStructureApp ItemTrees.

Lemma cut_S m l : cut (S m) l = map (cutItem m) l.
Proof. reflexivity. Qed.

Section Facts.

Variable localeCompare : string -> string -> Z.
Variable fs : Fs.FS.

#[local] Abbreviation sort := (sort localeCompare).
#[local] Abbreviation insert := (insert localeCompare).
#[local] Abbreviation getFolderStructure := (getFolderStructure localeCompare fs).
#[local] Abbreviation getFolderStructureLevels := (getFolderStructureLevels localeCompare fs).

Lemma compareItems_cut m a b :
  compareItems localeCompare (cutItem m a) (cutItem m b)
  = compareItems localeCompare a b.
Proof. destruct a, b; reflexivity. Qed.

Lemma insert_cut m x l :
  insert (cutItem m x) (map (cutItem m) l) = map (cutItem m) (insert x l).
Proof.
  induction l as [|y l IH]; [reflexivity|].
  cbn [map FolderStructureApp.insert]. rewrite compareItems_cut.
  destruct (compareItems localeCompare x y <=? 0)%Z; [reflexivity|].
  cbn [map]. now rewrite IH.
Qed.

(** Sorting looks at names and kinds only. *)
Lemma sort_cut m l : sort (map (cutItem m) l) = map (cutItem m) (sort l).
Proof.
  induction l as [|x l IH]; [reflexivity|].
  cbn [map FolderStructureApp.sort]. now rewrite IH, insert_cut.
Qed.

Lemma itemLoop_cut rec rec' m dirPath items :
  (forall p, cut m (orEmpty (rec p)) = orEmpty (rec' p)) ->
  match itemLoop fs rec dirPath items with
  | Ok l => itemLoop fs rec' dirPath items = Ok (map (cutItem m) l)
  | Throw message => itemLoop fs rec' dirPath items = Throw message
  end.
Proof.
  intros Hrec. induction items as [|item rest IH]; [reflexivity|].
  cbn [itemLoop]. destruct (skipped item); [exact IH|].
  destruct (Fs.stat fs (Path.join dirPath item)) as [stat|message];
    [|reflexivity].
  destruct (itemLoop fs rec dirPath rest) as [l|message]; rewrite IH;
    [|reflexivity].
  cbn [map]. destruct (Fs.isDirectory stat); cbn [cutItem];
    [now rewrite Hrec | reflexivity].
Qed.

Lemma levels_cut n k :
  forall dirPath,
    cut n (orEmpty (getFolderStructureLevels (n + k) dirPath))
    = orEmpty (getFolderStructureLevels n dirPath)
    /\ (0 < n ->
        (getFolderStructureLevels (n + k) dirPath = None
         <-> getFolderStructureLevels n dirPath = None)).
Proof.
  induction n as [|n IH]; intros dirPath.
  - split; [reflexivity | lia].
  - cbn [Nat.add FolderStructureApp.getFolderStructureLevels].
    destruct (Fs.readdirNames fs dirPath) as [items|message];
      [|split; [reflexivity | split; auto]].
    pose proof (itemLoop_cut (getFolderStructureLevels (n + k))
                  (getFolderStructureLevels n) n dirPath items
                  (fun p => proj1 (IH p))) as H.
    destruct (itemLoop fs (getFolderStructureLevels (n + k)) dirPath items)
      as [l|message]; rewrite H.
    + cbn [orEmpty]. rewrite cut_S, sort_cut. split; [reflexivity|].
      intros _. split; discriminate.
    + split; [reflexivity | split; auto].
Qed.

(** X21.  A larger depth limit only adds levels: the tree
    [getFolderStructure] returns for a limit is the tree it returns for any
    larger limit, cut after the levels of the smaller one, and the one is
    [null] exactly when the other is. *)
Theorem larger_limit_extends_the_tree
  (dirPath : string) (maxDepth maxDepth' currentDepth : nat) :
  currentDepth < maxDepth -> maxDepth <= maxDepth' ->
  option_map (cut (maxDepth - currentDepth))
    (getFolderStructure dirPath maxDepth' currentDepth)
  = getFolderStructure dirPath maxDepth currentDepth.
Proof.
  intros Hlt Hle. unfold FolderStructureApp.getFolderStructure.
  replace (maxDepth' - currentDepth)
    with ((maxDepth - currentDepth) + (maxDepth' - maxDepth)) by lia.
  destruct (levels_cut (maxDepth - currentDepth) (maxDepth' - maxDepth) dirPath)
    as [A B].
  assert (Hpos : 0 < maxDepth - currentDepth) by lia.
  specialize (B Hpos).
  destruct (getFolderStructureLevels
              (maxDepth - currentDepth + (maxDepth' - maxDepth)) dirPath)
    as [l|] eqn:E.
  - destruct (getFolderStructureLevels (maxDepth - currentDepth) dirPath)
      as [l'|] eqn:E'.
    + cbn [option_map orEmpty] in *. now rewrite A.
    + discriminate (proj2 B eq_refl).
  - now rewrite (proj1 B eq_refl).
Qed.

End Facts.

Lemma larger_limit_extends_the_tree_witness :
  getFolderStructure byteCompare Samples.projectFS "/d" 1 0
  = Some [ FolderItem "A" "/d/A" []; FolderItem "B" "/d/B" [];
           FolderItem "locked" "/d/locked" []; FileItem "Z" "/d/Z" 1 ]
  /\ option_map (cut 1)
       (getFolderStructure byteCompare Samples.projectFS "/d" 3 0)
     = getFolderStructure byteCompare Samples.projectFS "/d" 1 0.
Proof.
  split; [reflexivity|].
  apply (larger_limit_extends_the_tree byteCompare Samples.projectFS "/d" 1 3 0);
    lia.
Defined.

End DepthCut.

(** ** The listing of the root and the tree of the home page *)

Module HomeFacts.

Import Path PathFacts ResolveFacts ListingTerms.
Import FileExplorer.

Lemma listingLoop_folders rec fullPath folderPath items s :
  listingLoop rec fullPath folderPath items = Some s ->
  folderLoop rec fullPath items = Some (map folderOf (folders s)).
Proof.
  revert s. induction items as [|item rest IH]; intros s;
    cbn [listingLoop folderLoop].
  - intros H. injection H as <-. reflexivity.
  - destruct (Fs.isDir item).
    + destruct (rec (join fullPath (Fs.name item))) as [sub|]; [|discriminate].
      destruct (listingLoop rec fullPath folderPath rest) as [r|];
        [|discriminate].
      intros H. injection H as <-. now rewrite (IH r eq_refl).
    + destruct (listingLoop rec fullPath folderPath rest) as [r|];
        [|discriminate].
      intros H. injection H as <-. cbn [folders]. exact (IH r eq_refl).
Qed.

Lemma securityCheck_root cwd root : securityCheck cwd root root = true.
Proof. unfold securityCheck, Str.startsWith. apply StrFacts.prefix_refl. Qed.

(** X22.  The tree of the home page and the listing of the root agree: when
    [GET /api/folders] answers the empty request path with a listing, its
    folders, by name and sub-folders and in their order, are the tree
    [GET /api/home-structure] answers with.  (For a root in the form
    set-root stores, which [path.join] leaves as it is.) *)
Theorem root_listing_is_the_home_structure
  (fuel : nat) (fs : Fs.FS) (root : string) (s : Listing) :
  root <> "" ->
  join root "" = root ->
  apiFolders fuel fs (Some root) None = Some (Json s) ->
  apiHomeStructure (S fuel) fs (Some root)
  = Some (Json (map folderOf (folders s))).
Proof.
  intros Hr Hj. unfold apiFolders, apiHomeStructure.
  rewrite (eqb_false_of_neq _ _ Hr). cbv zeta.
  rewrite Hj, securityCheck_root. cbn [negb getFolderStructure].
  destruct (Fs.readdir fs root) as [items|m]; [|discriminate].
  destruct (listingLoop (getFolderStructure fuel fs) root "" items) as [l|] eqn:E;
    [|discriminate].
  intros H. injection H as <-.
  now rewrite (listingLoop_folders _ _ _ _ _ E).
Qed.

Lemma root_listing_is_the_home_structure_witness :
  apiFolders 3 Samples.projectFS (Some "/d") None
  = Some (Json MoreSamples.projectListing)
  /\ apiHomeStructure 4 Samples.projectFS (Some "/d")
     = Some (Json (map folderOf (folders MoreSamples.projectListing))).
Proof.
  assert (E : apiFolders 3 Samples.projectFS (Some "/d") None
              = Some (Json MoreSamples.projectListing)) by reflexivity.
  split; [exact E|].
  exact (root_listing_is_the_home_structure 3 Samples.projectFS "/d"
           MoreSamples.projectListing ltac:(discriminate) eq_refl E).
Defined.

End HomeFacts.

(** ** Text files in the first version and in the later server *)

Module FirstVersionFiles.

Import Path PathFacts ResolveFacts OfficeFormats.

Lemma text_branch fs filePath ext info :
  isOffice ext = false ->
  FileExplorer.readBranch fs filePath ext info
  = match Fs.readFileUtf8 fs filePath with
    | Ok text =>
        (FileExplorer.setContent text (FileExplorer.setIsText true info), None)
    | Throw message => (FileExplorer.setIsText true info, Some message)
    end.
Proof.
  intros H.
  destruct (ContentReader.isOffice_false ext H)
    as [E1 [E2 [E3 [E4 [E5 [E6 E7]]]]]].
  unfold FileExplorer.readBranch.
  now rewrite E1, E2, E3, E4, E5, E6, E7.
Qed.

(** X23.  A file that is not of an office type, that can be accessed and
    whose request path passes the security check is read alike by both
    versions: [GET /api/file] of f1.js answers with [content], [size] and
    [modified] exactly when [GET /api/file] of file_explorer_app.js, with
    the root [sun] below [__dirname], answers with a descriptor without
    error that has this content, size and modification time; where the
    later server reports a read error in a descriptor, the first version
    returns no file data. *)
Theorem first_version_reads_text_as_the_later_server
  (fs : Fs.FS) (dirname p content : string) (size : N) (modified : Z) :
  isAbsolute dirname = true ->
  securityCheck (Fs.cwd fs) (join dirname "sun") (join (join dirname "sun") p)
  = true ->
  Fs.access fs (join (join dirname "sun") p) = true ->
  isOffice (extOf (join (join dirname "sun") p)) = false ->
  F1.apiFile fs dirname (Some p) = Json (F1.mkFileData content size modified)
  <-> exists info,
        FileExplorer.apiFile fs (Some (join dirname "sun")) (Some p) = Json info
        /\ FileExplorer.error info = None
        /\ FileExplorer.content info = content
        /\ FileExplorer.size info = size
        /\ FileExplorer.modified info = modified.
Proof.
  intros Ha Hcheck Hacc Hoff.
  unfold F1.apiFile, FileExplorer.apiFile, FileExplorer.readFileContent.
  rewrite (eqb_false_of_neq _ _ (TreeFacts.join_nonempty dirname "sun")).
  cbv zeta. rewrite Hcheck, Hacc. cbn [negb].
  rewrite (FirstVersion.join3_nested dirname "sun" p Ha eq_refl).
  unfold extOf in Hoff.
  destruct (Fs.stat fs (join (join dirname "sun") p)) as [stats|m2];
    [rewrite (text_branch _ _ _ _ Hoff)|];
    destruct (Fs.readFileUtf8 fs (join (join dirname "sun") p)) as [text|m1].
  - split.
    + intros H. injection H as <- <- <-. eexists. split; [reflexivity|].
      repeat split.
    + intros [info [H [_ [Hc [Hs Hm]]]]]. injection H as <-.
      cbn in Hc, Hs, Hm. now subst.
  - split; [discriminate|]. intros [info [H [He _]]]. injection H as <-.
    discriminate.
  - split; [discriminate|]. intros [info [H _]]. discriminate.
  - split; [discriminate|]. intros [info [H _]]. discriminate.
Qed.

Lemma first_version_reads_text_as_the_later_server_witness :
  F1.apiFile MoreSamples.sunFS "/" (Some "mon/schedule.txt")
  = Json (F1.mkFileData "Schedule for mon" 16 0)
  /\ exists info,
       FileExplorer.apiFile MoreSamples.sunFS (Some "/sun")
         (Some "mon/schedule.txt") = Json info
       /\ FileExplorer.error info = None
       /\ FileExplorer.content info = "Schedule for mon"
       /\ FileExplorer.size info = 16%N
       /\ FileExplorer.modified info = 0%Z.
Proof.
  assert (E : F1.apiFile MoreSamples.sunFS "/" (Some "mon/schedule.txt")
              = Json (F1.mkFileData "Schedule for mon" 16 0)) by reflexivity.
  split; [exact E|].
  exact (proj1 (first_version_reads_text_as_the_later_server MoreSamples.sunFS
                  "/" "mon/schedule.txt" "Schedule for mon" 16 0
                  eq_refl eq_refl eq_refl eq_refl) E).
Defined.

End FirstVersionFiles.

(** ** The order of listings *)

Module Ordering.

Import FolderStructureApp OrderTerms.

Lemma leb_le a b : Str.leb a b = true <-> String.compare a b <> Gt.
Proof.
  unfold Str.leb. destruct (String.compare a b); split; intros H;
    congruence.
Qed.

Lemma leb_total a b : Str.leb a b = true \/ Str.leb b a = true.
Proof.
  rewrite !leb_le, (String.compare_antisym b a).
  destruct (String.compare a b); cbn; [left | left | right]; congruence.
Qed.

Lemma leb_trans a b c :
  Str.leb a b = true -> Str.leb b c = true -> Str.leb a c = true.
Proof. rewrite !leb_le. apply ByteOrder.compare_le_trans. Qed.

(** *** A tree lists its entries in the order of the bytes *)

Lemma insertEntry_HdRel y e l :
  byEntryName y e -> HdRel byEntryName y l -> HdRel byEntryName y (TreeFS.insertEntry e l).
Proof.
  intros Hye H. destruct l as [|x l]; cbn [TreeFS.insertEntry].
  - now constructor.
  - destruct (Str.leb (fst e) (fst x)); constructor; [assumption|].
    now inversion H.
Qed.

Lemma insertEntry_Sorted e l :
  Sorted byEntryName l -> Sorted byEntryName (TreeFS.insertEntry e l).
Proof.
  induction 1 as [|x l Hs IH Hx]; cbn [TreeFS.insertEntry].
  - repeat constructor.
  - destruct (Str.leb (fst e) (fst x)) eqn:E.
    + constructor; [now constructor | now constructor].
    + constructor; [exact IH|].
      apply insertEntry_HdRel; [|exact Hx].
      destruct (leb_total (fst e) (fst x)) as [H | H]; [congruence | exact H].
Qed.

Lemma sortEntries_sorted l : StronglySorted byEntryName (TreeFS.sortEntries l).
Proof.
  apply Sorted_StronglySorted.
  - intros a b c. apply leb_trans.
  - induction l as [|e l IH]; cbn [TreeFS.sortEntries]; [constructor|].
    now apply insertEntry_Sorted.
Qed.

Lemma StronglySorted_map (A B : Type) (R : A -> A -> Prop) (R' : B -> B -> Prop)
  (f : A -> B) l :
  (forall a b, R a b -> R' (f a) (f b)) ->
  StronglySorted R l -> StronglySorted R' (map f l).
Proof.
  intros Hf. induction 1 as [|x l Hs IH Hx]; cbn [map]; constructor;
    [exact IH|].
  apply Forall_forall. intros y Hy. apply in_map_iff in Hy as [a [<- Ha]].
  apply Hf. exact (proj1 (Forall_forall _ _) Hx a Ha).
Qed.

Lemma StronglySorted_filter (A : Type) (R : A -> A -> Prop) (p : A -> bool) l :
  StronglySorted R l -> StronglySorted R (filter p l).
Proof.
  induction 1 as [|x l Hs IH Hx]; cbn [filter]; [constructor|].
  destruct (p x); [|exact IH]. constructor; [exact IH|].
  apply Forall_forall. intros y Hy. apply filter_In in Hy as [Hy _].
  exact (proj1 (Forall_forall _ _) Hx y Hy).
Qed.

Lemma StronglySorted_Forall2 (A B : Type) (R : A -> A -> Prop)
  (R' : B -> B -> Prop) (Q : A -> B -> Prop) l l' :
  (forall a b a' b', Q a a' -> Q b b' -> R a b -> R' a' b') ->
  Forall2 Q l l' -> StronglySorted R l -> StronglySorted R' l'.
Proof.
  intros HQ H. induction H as [|a a' l l' Ha Hl IH]; intros Hs; [constructor|].
  inversion Hs as [|? ? Hs' Hx]; subst. constructor; [now apply IH|].
  clear IH Hs Hs'. induction Hl as [|b b' l l' Hb Hl IH]; [constructor|].
  inversion Hx; subst. constructor; [now apply (HQ a b) | now apply IH].
Qed.

(** Every file system given by a tree returns its listings sorted. *)
Lemma tree_sortedListings (root : TreeFS.Node) (cwd : string) :
  Fs.sortedListings (TreeFS.toFS cwd root).
Proof.
  intros dirPath items Hread.
  destruct (TreeFacts.readdir_inv root cwd dirPath items Hread)
    as [m [entries [_ ->]]].
  apply (StronglySorted_map _ _ byEntryName); [|apply sortEntries_sorted].
  intros a b H. exact H.
Qed.

(** *** The listing of one directory and the folders-only tree *)

Lemma folders_only_sorted fs :
  Fs.sortedListings fs ->
  forall fuel dirPath folders,
    FileExplorer.getFolderStructure fuel fs dirPath = Some folders ->
    sortedFolders folders.
Proof.
  intros Hsorted. induction fuel as [|fuel IH]; intros dirPath folders;
    [discriminate|].
  cbn [FileExplorer.getFolderStructure].
  destruct (Fs.readdir fs dirPath) as [items|m] eqn:Hread.
  - intros H. pose proof (FoldersOnly.folderLoop_spec _ _ _ _ H) as Hspec.
    constructor.
    + apply (StronglySorted_Forall2 _ _ Fs.byBytes _ _ _ _
               (fun a b a' b' Ha Hb Hab =>
                  eq_ind_r (fun n => Str.leb n _ = true)
                    (eq_ind_r (fun n => Str.leb _ n = true) Hab (proj1 Hb))
                    (proj1 Ha))
               Hspec).
      apply StronglySorted_filter. exact (Hsorted dirPath items Hread).
    + clear H Hread. induction Hspec as [|item f l l' [_ Hsub] _ IHl];
        constructor; [exact (IH _ _ Hsub) | exact IHl].
  - intros H. injection H as <-. constructor; constructor.
Qed.

Lemma listing_sorted fs fuel fullPath folderPath items s :
  Fs.sortedListings fs ->
  StronglySorted Fs.byBytes items ->
  FileExplorer.listingLoop (FileExplorer.getFolderStructure fuel fs) fullPath
    folderPath items = Some s ->
  StronglySorted byFolderName (FileExplorer.folders s)
  /\ StronglySorted byFileName (FileExplorer.files s)
  /\ Forall (fun e => sortedFolders (FileExplorer.feSubFolders e))
       (FileExplorer.folders s).
Proof.
  intros Hsorted Hitems H.
  destruct (ListingFacts.listingLoop_spec _ _ _ _ _ H) as [Hfolders Hfiles].
  split; [|split].
  - apply (StronglySorted_Forall2 _ _ Fs.byBytes _ _ _ _
             (fun a b a' b' Ha Hb Hab =>
                eq_ind_r (fun n => Str.leb n _ = true)
                  (eq_ind_r (fun n => Str.leb _ n = true) Hab (proj1 Hb))
                  (proj1 Ha))
             Hfolders).
    now apply StronglySorted_filter.
  - rewrite Hfiles.
    apply (StronglySorted_map _ _ Fs.byBytes);
      [intros a b Hab; exact Hab | now apply StronglySorted_filter].
  - clear H Hfiles. induction Hfolders as [|item e l l' [_ [_ Hsub]] _ IHl];
      constructor; [exact (folders_only_sorted fs Hsorted _ _ _ Hsub) | exact IHl].
Qed.

(** *** The depth-limited tree *)

Section Sorted.

Variable localeCompare : string -> string -> Z.
Variable fs : Fs.FS.

Hypothesis localeCompare_total :
  forall a b, (localeCompare a b <= 0)%Z \/ (localeCompare b a <= 0)%Z.
Hypothesis localeCompare_trans :
  forall a b c,
    (localeCompare a b <= 0)%Z -> (localeCompare b c <= 0)%Z ->
    (localeCompare a c <= 0)%Z.

Lemma everyLevel_nil : everyLevel (foldersFirst localeCompare) [].
Proof. constructor; [repeat split; constructor | constructor]. Qed.

Lemma itemLoop_children rec dirPath items structure :
  (forall p, everyLevel (foldersFirst localeCompare) (orEmpty (rec p))) ->
  itemLoop fs rec dirPath items = Ok structure ->
  Forall (fun i => everyLevel (foldersFirst localeCompare) (itemChildren i))
    structure.
Proof.
  intros Hrec. revert structure.
  induction items as [|item rest IH]; intros structure; cbn [itemLoop].
  - intros H. injection H as <-. constructor.
  - destruct (skipped item); [apply IH|].
    destruct (Fs.stat fs (Path.join dirPath item)) as [stat|m]; [|discriminate].
    destruct (itemLoop fs rec dirPath rest) as [rest'|m]; [|discriminate].
    intros H. injection H as <-. constructor; [|now apply IH].
    destruct (Fs.isDirectory stat); cbn [itemChildren];
      [apply Hrec | apply everyLevel_nil].
Qed.

Lemma levels_sorted levels :
  forall dirPath,
    everyLevel (foldersFirst localeCompare)
      (orEmpty (getFolderStructureLevels localeCompare fs levels dirPath)).
Proof.
  induction levels as [|levels IH]; intros dirPath; [apply everyLevel_nil|].
  cbn [getFolderStructureLevels].
  destruct (Fs.readdirNames fs dirPath) as [items|m]; [|apply everyLevel_nil].
  destruct (itemLoop fs (getFolderStructureLevels localeCompare fs levels)
              dirPath items) as [structure|m] eqn:E; [|apply everyLevel_nil].
  cbn [orEmpty]. constructor.
  - apply (DepthLimited.sorted_folders_first localeCompare).
    now apply DepthLimited.sort_StronglySorted.
  - pose proof (itemLoop_children _ _ _ _ IH E) as H.
    apply Forall_forall. intros i Hi.
    apply (Permutation_in _ (DepthLimited.sort_perm localeCompare structure))
      in Hi.
    exact (proj1 (Forall_forall _ _) H i Hi).
Qed.

End Sorted.



End Ordering.
